(** * BeeBoo MCP server: the tool registry, dispatch and protocol bridge

    A shallow embedding of [src/api.js] (the response envelope helpers
    and the request function seen from its callers), [src/tools.js]
    (the eight tool handlers and [executeTool]) and [src/server.js]
    (the callbacks registered with the protocol server), followed by
    the properties of the written specification stated over them.

    Modelling conventions.
    - A JavaScript value is a [value]: the JSON shapes plus [undefined].
      A number is held by the decimal digits [ToString] prints for it
      ([Number.t]); the two zeros, which this program cannot tell
      apart, are one.
    - A JavaScript string is a [string]; one element of the string stands
      for one UTF-16 code unit, so [String.length] is [.length] and
      [substring 0 n] is [.slice(0, n)].  The strings of the model are
      those whose code units are below 256.  The fixed decorations of
      the handlers (icons, the long dash) are written as their UTF-8
      bytes; they are only ever concatenated, never measured.
    - An object is an association list in the order of its keys, read
      by its first binding of a key.  Its values are data, never
      functions, so an own key [toString] hides the inherited method
      and leaves the object without a conversion to text.
    - The schema validator and the protocol server are libraries of
      their own: the validator's parsing is modelled for the schemas
      the registry builds, the protocol server's handling of a call for
      the order in which it validates and calls back, and the texts of
      their error messages are left as parameters.
    - [await] and [throw] live in the monad [M]: a computation reads the
      environment, appends to the log of calls made to the request
      function and ends with a value or with an exception. *)

From Stdlib Require Import ZArith List String Ascii Bool Lia.
From Stdlib Require Import DecimalString DecimalPos.
Import ListNotations.
Set Warnings "-register-all".
Local Open Scope string_scope.
Local Open Scope Z_scope.

(* ===================================================================== *)
(** ** JavaScript numbers *)
(* ===================================================================== *)

Module Number.

(** A number by its decimal spelling: [Finite negative digits exponent]
    is [digits] times ten to the [exponent], negated when [negative]
    is set.  A spelling stands for the number nearest to it; a number
    of a payload is spelled by the digits that [ToString] prints,
    which are the fewest that read back as that number. *)
Inductive t : Type :=
| Zero
| Finite (negative : bool) (digits : positive) (exponent : Z)
| Infinity (negative : bool)
| NaN.

(** The integers, as array lengths, indices and literals give them. *)
Definition ofZ (z : Z) : t :=
  match z with
  | Z0 => Zero
  | Zpos p => Finite false p 0
  | Zneg p => Finite true p 0
  end.

Definition ofNat (n : nat) : t := ofZ (Z.of_nat n).

(** ToBoolean of a number. *)
Definition truthy (x : t) : bool :=
  match x with
  | Zero | NaN => false
  | _ => true
  end.

Definition digitsOf (p : positive) : string :=
  NilZero.string_of_uint (Pos.to_uint p).

(** A digit string without the zeros that end it. *)
Fixpoint stripZeros (s : string) : string :=
  match s with
  | EmptyString => EmptyString
  | String c r =>
      match stripZeros r with
      | EmptyString => if (c =? "0")%char then EmptyString else String c EmptyString
      | r' => String c r'
      end
  end.

Fixpoint zeros (n : nat) : string :=
  match n with
  | O => EmptyString
  | S m => String "0" (zeros m)
  end.

(** [Number::toString] in radix 10.  With [s] the digits without
    trailing zeros, [k] their count and [n] the position of the decimal
    point: an integer below 10^21 is written out, a number with its
    point inside or up to six places before the digits is written with
    a point, and every other number in exponent form. *)
Definition toString (x : t) : string :=
  match x with
  | NaN => "NaN"
  | Zero => "0"
  | Infinity negative => (if negative then "-" else "") ++ "Infinity"
  | Finite negative p e =>
      let all := digitsOf p in
      let s := stripZeros all in
      let k := Z.of_nat (String.length s) in
      let n := e + Z.of_nat (String.length all) in
      (if negative then "-" else "")
      ++ (if (k <=? n) && (n <=? 21) then s ++ zeros (Z.to_nat (n - k))
          else if (0 <? n) && (n <=? 21)
               then substring 0 (Z.to_nat n) s ++ "."
                    ++ substring (Z.to_nat n) (Z.to_nat (k - n)) s
          else if (-6 <? n) && (n <=? 0) then "0." ++ zeros (Z.to_nat (- n)) ++ s
          else (match s with
                | String c (String d r) => String c ("." ++ String d r)
                | _ => s
                end)
               ++ "e" ++ (if n - 1 <? 0 then "-" else "+")
               ++ NilZero.string_of_uint (N.to_uint (Z.to_N (Z.abs (n - 1)))))
  end.

(** The distance from an integer literal [b], 0 <= b < 2^52, to the
    middle between it and the next number above it is 2^(- halfGap b):
    a spelling up to that middle reads as [b] itself. *)
Definition halfGap (b : Z) : Z :=
  if b =? 0 then 1075 else 53 - Z.log2 b.

(** [x > b] for an integer literal [b], 0 <= b < 2^52. *)
Definition gt (x : t) (b : Z) : bool :=
  match x with
  | NaN | Zero => false
  | Infinity negative => negb negative
  | Finite true _ _ => false
  | Finite false p e =>
      if 0 <=? e then b <? Zpos p * 10 ^ e
      else (b * 2 ^ halfGap b + 1) * 10 ^ (- e) <? Zpos p * 2 ^ halfGap b
  end.

End Number.

Coercion Number.ofZ : Z >-> Number.t.

(* ===================================================================== *)
(** ** JavaScript values, validator reports and exceptions *)
(* ===================================================================== *)

Inductive value : Type :=
| VUndef
| VNull
| VBool (b : bool)
| VNum (x : Number.t)
| VStr (s : string)
| VArr (items : list value)
| VObj (props : list (string * value)).

(** The schemas the registry builds: [z.string()], [z.enum([...])],
    [z.array(item)] and [.optional()].  [.describe(...)] only attaches
    documentation and is left out. *)
Inductive ZodSchema : Type :=
| z_string
| z_enum (values : list string)
| z_array (item : ZodSchema)
| z_optional (inner : ZodSchema).

(** One report of the schema validator: the path of the offending
    value, the schema that refused it ([None]: the enclosing
    [z.object] itself) and the value it was given. *)
Record ZodIssue : Type := mkIssue {
  issue_path : list (string + nat);
  issue_expected : option ZodSchema;
  issue_received : value
}.

(** What [throw] can carry in this program: [new Error(message)] of the
    program itself, the engine's [TypeError] and the validator's error. *)
Inductive Exn : Type :=
| Error (message : string)
| TypeError (message : string)
| ZodError (issues : list ZodIssue).

(** A step that either throws or yields, and its sequencing. *)
Definition andThen {A B} (r : Exn + A) (k : A -> Exn + B) : Exn + B :=
  match r with
  | inl e => inl e
  | inr a => k a
  end.

Declare Scope js_scope.
Delimit Scope js_scope with js.
Notation "x <~ r ;; k" := (andThen r (fun x => k))
  (at level 61, r at next level, right associativity) : js_scope.
Local Open Scope js_scope.

Module JS.

(** ToBoolean. *)
Definition truthy (v : value) : bool :=
  match v with
  | VUndef | VNull => false
  | VBool b => b
  | VNum x => Number.truthy x
  | VStr s => negb (s =? "")%string
  | VArr _ | VObj _ => true
  end.

(** [a || b]. *)
Definition or (a b : value) : value := if truthy a then a else b.

Definition isArray (v : value) : bool :=
  match v with VArr _ => true | _ => false end.

Definition isString (v : value) : bool :=
  match v with VStr _ => true | _ => false end.

Definition nullish (v : value) : bool :=
  match v with VUndef | VNull => true | _ => false end.

(** The text of an integer-valued number. *)
Definition showZ (n : Z) : string := Number.toString (Number.ofZ n).
Definition showNat (n : nat) : string := showZ (Z.of_nat n).

Fixpoint lookup (k : string) (o : list (string * value)) : option value :=
  match o with
  | [] => None
  | (k', v) :: rest => if (k' =? k)%string then Some v else lookup k rest
  end.

(** [v.k] for a value that is neither [null] nor [undefined] and a data
    key [k].  Strings and arrays answer [length]; primitives have no
    other data property. *)
Definition prop (v : value) (k : string) : value :=
  match v with
  | VObj o => match lookup k o with Some x => x | None => VUndef end
  | VStr s => if (k =? "length")%string then VNum (Number.ofNat (String.length s)) else VUndef
  | VArr l => if (k =? "length")%string then VNum (Number.ofNat (List.length l)) else VUndef
  | _ => VUndef
  end.

(** [v?.k]. *)
Definition optProp (v : value) (k : string) : value :=
  if nullish v then VUndef else prop v k.

(** [Array.prototype.join] on already rendered elements. *)
Definition join (sep : string) (parts : list string) : string :=
  String.concat sep parts.

(** The text ToString gives for a value it can convert.  Inside an
    array [null] and [undefined] render as the empty string. *)
Fixpoint toStr (v : value) : string :=
  match v with
  | VUndef => "undefined"
  | VNull => "null"
  | VBool true => "true"
  | VBool false => "false"
  | VNum x => Number.toString x
  | VStr s => s
  | VArr l =>
      join "," ((fix elems (l : list value) : list string :=
                   match l with
                   | [] => []
                   | x :: r => (if nullish x then "" else toStr x) :: elems r
                   end) l)
  | VObj _ => "[object Object]"
  end.

(** The text [arr.join(sep)] gives when every element converts. *)
Definition joinValues (sep : string) (l : list value) : string :=
  join sep (map (fun x => if nullish x then "" else toStr x) l).

Fixpoint hasOwn (k : string) (o : list (string * value)) : bool :=
  match o with
  | [] => false
  | (k', _) :: rest => (k' =? k)%string || hasOwn k rest
  end.

(** Whether ToString (and ToPrimitive) can convert the value.  An
    object converts through the [toString] it inherits; an own key
    [toString] holds data, which cannot be called, and [valueOf] gives
    the object back, so no primitive is reached.  An array converts
    through [join], which converts each element that is neither [null]
    nor [undefined]. *)
Fixpoint printable (v : value) : bool :=
  match v with
  | VObj o => negb (hasOwn "toString" o)
  | VArr l => forallb (fun x => nullish x || printable x) l
  | _ => true
  end.

Definition cannotConvert : Exn :=
  TypeError "Cannot convert object to primitive value".

(** ToString, as applied by template literals, by [+] with a string
    and by [String(v)]. *)
Definition toString (v : value) : Exn + string :=
  if printable v then inr (toStr v) else inl cannotConvert.

(** [arr.join(sep)]. *)
Definition joinArray (sep : string) (l : list value) : Exn + string :=
  if printable (VArr l) then inr (joinValues sep l) else inl cannotConvert.

(** [v + 'text']. *)
Definition concat (v : value) (lit : string) : Exn + string :=
  s <~ toString v ;; inr (s ++ lit).

(** The parts of a template literal, left to right: its fixed text,
    its holes, and a hole filled by another template literal. *)
Inductive piece : Type :=
| Lit (s : string)
| Hole (v : value)
| Sub (r : Exn + string).

Definition pieceText (p : piece) : Exn + string :=
  match p with
  | Lit s => inr s
  | Hole v => toString v
  | Sub r => r
  end.

(** A template literal: the parts are converted in their order and
    the first that cannot be converted throws. *)
Fixpoint template (ps : list piece) : Exn + string :=
  match ps with
  | [] => inr ""
  | p :: rest =>
      s <~ pieceText p ;;
      match rest with
      | [] => inr s
      | _ => t <~ template rest ;; inr (s ++ t)
      end
  end.

(** [a === b] against a string literal. *)
Definition strictEqStr (v : value) (lit : string) : bool :=
  match v with VStr s => (s =? lit)%string | _ => false end.

(** The white space a numeric string may start and end with, among
    the code units below 256. *)
Definition isWhiteSpace (c : ascii) : bool :=
  let n := nat_of_ascii c in
  ((n =? 9) || (n =? 10) || (n =? 11) || (n =? 12) || (n =? 13)
   || (n =? 32) || (n =? 160))%nat.

Fixpoint dropWhite (s : string) : string :=
  match s with
  | String c r => if isWhiteSpace c then dropWhite r else s
  | EmptyString => EmptyString
  end.

Fixpoint revString (s acc : string) : string :=
  match s with
  | EmptyString => acc
  | String c r => revString r (String c acc)
  end.

Definition trim (s : string) : string :=
  revString (dropWhite (revString (dropWhite s) "")) "".

(** The value of a digit in bases up to 16. *)
Definition digitValue (c : ascii) : option N :=
  let n := N_of_ascii c in
  (if (48 <=? n) && (n <=? 57) then Some (n - 48)
   else if (97 <=? n) && (n <=? 102) then Some (n - 87)
   else if (65 <=? n) && (n <=? 70) then Some (n - 55)
   else None)%N.

Fixpoint digits (base : N) (s : string) (acc : N) : option N :=
  match s with
  | EmptyString => Some acc
  | String c r =>
      match digitValue c with
      | Some d => if (d <? base)%N then digits base r (base * acc + d)%N else None
      | None => None
      end
  end.

(** One digit at least, all of them in the base. *)
Definition natural (base : N) (s : string) : option N :=
  match s with
  | EmptyString => None
  | _ => digits base s 0%N
  end.

(** The text before the first character that satisfies [p], and the
    text after it when there is such a character. *)
Fixpoint splitAt (p : ascii -> bool) (s : string) : string * option string :=
  match s with
  | EmptyString => (EmptyString, None)
  | String c r =>
      if p c then (EmptyString, Some r)
      else let '(a, b) := splitAt p r in (String c a, b)
  end.

Definition ofN (negative : bool) (m : N) (e : Z) : Number.t :=
  match m with
  | N0 => Number.Zero
  | Npos p => Number.Finite negative p e
  end.

(** The exponent part after its [e]: an optional sign and digits. *)
Definition exponentPart (s : string) : option Z :=
  match s with
  | String "-" r => option_map (fun n => - Z.of_N n) (natural 10 r)
  | String "+" r => option_map Z.of_N (natural 10 r)
  | _ => option_map Z.of_N (natural 10 s)
  end.

(** An unsigned decimal literal: [Infinity], or digits with an
    optional point and an optional exponent, a digit at least before
    or after the point. *)
Definition unsignedDecimal (negative : bool) (s : string) : Number.t :=
  if (s =? "Infinity")%string then Number.Infinity negative
  else
    let '(mantissa, ex) := splitAt (fun c => (c =? "e")%char || (c =? "E")%char) s in
    let '(whole, fr) := splitAt (fun c => (c =? ".")%char) mantissa in
    let fraction := match fr with Some f => f | None => EmptyString end in
    match whole ++ fraction, digits 10 (whole ++ fraction) 0%N,
          match ex with Some x => exponentPart x | None => Some 0 end with
    | String _ _, Some m, Some e => ofN negative m (e - Z.of_nat (String.length fraction))
    | _, _, _ => Number.NaN
    end.

(** StringToNumber: white space trimmed, the empty string is zero; a
    literal in base 16, 8 or 2 carries its prefix and no sign; a
    decimal literal may carry a sign. *)
Definition stringToNumber (s : string) : Number.t :=
  match trim s with
  | EmptyString => Number.Zero
  | String "0" (String "x" r) | String "0" (String "X" r) =>
      match natural 16 r with Some m => ofN false m 0 | None => Number.NaN end
  | String "0" (String "o" r) | String "0" (String "O" r) =>
      match natural 8 r with Some m => ofN false m 0 | None => Number.NaN end
  | String "0" (String "b" r) | String "0" (String "B" r) =>
      match natural 2 r with Some m => ofN false m 0 | None => Number.NaN end
  | String "-" r => unsignedDecimal true r
  | String "+" r => unsignedDecimal false r
  | t => unsignedDecimal false t
  end.

(** ToNumber.  An object or an array is first converted to a
    primitive, which is its text. *)
Definition toNumber (v : value) : Exn + Number.t :=
  match v with
  | VUndef => inr Number.NaN
  | VNull => inr Number.Zero
  | VBool b => inr (if b then Number.ofZ 1 else Number.Zero)
  | VNum x => inr x
  | VStr s => inr (stringToNumber s)
  | VArr _ | VObj _ => s <~ toString v ;; inr (stringToNumber s)
  end.

(** [v > n] against an integer literal. *)
Definition gt (v : value) (n : Z) : Exn + bool :=
  x <~ toNumber v ;; inr (Number.gt x n).

(** [JSON.stringify] of a string: quotes, with the mandatory escapes. *)
Definition hexDigit (n : nat) : ascii :=
  ascii_of_nat (if (n <? 10)%nat then 48 + n else 87 + n).

Definition escapeChar (c : ascii) : string :=
  let n := nat_of_ascii c in
  if (n =? 34)%nat then String "\" (String c "")
  else if (n =? 92)%nat then "\\"
  else if (n =? 8)%nat then "\b"
  else if (n =? 12)%nat then "\f"
  else if (n =? 10)%nat then "\n"
  else if (n =? 13)%nat then "\r"
  else if (n =? 9)%nat then "\t"
  else if (n <? 32)%nat
       then "\u00" ++ String (hexDigit (n / 16)) (String (hexDigit (n mod 16)) "")
  else String c "".

Fixpoint escapeString (s : string) : string :=
  match s with
  | EmptyString => ""
  | String c r => escapeChar c ++ escapeString r
  end.

(** The one-character string holding a double quote. *)
Definition dq : string := String (ascii_of_nat 34) "".

Definition quote (s : string) : string := dq ++ escapeString s ++ dq.

(** [JSON.stringify] of a number: the infinities and NaN are [null]. *)
Definition stringifyNumber (x : Number.t) : string :=
  match x with
  | Number.Infinity _ | Number.NaN => "null"
  | _ => Number.toString x
  end.

(** [JSON.stringify v] for a value that is not [undefined]: no
    indentation, [undefined] array slots as [null], properties whose
    value is [undefined] left out. *)
Fixpoint stringify (v : value) : string :=
  match v with
  | VUndef | VNull => "null"
  | VBool true => "true"
  | VBool false => "false"
  | VNum x => stringifyNumber x
  | VStr s => quote s
  | VArr l =>
      "[" ++ join "," ((fix elems (l : list value) : list string :=
                          match l with
                          | [] => []
                          | x :: r => stringify x :: elems r
                          end) l) ++ "]"
  | VObj o =>
      "{" ++ join "," ((fix members (o : list (string * value)) : list string :=
                          match o with
                          | [] => []
                          | (k, VUndef) :: r => members r
                          | (k, x) :: r => (quote k ++ ":" ++ stringify x) :: members r
                          end) o) ++ "}"
  end.

End JS.

(* ===================================================================== *)
(** ** The environment and the monad *)
(* ===================================================================== *)

(** [request]'s arguments, as its callers pass them. *)
Record HttpRequest : Type := mkRequest {
  req_method : string;
  req_path : string;
  req_body : value;
  req_query : value
}.

(** What [request] resolves to. *)
Record TransportResult : Type := mkResult {
  status : Z;
  data : value;
  raw : string
}.

(** The process environment and the remote end.  [network] stands for
    the HTTP exchange of [request] (headers, socket, 30 s timeout,
    body parsing): [inl message] is a rejection with
    [new Error(message)]. *)
Record Env : Type := mkEnv {
  BEEBOO_API_KEY : option string;
  network : HttpRequest -> string + TransportResult
}.

Definition Log : Type := list HttpRequest.

Definition M (A : Type) : Type := Env -> Log -> (Exn + A) * Log.

Definition ret {A} (a : A) : M A := fun _ log => (inr a, log).

Definition throw {A} (e : Exn) : M A := fun _ log => (inl e, log).

Definition bind {A B} (m : M A) (k : A -> M B) : M B :=
  fun env log =>
    match m env log with
    | (inr a, log') => k a env log'
    | (inl e, log') => (inl e, log')
    end.

(** [try { m } catch (error) { h error }]. *)
Definition try_catch {A} (m : M A) (h : Exn -> M A) : M A :=
  fun env log =>
    match m env log with
    | (inr a, log') => (inr a, log')
    | (inl e, log') => h e env log'
    end.

Notation "x <- m ;; k" := (bind m (fun x => k))
  (at level 61, m at next level, right associativity) : js_scope.

(** Lift a step that either throws or yields. *)
Definition lift {A} (r : Exn + A) : M A :=
  match r with inl e => throw e | inr a => ret a end.

(** [v.k] where [v] may be [null] or [undefined]. *)
Definition getProp (v : value) (k : string) : Exn + value :=
  match v with
  | VUndef | VNull =>
      inl (TypeError ("Cannot read properties of " ++ JS.toStr v
                      ++ " (reading '" ++ k ++ "')"))
  | _ => inr (JS.prop v k)
  end.

(* ===================================================================== *)
(** ** api.js *)
(* ===================================================================== *)

(** [getConfig]: the key must be set and not empty. *)
Definition getConfig (env : Env) : Exn + string :=
  match BEEBOO_API_KEY env with
  | Some k => if (k =? "")%string
              then inl (Error "BEEBOO_API_KEY environment variable is required")
              else inr k
  | None => inl (Error "BEEBOO_API_KEY environment variable is required")
  end.

(** [Object.entries(v)]: the properties of an object, the indexed
    elements of an array, the indexed characters of a string, nothing
    for the other values. *)
Fixpoint indexedFrom {A} (f : A -> value) (i : nat) (l : list A) : list (string * value) :=
  match l with
  | [] => []
  | x :: r => (JS.showNat i, f x) :: indexedFrom f (S i) r
  end.

Definition entries (v : value) : list (string * value) :=
  match v with
  | VObj o => o
  | VArr l => indexedFrom (fun x => x) 0 l
  | VStr s => indexedFrom (fun c => VStr (String c "")) 0 (list_ascii_of_string s)
  | _ => []
  end.

(** The loop of [request] over the entries of [query]: an entry whose
    value is not [undefined], [null] or the empty string gives the
    parameter [String(value)]; the first value without a text
    throws. *)
Fixpoint params (es : list (string * value)) : Exn + list (string * string) :=
  match es with
  | [] => inr []
  | (k, v) :: rest =>
      match v with
      | VUndef | VNull | VStr EmptyString => params rest
      | _ => s <~ JS.toString v ;; ps <~ params rest ;; inr ((k, s) :: ps)
      end
  end.

(** The parameters [request] puts on the URL. *)
Definition queryParams (query : value) : Exn + list (string * string) :=
  if JS.truthy query then params (entries query) else inr [].

(** [request(method, path, body, query)].  Every call is logged; the
    configuration is read first, then the query parameters are
    collected, then the exchange takes place.  An exception on the way
    rejects the promise. *)
Definition request (method path : string) (body query : value) : M TransportResult :=
  fun env log =>
    let rq := mkRequest method path body query in
    let log' := (log ++ [rq])%list in
    match getConfig env with
    | inl e => (inl e, log')
    | inr _ =>
        match queryParams query with
        | inl e => (inl e, log')
        | inr _ =>
            match network env rq with
            | inl msg => (inl (Error msg), log')
            | inr res => (inr res, log')
            end
        end
    end.

Module api.

(** A parameter left [undefined] takes its default [null]. *)
Definition dflt (v : value) : value :=
  match v with VUndef => VNull | _ => v end.

Definition get (path : string) (query : value) : M TransportResult :=
  request "GET" path VNull (dflt query).

Definition post (path : string) (body query : value) : M TransportResult :=
  request "POST" path (dflt body) (dflt query).

(** [searchKnowledge(query, { limit: 10 })]: the body is
    [{ query, limit: opts.limit || 10, ...opts }]. *)
Definition searchKnowledge (query : value) (limit : Z) : M TransportResult :=
  post "/api/v1/knowledge/search"
       (VObj [("query", query); ("limit", JS.or (VNum limit) (VNum 10))]) VUndef.

Definition listKnowledgeEntries (query : value) : M TransportResult :=
  get "/api/v1/knowledge/entries" query.

Definition createKnowledgeEntry (entry : value) : M TransportResult :=
  post "/api/v1/knowledge/entries" entry VUndef.

Definition submitApproval (d : value) : M TransportResult :=
  post "/api/v1/approvals" d VUndef.

Definition listApprovals (query : value) : M TransportResult :=
  get "/api/v1/approvals" query.

(** [getApproval(id)]: the path is a template literal. *)
Definition getApproval (id : value) : M TransportResult :=
  path <- lift (JS.template [JS.Lit "/api/v1/approvals/"; JS.Hole id]) ;;
  get path VUndef.

Definition createRequest (d : value) : M TransportResult :=
  post "/api/v1/requests" d VUndef.

Definition listRequests (query : value) : M TransportResult :=
  get "/api/v1/requests" query.

End api.

(** [isOk]: 2xx. *)
Definition isOk (res : TransportResult) : bool :=
  (200 <=? status res) && (status res <? 300).

(** [getData]: the payload of a [{ data: ... }] envelope, else the body. *)
Definition getData (res : TransportResult) : value :=
  match JS.optProp (data res) "data" with
  | VUndef => data res
  | d => d
  end.

(** [getError]. *)
Definition getError (res : TransportResult) : value :=
  let error := JS.optProp (data res) "error" in
  if JS.truthy (JS.optProp error "message") then JS.optProp error "message"
  else if JS.truthy error
       then (if JS.isString error then error else VStr (JS.stringify error))
  else if JS.isString (data res) then data res
  else VStr ("HTTP " ++ JS.showZ (status res)).

(* ===================================================================== *)
(** ** tools.js: the validator as the registry uses it *)
(* ===================================================================== *)

Module z.

Definition isOptional (s : ZodSchema) : bool :=
  match s with z_optional _ => true | _ => false end.

Fixpoint mem (s : string) (l : list string) : bool :=
  match l with
  | [] => false
  | x :: r => (x =? s)%string || mem s r
  end.

(** Parse one value: the reports (none on success) and the output. *)
Fixpoint parse (s : ZodSchema) (path : list (string + nat)) (v : value)
  : list ZodIssue * value :=
  match s with
  | z_string =>
      match v with
      | VStr _ => ([], v)
      | _ => ([mkIssue path (Some s) v], v)
      end
  | z_enum values =>
      match v with
      | VStr x => if mem x values then ([], v) else ([mkIssue path (Some s) v], v)
      | _ => ([mkIssue path (Some s) v], v)
      end
  | z_array item =>
      match v with
      | VArr l =>
          let '(issues, outs) :=
            (fix each (i : nat) (l : list value) : list ZodIssue * list value :=
               match l with
               | [] => ([], [])
               | x :: r =>
                   let '(ix, ox) := parse item (path ++ [inr i])%list x in
                   let '(ir, or) := each (S i) r in
                   ((ix ++ ir)%list, ox :: or)
               end) 0%nat l in
          (issues, VArr outs)
      | _ => ([mkIssue path (Some s) v], v)
      end
  | z_optional inner =>
      match v with
      | VUndef => ([], VUndef)
      | _ => parse inner path v
      end
  end.

(** The fields of [z.object(shape)] against the properties of an
    object: unknown keys are dropped, a key is kept in the output when
    it has a value or was present in the input. *)
Fixpoint parseFields (shape : list (string * ZodSchema)) (o : list (string * value))
  : list ZodIssue * list (string * value) :=
  match shape with
  | [] => ([], [])
  | (k, s) :: rest =>
      let '(ik, out) := parse s [inl k] (JS.prop (VObj o) k) in
      let '(ir, outs) := parseFields rest o in
      let keep := match out, JS.lookup k o with
                  | VUndef, None => false
                  | _, _ => true
                  end in
      ((ik ++ ir)%list, if keep then (k, out) :: outs else outs)
  end.

(** [z.object(shape).parse(v)]. *)
Definition object_parse (shape : list (string * ZodSchema)) (v : value)
  : Exn + value :=
  match v with
  | VObj o =>
      match parseFields shape o with
      | ([], outs) => inr (VObj outs)
      | (issues, _) => inl (ZodError issues)
      end
  | _ => inl (ZodError [mkIssue [] None v])
  end.

(** [z.object(undefined).parse(v)]: the kind of [v] is checked first,
    then the keys of the missing shape are asked for. *)
Definition shapeless_parse (v : value) : Exn + value :=
  match v with
  | VObj _ => inl (TypeError "Cannot convert undefined or null to object")
  | _ => inl (ZodError [mkIssue [] None v])
  end.

End z.

(* ===================================================================== *)
(** ** tools.js: text helpers of the handlers *)
(* ===================================================================== *)

Definition nl : string := String (ascii_of_nat 10) "".

(** A template literal's quoted hole. *)
Definition quoted (s : string) : string := JS.dq ++ s ++ JS.dq.

(** [recv.slice(0, n)]: strings and arrays have the method. *)
Definition slice (recv : string) (v : value) (n : nat) : Exn + value :=
  match v with
  | VStr s => inr (VStr (substring 0 n s))
  | VArr l => inr (VArr (firstn n l))
  | _ => inl (TypeError (recv ++ " is not a function"))
  end.

(** [items.map((x, i) => f(i, x))], stopping at the first exception. *)
Fixpoint mapi (f : nat -> value -> Exn + string) (i : nat) (l : list value)
  : Exn + list string :=
  match l with
  | [] => inr []
  | x :: r =>
      match f i x with
      | inl e => inl e
      | inr y => match mapi f (S i) r with
                 | inl e => inl e
                 | inr ys => inr (y :: ys)
                 end
      end
  end.

(** Destructuring a parameter [{ k, ... }]. *)
Definition destructure (v : value) (k : string) : Exn + value :=
  match v with
  | VUndef =>
      inl (TypeError ("Cannot destructure property '" ++ k
                      ++ "' of 'undefined' as it is undefined."))
  | VNull =>
      inl (TypeError ("Cannot destructure property '" ++ k
                      ++ "' of 'object null' as it is null."))
  | _ => inr (JS.prop v k)
  end.

Module Slug.

(** The upper case letters among the code units below 256: A to Z,
    and the accented capitals from 192 to 222 without the
    multiplication sign. *)
Definition isUpper (c : ascii) : bool :=
  let n := nat_of_ascii c in
  (((65 <=? n) && (n <=? 90))
   || ((192 <=? n) && (n <=? 222) && negb (n =? 215)))%nat.

Definition lowerChar (c : ascii) : ascii :=
  if isUpper c then ascii_of_nat (nat_of_ascii c + 32) else c.

(** [s.toLowerCase()] on code units below 256: each capital moves to
    its small letter, 32 places up.  Of these code units only A-Z
    turn into characters of the class [a-z0-9]. *)
Fixpoint toLowerCase (s : string) : string :=
  match s with
  | EmptyString => EmptyString
  | String c r => String (lowerChar c) (toLowerCase r)
  end.

(** The class [a-z0-9]. *)
Definition isAlnum (c : ascii) : bool :=
  let n := nat_of_ascii c in
  (((97 <=? n) && (n <=? 122)) || ((48 <=? n) && (n <=? 57)))%nat.

(** [s.replace(/[^a-z0-9]+/g, '-')]; [inRun] tells that the previous
    character already belongs to the match being replaced. *)
Fixpoint replaceRuns (inRun : bool) (s : string) : string :=
  match s with
  | EmptyString => EmptyString
  | String c r =>
      if isAlnum c then String c (replaceRuns false r)
      else if inRun then replaceRuns true r
      else String "-" (replaceRuns true r)
  end.

Definition isDash (c : ascii) : bool := (c =? "-")%char.

Definition isEmpty (s : string) : bool :=
  match s with EmptyString => true | _ => false end.

(** The alternative [^-]: a dash that starts the string. *)
Definition dropLeadingDash (s : string) : string :=
  match s with
  | String c r => if isDash c then r else s
  | EmptyString => EmptyString
  end.

(** The alternative [-$]: a dash that ends the string. *)
Fixpoint dropTrailingDash (s : string) : string :=
  match s with
  | EmptyString => EmptyString
  | String c r =>
      if isDash c && isEmpty r then EmptyString
      else String c (dropTrailingDash r)
  end.

(** [s.replace(/^-|-$/g, '')]. *)
Definition trimDashes (s : string) : string :=
  dropTrailingDash (dropLeadingDash s).

(** The [key] of a new knowledge entry. *)
Definition slug (title : string) : string :=
  trimDashes (replaceRuns false (toLowerCase title)).

End Slug.

(** [title.toLowerCase()...] on what the handler was given. *)
Definition slugOf (title : value) : Exn + string :=
  match title with
  | VStr s => inr (Slug.slug s)
  | VUndef | VNull =>
      inl (TypeError ("Cannot read properties of " ++ JS.toStr title
                      ++ " (reading 'toLowerCase')"))
  | _ => inl (TypeError "title.toLowerCase is not a function")
  end.

(* ===================================================================== *)
(** ** tools.js: the handlers *)
(* ===================================================================== *)

(** What a handler returns: [{ text, data }].  A result written without
    [data] reads [undefined] there. *)
Record ToolResult : Type := mkToolResult {
  text : string;
  tool_data : value
}.

(** [if (!isOk(res)) throw new Error(`<what>: ${getError(res)}`)]. *)
Definition orFail (what : string) (res : TransportResult) : M unit :=
  if negb (isOk res)
  then (message <- lift (JS.template [JS.Lit what; JS.Lit ": "; JS.Hole (getError res)]) ;;
        throw (Error message))
  else ret tt.

(** [x.id?.slice(0, 8) || '—'] of the list renderers; [x] is known not
    to be [null] here. *)
Definition shortId (recv : string) (x : value) : Exn + value :=
  let id := JS.prop x "id" in
  if JS.nullish id then inr (VStr "—")
  else match slice recv id 8 with
       | inl e => inl e
       | inr short => inr (JS.or short (VStr "—"))
       end.

Module tools.

(** [c ? (c.length > 200 ? c.slice(0, 200) + '...' : c) : '']. *)
Definition contentOf (c : value) : Exn + value :=
  if JS.truthy c
  then long <~ JS.gt (JS.prop c "length") 200 ;;
       if (long : bool)
       then cut <~ slice "r.content.slice" c 200 ;;
            s <~ JS.concat cut "..." ;;
            inr (VStr s)
       else inr c
  else inr (VStr "").

(** The callback of [results.map] in the search handler. *)
Definition formatResult (i : nat) (r : value) : Exn + string :=
  t <~ getProp r "title" ;;
  let title := JS.or (JS.or t (JS.prop r "key")) (VStr "(untitled)") in
  content <~ contentOf (JS.prop r "content") ;;
  JS.template [JS.Hole (VNum (Number.ofNat (i + 1))); JS.Lit ". **";
               JS.Hole title; JS.Lit "**";
               JS.Sub (if JS.truthy (JS.prop r "id")
                       then JS.template [JS.Lit " ("; JS.Hole (JS.prop r "id");
                                         JS.Lit ")"]
                       else inr "");
               JS.Lit (nl ++ "   "); JS.Hole content].

(** [Array.isArray(data) ? data : (data?.results || [])]. *)
Definition searchResults (d : value) : value :=
  if JS.isArray d then d else JS.or (JS.optProp d "results") (VArr []).

Definition beeboo_knowledge_search (args : value) : M ToolResult :=
  query <- lift (destructure args "query") ;;
  res <- api.searchKnowledge query 10 ;;
  _ <- orFail "Search failed" res ;;
  let results := searchResults (getData res) in
  match JS.prop results "length" with
  | VNum Number.Zero =>
      t <- lift (JS.template [JS.Lit "No results found for "; JS.Lit JS.dq;
                              JS.Hole query; JS.Lit JS.dq]) ;;
      ret (mkToolResult t VUndef)
  | _ =>
      match results with
      | VArr rs =>
          lines <- lift (mapi formatResult 0 rs) ;;
          t <- lift (JS.template
                       [JS.Lit "Found "; JS.Hole (VNum (Number.ofNat (List.length rs)));
                        JS.Lit " result(s) for "; JS.Lit JS.dq; JS.Hole query;
                        JS.Lit JS.dq; JS.Lit (":" ++ nl ++ nl);
                        JS.Hole (VStr (JS.join (nl ++ nl) lines))]) ;;
          ret (mkToolResult t results)
      | _ => throw (TypeError "results.map is not a function")
      end
  end.

(** [tags && tags.length > 0]. *)
Definition hasTags (tags : value) : Exn + bool :=
  if JS.truthy tags then JS.gt (JS.prop tags "length") 0 else inr false.

Definition beeboo_knowledge_add (args : value) : M ToolResult :=
  title <- lift (destructure args "title") ;;
  let content := JS.prop args "content" in
  let tags := JS.prop args "tags" in
  key <- lift (slugOf title) ;;
  let entry := [("title", title); ("content", content);
                ("namespace", VStr "default"); ("content_type", VStr "text");
                ("key", VStr key)] in
  given <- lift (hasTags tags) ;;
  let entry := if (given : bool) then (entry ++ [("tags", tags)])%list else entry in
  res <- api.createKnowledgeEntry (VObj entry) ;;
  _ <- orFail "Failed to create entry" res ;;
  let d := getData res in
  t <- lift (JS.template
               [JS.Lit "✅ Knowledge entry created: "; JS.Lit JS.dq; JS.Hole title;
                JS.Lit JS.dq;
                JS.Sub (if JS.truthy (JS.optProp d "id")
                        then JS.template [JS.Lit " (ID: "; JS.Hole (JS.optProp d "id");
                                          JS.Lit ")"]
                        else inr "")]) ;;
  ret (mkToolResult t d).

(** [e.tags?.length ? ` [${e.tags.join(', ')}]` : '']. *)
Definition tagsText (t : value) : Exn + string :=
  if JS.truthy (JS.optProp t "length")
  then match t with
       | VArr l => joined <~ JS.joinArray ", " l ;;
                   JS.template [JS.Lit " ["; JS.Hole (VStr joined); JS.Lit "]"]
       | _ => inl (TypeError "e.tags.join is not a function")
       end
  else inr "".

(** The callback of [items.map] in the knowledge list handler. *)
Definition formatEntry (i : nat) (e : value) : Exn + string :=
  _ <~ getProp e "id" ;;
  id <~ shortId "e.id?.slice" e ;;
  let title := JS.or (JS.or (JS.prop e "title") (JS.prop e "key"))
                     (VStr "(untitled)") in
  tags <~ tagsText (JS.prop e "tags") ;;
  JS.template [JS.Hole (VNum (Number.ofNat (i + 1))); JS.Lit ". "; JS.Hole title;
               JS.Lit " ("; JS.Hole id; JS.Lit ")"; JS.Hole (VStr tags)].

(** [Array.isArray(x) ? x : []]. *)
Definition arrayOrEmpty (x : value) : list value :=
  match x with VArr l => l | _ => [] end.

(** The text a list handler returns over its rendered lines:
    [`<icon> ${items.length} <what>:\n\n${formatted}`]. *)
Definition listText (icon what : string) (items : list value) (lines : list string)
  : Exn + string :=
  JS.template [JS.Lit (icon ++ " "); JS.Hole (VNum (Number.ofNat (List.length items)));
               JS.Lit (" " ++ what ++ ":" ++ nl ++ nl);
               JS.Hole (VStr (JS.join nl lines))].

Definition beeboo_knowledge_list (args : value) : M ToolResult :=
  res <- api.listKnowledgeEntries (VObj []) ;;
  _ <- orFail "Failed to list entries" res ;;
  let items := arrayOrEmpty (getData res) in
  match items with
  | [] => ret (mkToolResult "No knowledge entries found." (VArr []))
  | _ =>
      lines <- lift (mapi formatEntry 0 items) ;;
      t <- lift (listText "📚" "knowledge entries" items lines) ;;
      ret (mkToolResult t (VArr items))
  end.

Definition beeboo_approval_request (args : value) : M ToolResult :=
  title <- lift (destructure args "title") ;;
  let description := JS.prop args "description" in
  let d := VObj [("title", title); ("description", description);
                 ("category", VStr "general"); ("urgency", VStr "normal")] in
  res <- api.submitApproval d ;;
  _ <- orFail "Failed to submit approval" res ;;
  let result := getData res in
  t <- lift (JS.template
               [JS.Lit "⏳ Approval requested: "; JS.Lit JS.dq; JS.Hole title;
                JS.Lit JS.dq; JS.Lit (nl ++ "ID: ");
                JS.Hole (JS.or (JS.optProp result "id") (VStr "unknown"));
                JS.Lit (nl ++ "Status: pending" ++ nl ++ nl
                        ++ "Wait for human approval before proceeding.")]) ;;
  ret (mkToolResult t result).

(** [x.status === 'approved' ? '✅' : x.status === 'denied' ? '❌' : '⏳']. *)
Definition approvalIcon (st : value) : string :=
  if JS.strictEqStr st "approved" then "✅"
  else if JS.strictEqStr st "denied" then "❌" else "⏳".

(** [if (x) text += `\n<label>${x}`]. *)
Definition optionalLine (label : string) (x : value) (text : string) : Exn + string :=
  if JS.truthy x
  then more <~ JS.template [JS.Lit (nl ++ label); JS.Hole x] ;; inr (text ++ more)
  else inr text.

Definition beeboo_approval_check (args : value) : M ToolResult :=
  id <- lift (destructure args "id") ;;
  res <- api.getApproval id ;;
  _ <- (if negb (isOk res)
        then (if status res =? 404
              then (message <- lift (JS.template [JS.Lit "Approval not found: ";
                                                  JS.Hole id]) ;;
                    throw (Error message))
              else (message <- lift (JS.template [JS.Lit "Failed to check approval: ";
                                                  JS.Hole (getError res)]) ;;
                    throw (Error message)))
        else ret tt) ;;
  let approval := getData res in
  st <- lift (getProp approval "status") ;;
  let statusIcon := approvalIcon st in
  t <- lift (JS.template
               [JS.Hole (VStr statusIcon); JS.Lit " Approval: ";
                JS.Hole (JS.or (JS.prop approval "title") id);
                JS.Lit (nl ++ "Status: "); JS.Hole (JS.or st (VStr "pending"))]) ;;
  t <- lift (optionalLine "Description: " (JS.prop approval "description") t) ;;
  t <- lift (optionalLine "Decided: " (JS.prop approval "decided_at") t) ;;
  t <- lift (optionalLine "Note: " (JS.prop approval "decision_note") t) ;;
  ret (mkToolResult t approval).

(** [status ? { status } : {}]. *)
Definition statusQuery (st : value) : value :=
  if JS.truthy st then VObj [("status", st)] else VObj [].

(** [status ? ` with status "${status}"` : '']. *)
Definition filterText (st : value) : Exn + string :=
  if JS.truthy st
  then JS.template [JS.Lit " with status "; JS.Lit JS.dq; JS.Hole st; JS.Lit JS.dq]
  else inr "".

(** [`No <what> found${filterText}.`]. *)
Definition noneFound (what : string) (st : value) : Exn + string :=
  filter <~ filterText st ;;
  JS.template [JS.Lit ("No " ++ what ++ " found"); JS.Hole (VStr filter); JS.Lit "."].

(** The callback of [items.map] in the approvals list handler. *)
Definition formatApproval (i : nat) (a : value) : Exn + string :=
  _ <~ getProp a "id" ;;
  id <~ shortId "a.id?.slice" a ;;
  let title := JS.or (JS.prop a "title") (VStr "(untitled)") in
  let statusIcon := approvalIcon (JS.prop a "status") in
  JS.template [JS.Hole (VNum (Number.ofNat (i + 1))); JS.Lit ". ";
               JS.Hole (VStr statusIcon); JS.Lit " "; JS.Hole title;
               JS.Lit " ("; JS.Hole id; JS.Lit ") - ";
               JS.Hole (JS.or (JS.prop a "status") (VStr "pending"))].

Definition beeboo_approvals_list (args : value) : M ToolResult :=
  st <- lift (destructure args "status") ;;
  res <- api.listApprovals (statusQuery st) ;;
  _ <- orFail "Failed to list approvals" res ;;
  let items := arrayOrEmpty (getData res) in
  match items with
  | [] =>
      t <- lift (noneFound "approvals" st) ;;
      ret (mkToolResult t (VArr []))
  | _ =>
      lines <- lift (mapi formatApproval 0 items) ;;
      t <- lift (listText "📋" "approval(s)" items lines) ;;
      ret (mkToolResult t (VArr items))
  end.

Definition beeboo_request_create (args : value) : M ToolResult :=
  title <- lift (destructure args "title") ;;
  let description := JS.prop args "description" in
  let priority := JS.prop args "priority" in
  let d := [("title", title);
            ("description", JS.or description (VStr ""));
            ("priority", JS.or priority (VStr "medium"))] in
  res <- api.createRequest (VObj d) ;;
  _ <- orFail "Failed to create request" res ;;
  let result := getData res in
  t <- lift (JS.template
               [JS.Lit "📋 Work request created: "; JS.Lit JS.dq; JS.Hole title;
                JS.Lit JS.dq; JS.Lit (nl ++ "ID: ");
                JS.Hole (JS.or (JS.optProp result "id") (VStr "unknown"));
                JS.Lit (nl ++ "Priority: ");
                JS.Hole (JS.or priority (VStr "medium"))]) ;;
  ret (mkToolResult t result).

(** [r.status === 'resolved' ? '✅' : r.status === 'in_progress' ? '🔄' : '📋']. *)
Definition requestIcon (st : value) : string :=
  if JS.strictEqStr st "resolved" then "✅"
  else if JS.strictEqStr st "in_progress" then "🔄" else "📋".

(** The badge of [r.priority]. *)
Definition priorityBadge (pr : value) : string :=
  if JS.strictEqStr pr "critical" then "🔴"
  else if JS.strictEqStr pr "high" then "🟠"
  else if JS.strictEqStr pr "low" then "⚪" else "🟡".

(** The callback of [items.map] in the work request list handler. *)
Definition formatRequest (i : nat) (r : value) : Exn + string :=
  _ <~ getProp r "id" ;;
  id <~ shortId "r.id?.slice" r ;;
  let title := JS.or (JS.prop r "title") (VStr "(untitled)") in
  JS.template [JS.Hole (VNum (Number.ofNat (i + 1))); JS.Lit ". ";
               JS.Hole (VStr (requestIcon (JS.prop r "status"))); JS.Lit " ";
               JS.Hole (VStr (priorityBadge (JS.prop r "priority"))); JS.Lit " ";
               JS.Hole title; JS.Lit " ("; JS.Hole id; JS.Lit ")"].

Definition beeboo_requests_list (args : value) : M ToolResult :=
  st <- lift (destructure args "status") ;;
  res <- api.listRequests (statusQuery st) ;;
  _ <- orFail "Failed to list requests" res ;;
  let items := arrayOrEmpty (getData res) in
  match items with
  | [] =>
      t <- lift (noneFound "work requests" st) ;;
      ret (mkToolResult t (VArr []))
  | _ =>
      lines <- lift (mapi formatRequest 0 items) ;;
      t <- lift (listText "📋" "work request(s)" items lines) ;;
      ret (mkToolResult t (VArr items))
  end.

End tools.

(* ===================================================================== *)
(** ** tools.js: the registry and [executeTool] *)
(* ===================================================================== *)

Record ToolSpec : Type := mkTool {
  name : string;
  description : string;
  inputSchema : list (string * ZodSchema);
  handler : value -> M ToolResult
}.

(** The object [tools], in the order it is written. *)
Definition registry : list (string * ToolSpec) :=
  [ ("beeboo_knowledge_search",
     mkTool "beeboo_knowledge_search"
       "Search the BeeBoo knowledge base for information using semantic search"
       [("query", z_string)]
       tools.beeboo_knowledge_search);
    ("beeboo_knowledge_add",
     mkTool "beeboo_knowledge_add"
       "Add a new entry to the BeeBoo knowledge base"
       [("title", z_string); ("content", z_string);
        ("tags", z_optional (z_array z_string))]
       tools.beeboo_knowledge_add);
    ("beeboo_knowledge_list",
     mkTool "beeboo_knowledge_list"
       "List all knowledge base entries"
       []
       tools.beeboo_knowledge_list);
    ("beeboo_approval_request",
     mkTool "beeboo_approval_request"
       "Request human approval for an action. Use this when you need explicit permission before proceeding with a potentially impactful operation."
       [("title", z_string); ("description", z_string)]
       tools.beeboo_approval_request);
    ("beeboo_approval_check",
     mkTool "beeboo_approval_check"
       "Check the status of an approval request"
       [("id", z_string)]
       tools.beeboo_approval_check);
    ("beeboo_approvals_list",
     mkTool "beeboo_approvals_list"
       "List all approval requests with optional status filter"
       [("status", z_optional (z_enum ["pending"; "approved"; "rejected"]))]
       tools.beeboo_approvals_list);
    ("beeboo_request_create",
     mkTool "beeboo_request_create"
       "Create a work request for the team. Use this to queue up tasks that need human attention or execution."
       [("title", z_string); ("description", z_optional z_string);
        ("priority", z_optional (z_enum ["low"; "medium"; "high"; "critical"]))]
       tools.beeboo_request_create);
    ("beeboo_requests_list",
     mkTool "beeboo_requests_list"
       "List all work requests with optional status filter"
       [("status", z_optional (z_enum ["open"; "in_progress"; "resolved"]))]
       tools.beeboo_requests_list) ].

(** [tools[name]] among the own keys of [tools]. *)
Fixpoint findTool (n : string) (l : list (string * ToolSpec)) : option ToolSpec :=
  match l with
  | [] => None
  | (k, t) :: rest => if (k =? n)%string then Some t else findTool n rest
  end.

(** The members every object inherits from [Object.prototype]: the
    names [tools[name]] answers although [tools] has no such key. *)
Definition objectPrototype : list string :=
  [ "constructor"; "__defineGetter__"; "__defineSetter__"; "hasOwnProperty";
    "__lookupGetter__"; "__lookupSetter__"; "isPrototypeOf";
    "propertyIsEnumerable"; "toString"; "valueOf"; "__proto__";
    "toLocaleString" ].

Definition inherited (n : string) : bool := z.mem n objectPrototype.

(** [executeTool(name, args)].  An inherited member is truthy, so the
    guard lets it pass; it has neither [inputSchema] nor [handler],
    and the parse against the missing shape throws. *)
Definition executeTool (n : string) (args : value) : M ToolResult :=
  match findTool n registry with
  | Some tool =>
      validated <- lift (z.object_parse (inputSchema tool) (JS.or args (VObj []))) ;;
      handler tool validated
  | None =>
      if inherited n
      then (validated <- lift (z.shapeless_parse (JS.or args (VObj []))) ;;
            throw (TypeError "tool.handler is not a function"))
      else (message <- lift (JS.template [JS.Lit "Unknown tool: "; JS.Hole (VStr n)]) ;;
            throw (Error message))
  end.

(** The names a schema requires: those whose schema is not optional
    (the [required] list of [getToolDefinitions]). *)
Definition requiredFields (shape : list (string * ZodSchema)) : list string :=
  map fst (filter (fun p => negb (z.isOptional (snd p))) shape).

(* ===================================================================== *)
(** ** tools.js: the tool definitions for the protocol *)
(* ===================================================================== *)

(** A schema object as [zodToJsonSchema] inspects it: its class, the
    part of [_def] that class carries ([innerType], [values], [type])
    and the description attached by [.describe(...)], if any.  The
    layout is the one the tests of [zodToJsonSchema] presuppose: a
    [typeName] in [_def] and the class name [ZodString]. *)
Inductive Zod : Type :=
| ZodString (description : option string)
| ZodEnum (values : list string) (description : option string)
| ZodArray (type : Zod) (description : option string)
| ZodOptional (innerType : Zod) (description : option string).

Module Described.

(** [schema._def?.description || schema.description]. *)
Definition descriptionOf (s : Zod) : option string :=
  match s with
  | ZodString d | ZodEnum _ d | ZodArray _ d | ZodOptional _ d =>
      match d with
      | Some EmptyString => None
      | _ => d
      end
  end.

(** [schema.isOptional()]: whether the schema admits [undefined]. *)
Definition isOptional (s : Zod) : bool :=
  match s with ZodOptional _ _ => true | _ => false end.

(** The schema without its descriptions, as validation reads it. *)
Fixpoint erase (s : Zod) : ZodSchema :=
  match s with
  | ZodString _ => z_string
  | ZodEnum values _ => z_enum values
  | ZodArray t _ => z_array (erase t)
  | ZodOptional inner _ => z_optional (erase inner)
  end.

(** The [inputSchema] objects of [tools], as tools.js writes them. *)
Definition toolSchemas : list (string * list (string * Zod)) :=
  [ ("beeboo_knowledge_search",
     [("query", ZodString (Some "Search query - can be natural language"))]);
    ("beeboo_knowledge_add",
     [("title", ZodString (Some "Title of the knowledge entry"));
      ("content", ZodString (Some "Content/body of the entry"));
      ("tags", ZodOptional (ZodArray (ZodString None) None)
                 (Some "Optional tags for categorization"))]);
    ("beeboo_knowledge_list", []);
    ("beeboo_approval_request",
     [("title", ZodString (Some "Brief description of what needs approval"));
      ("description",
       ZodString (Some "Detailed explanation of the request and why approval is needed"))]);
    ("beeboo_approval_check",
     [("id", ZodString (Some "The approval request ID to check"))]);
    ("beeboo_approvals_list",
     [("status", ZodOptional (ZodEnum ["pending"; "approved"; "rejected"] None)
                   (Some "Filter by status: pending, approved, or rejected"))]);
    ("beeboo_request_create",
     [("title", ZodString (Some "Brief title of the work request"));
      ("description", ZodOptional (ZodString None)
                        (Some "Detailed description of what needs to be done"));
      ("priority", ZodOptional (ZodEnum ["low"; "medium"; "high"; "critical"] None)
                     (Some "Priority level: low, medium, high, or critical"))]);
    ("beeboo_requests_list",
     [("status", ZodOptional (ZodEnum ["open"; "in_progress"; "resolved"] None)
                   (Some "Filter by status: open, in_progress, or resolved"))]) ].

(** The configuration server.js passes to [registerTool] under each
    name: the description and the [inputSchema]. *)
Definition serverSchemas : list (string * (string * list (string * Zod))) :=
  [ ("beeboo_knowledge_search",
     ("Search the BeeBoo knowledge base for information using semantic search",
      [("query", ZodString (Some "Search query - can be natural language"))]));
    ("beeboo_knowledge_add",
     ("Add a new entry to the BeeBoo knowledge base",
      [("title", ZodString (Some "Title of the knowledge entry"));
       ("content", ZodString (Some "Content/body of the entry"));
       ("tags", ZodOptional (ZodArray (ZodString None) None)
                  (Some "Optional tags for categorization"))]));
    ("beeboo_knowledge_list",
     ("List all knowledge base entries", []));
    ("beeboo_approval_request",
     ("Request human approval for an action. Use this when you need explicit permission before proceeding with a potentially impactful operation.",
      [("title", ZodString (Some "Brief description of what needs approval"));
       ("description",
        ZodString (Some "Detailed explanation of the request and why approval is needed"))]));
    ("beeboo_approval_check",
     ("Check the status of an approval request",
      [("id", ZodString (Some "The approval request ID to check"))]));
    ("beeboo_approvals_list",
     ("List all approval requests with optional status filter",
      [("status", ZodOptional (ZodEnum ["pending"; "approved"; "rejected"] None)
                    (Some "Filter by status: pending, approved, or rejected"))]));
    ("beeboo_request_create",
     ("Create a work request for the team. Use this to queue up tasks that need human attention or execution.",
      [("title", ZodString (Some "Brief title of the work request"));
       ("description", ZodOptional (ZodString None)
                         (Some "Detailed description of what needs to be done"));
       ("priority", ZodOptional (ZodEnum ["low"; "medium"; "high"; "critical"] None)
                      (Some "Priority level: low, medium, high, or critical"))]));
    ("beeboo_requests_list",
     ("List all work requests with optional status filter",
      [("status", ZodOptional (ZodEnum ["open"; "in_progress"; "resolved"] None)
                    (Some "Filter by status: open, in_progress, or resolved"))])) ].

Fixpoint schemaOf (n : string) (l : list (string * list (string * Zod)))
  : list (string * Zod) :=
  match l with
  | [] => []
  | (k, shape) :: rest => if (k =? n)%string then shape else schemaOf n rest
  end.

End Described.

(** [obj.k = v]: replace the value of an existing key in place, add
    the key at the end otherwise. *)
Fixpoint setProp (k : string) (v : value) (o : list (string * value))
  : list (string * value) :=
  match o with
  | [] => [(k, v)]
  | (k', x) :: r => if (k' =? k)%string then (k', v) :: r else (k', x) :: setProp k v r
  end.

(** [{ ...o, ...(description && { description }) }]. *)
Definition withDescription (d : option string) (o : list (string * value))
  : list (string * value) :=
  match d with
  | Some t => (o ++ [("description", VStr t)])%list
  | None => o
  end.

(** [zodToJsonSchema]: the tests of the source in their order, first
    [innerType], then [values], then an array type whose element class
    is [ZodString], then any other array, last the string default. *)
Fixpoint zodToJsonSchema (schema : Zod) : list (string * value) :=
  let description := Described.descriptionOf schema in
  match schema with
  | ZodOptional innerType _ =>
      let inner := zodToJsonSchema innerType in
      match description with
      | Some t => setProp "description" (VStr t) inner
      | None => inner
      end
  | ZodEnum values _ =>
      withDescription description
        [("type", VStr "string"); ("enum", VArr (map VStr values))]
  | ZodArray (ZodString _) _ =>
      withDescription description
        [("type", VStr "array"); ("items", VObj [("type", VStr "string")])]
  | ZodArray t _ =>
      withDescription description
        [("type", VStr "array"); ("items", VObj (zodToJsonSchema t))]
  | ZodString _ =>
      withDescription description [("type", VStr "string")]
  end.

(** One element of [getToolDefinitions()]. *)
Definition toolDefinition (tool : ToolSpec) (shape : list (string * Zod)) : value :=
  VObj [("name", VStr (name tool));
        ("description", VStr (description tool));
        ("inputSchema",
         VObj [("type", VStr "object");
               ("properties",
                VObj (map (fun p => (fst p, VObj (zodToJsonSchema (snd p)))) shape));
               ("required",
                VArr (map (fun p => VStr (fst p))
                          (filter (fun p => negb (Described.isOptional (snd p))) shape)))])].

(** [getToolDefinitions()]: one definition per value of [tools]. *)
Definition getToolDefinitions : list value :=
  map (fun e => toolDefinition (snd e)
                  (Described.schemaOf (fst e) Described.toolSchemas))
      registry.

(* ===================================================================== *)
(** ** server.js: the callbacks registered with the protocol server *)
(* ===================================================================== *)

Record ContentBlock : Type := mkBlock {
  block_type : string;
  block_text : string
}.

(** The object a callback returns.  A key the object literal does not
    write, or writes as [undefined], reads [VUndef] / [None]. *)
Record ProtocolResponse : Type := mkResponse {
  content : list ContentBlock;
  structuredContent : value;
  isError : option bool
}.

Section Bridge.

(** [error.message] of the validator's error: the text the validator
    library renders its reports to. *)
Variable zodMessage : list ZodIssue -> string.

Definition messageOf (e : Exn) : string :=
  match e with
  | Error m => m
  | TypeError m => m
  | ZodError issues => zodMessage issues
  end.

(** The [catch] branch every callback shares. *)
Definition errorResponse (e : Exn) : M ProtocolResponse :=
  ret (mkResponse [mkBlock "text" ("Error: " ++ messageOf e)] VUndef (Some true)).

Definition textOf (result : ToolResult) : list ContentBlock :=
  [mkBlock "text" (text result)].

Definition cb_knowledge_search (raw : value) : M ProtocolResponse :=
  query <- lift (destructure raw "query") ;;
  try_catch
    (result <- executeTool "beeboo_knowledge_search" (VObj [("query", query)]) ;;
     ret (mkResponse (textOf result)
            (if JS.truthy (tool_data result)
             then VObj [("results", tool_data result)] else VUndef)
            None))
    errorResponse.

Definition cb_knowledge_add (raw : value) : M ProtocolResponse :=
  title <- lift (destructure raw "title") ;;
  let content := JS.prop raw "content" in
  let tags := JS.prop raw "tags" in
  try_catch
    (result <- executeTool "beeboo_knowledge_add"
                 (VObj [("title", title); ("content", content); ("tags", tags)]) ;;
     ret (mkResponse (textOf result) (tool_data result) None))
    errorResponse.

Definition cb_knowledge_list (raw : value) : M ProtocolResponse :=
  try_catch
    (result <- executeTool "beeboo_knowledge_list" (VObj []) ;;
     ret (mkResponse (textOf result) (VObj [("entries", tool_data result)]) None))
    errorResponse.

Definition cb_approval_request (raw : value) : M ProtocolResponse :=
  title <- lift (destructure raw "title") ;;
  let description := JS.prop raw "description" in
  try_catch
    (result <- executeTool "beeboo_approval_request"
                 (VObj [("title", title); ("description", description)]) ;;
     ret (mkResponse (textOf result) (tool_data result) None))
    errorResponse.

Definition cb_approval_check (raw : value) : M ProtocolResponse :=
  id <- lift (destructure raw "id") ;;
  try_catch
    (result <- executeTool "beeboo_approval_check" (VObj [("id", id)]) ;;
     ret (mkResponse (textOf result) (tool_data result) None))
    errorResponse.

Definition cb_approvals_list (raw : value) : M ProtocolResponse :=
  st <- lift (destructure raw "status") ;;
  try_catch
    (result <- executeTool "beeboo_approvals_list" (VObj [("status", st)]) ;;
     ret (mkResponse (textOf result) (VObj [("approvals", tool_data result)]) None))
    errorResponse.

Definition cb_request_create (raw : value) : M ProtocolResponse :=
  title <- lift (destructure raw "title") ;;
  let description := JS.prop raw "description" in
  let priority := JS.prop raw "priority" in
  try_catch
    (result <- executeTool "beeboo_request_create"
                 (VObj [("title", title); ("description", description);
                        ("priority", priority)]) ;;
     ret (mkResponse (textOf result) (tool_data result) None))
    errorResponse.

Definition cb_requests_list (raw : value) : M ProtocolResponse :=
  st <- lift (destructure raw "status") ;;
  try_catch
    (result <- executeTool "beeboo_requests_list" (VObj [("status", st)]) ;;
     ret (mkResponse (textOf result) (VObj [("requests", tool_data result)]) None))
    errorResponse.

(** [registerTools]: the callback registered under each name. *)
Definition registerTools : list (string * (value -> M ProtocolResponse)) :=
  [ ("beeboo_knowledge_search", cb_knowledge_search);
    ("beeboo_knowledge_add", cb_knowledge_add);
    ("beeboo_knowledge_list", cb_knowledge_list);
    ("beeboo_approval_request", cb_approval_request);
    ("beeboo_approval_check", cb_approval_check);
    ("beeboo_approvals_list", cb_approvals_list);
    ("beeboo_request_create", cb_request_create);
    ("beeboo_requests_list", cb_requests_list) ].

(** *** The protocol server in front of the callbacks

    [server.registerTool(name, { description, inputSchema }, callback)]
    hands the callback to the protocol server together with the shape
    of its arguments.  Of the server's handling of [tools/call] the
    model keeps the order: the arguments are parsed against
    [z.object(inputSchema)], a refusal is answered by the server with
    the message of its own invalid-parameters error and without the
    callback being called, and only parsed arguments reach the
    callback, whose response is passed on. *)

(** The texts the protocol server puts into its invalid-parameters
    errors: for arguments its parse refuses, and for a name nothing is
    registered under. *)
Variable invalidArguments : string -> list ZodIssue -> string.
Variable toolNotFound : string -> string.







End Bridge.


(* ===================================================================== *)
(** ** Specification-side definitions *)
(* ===================================================================== *)

(** The environment answers every request with [res]: the key is
    configured and the exchange resolves to [res]. *)
Definition serves (env : Env) (res : TransportResult) : Prop :=
  (exists k, BEEBOO_API_KEY env = Some k /\ k <> "") /\
  (forall rq, network env rq = inr res).

(** [needle] occurs in [hay]. *)
Fixpoint contains (needle hay : string) : bool :=
  String.prefix needle hay ||
  match hay with
  | EmptyString => false
  | String _ r => contains needle r
  end.

Module SlugSpec.

(** The pieces of [s] between characters outside [a-z0-9]; the first
    piece is the one that starts [s]. *)
Fixpoint pieces (s : string) : list string :=
  match s with
  | EmptyString => [EmptyString]
  | String c r =>
      if Slug.isAlnum c
      then match pieces r with
           | w :: ws => String c w :: ws
           | [] => [String c EmptyString]
           end
      else EmptyString :: pieces r
  end.

Definition nonEmpty (s : string) : bool :=
  match s with EmptyString => false | _ => true end.

(** The maximal runs of [a-z0-9] in [s], in order. *)
Definition runs (s : string) : list string := filter nonEmpty (pieces s).

(** The slug in the words of the specification: lower-case the title,
    keep its alphanumeric runs, put one separator between
    neighbours and none at either end. *)
Definition slug (title : string) : string :=
  String.concat "-" (runs (Slug.toLowerCase title)).

(** What [replaceRuns] writes for a list of pieces: a separator after
    a piece that is followed by another, unless a separator is
    already pending. *)
Fixpoint glue (pending : bool) (ws : list string) : string :=
  match ws with
  | [] => EmptyString
  | w :: rest =>
      match rest with
      | [] => w
      | _ => w ++ (if pending && negb (nonEmpty w) then "" else "-")
               ++ glue true rest
      end
  end.

Fixpoint allAlnum (s : string) : bool :=
  match s with
  | EmptyString => true
  | String c r => Slug.isAlnum c && allAlnum r
  end.

End SlugSpec.

Module SearchSpec.

(** A content string as the summary shows it: the string itself up to
    200 characters, its first 200 characters and an ellipsis beyond
    that. *)
Definition capped (s : string) : string :=
  if (200 <? String.length s)%nat then substring 0 200 s ++ "..." else s.

(** The content of a result as the summary shows it: a string capped,
    an array cut to its first 200 elements, any other truthy value as
    its text, nothing when there is no content. *)
Definition shown (c : value) : string :=
  match c with
  | VStr s => capped s
  | VArr l => if (200 <? List.length l)%nat
              then JS.toStr (VArr (firstn 200 l)) ++ "..." else JS.toStr c
  | _ => if JS.truthy c then JS.toStr c else ""
  end.

(** What a result is called: its title, else its key, else a fixed
    word. *)
Definition titleOf (r : value) : value :=
  JS.or (JS.or (JS.prop r "title") (JS.prop r "key")) (VStr "(untitled)").

(** The first line of a summary: number, title, and the id when there
    is one. *)
Definition heading (i : nat) (r : value) : string :=
  JS.showNat (i + 1) ++ ". **" ++ JS.toStr (titleOf r) ++ "**"
  ++ (if JS.truthy (JS.prop r "id")
      then " (" ++ JS.toStr (JS.prop r "id") ++ ")" else "").

Definition line (i : nat) (r : value) : string :=
  heading i r ++ nl ++ "   " ++ shown (JS.prop r "content").

(** One summary per result, numbered from [i + 1], in the order of the
    list. *)
Fixpoint enumerate (i : nat) (rs : list value) : list string :=
  match rs with
  | [] => []
  | r :: rest => line i r :: enumerate (S i) rest
  end.

(** A content that can be shown: any primitive; an array whose shown
    elements have a text; an object that has a text and whose
    [length], if any, does not exceed 200 (an object cannot be
    sliced). *)
Definition showable (c : value) : bool :=
  match c with
  | VArr l => JS.printable (if (200 <? List.length l)%nat then VArr (firstn 200 l) else c)
  | VObj _ => match JS.gt (JS.prop c "length") 200 with
              | inr false => JS.printable c
              | _ => false
              end
  | _ => true
  end.

(** A result that can be rendered: it is neither [null] nor
    [undefined], and its title, its id when there is one and its
    content can be shown. *)
Definition renderable (r : value) : bool :=
  negb (JS.nullish r)
  && JS.printable (titleOf r)
  && (negb (JS.truthy (JS.prop r "id")) || JS.printable (JS.prop r "id"))
  && showable (JS.prop r "content").

End SearchSpec.

Module BridgeSpec.

(** The object a callback hands to [executeTool]: the keys of the
    tool's schema, each read from the raw arguments. *)
Definition forwarded (tool : ToolSpec) (raw : value) : value :=
  VObj (map (fun p => (fst p, JS.prop raw (fst p))) (inputSchema tool)).

(** The structured content a callback builds from the handler's data:
    the search tool wraps it under [results] when it is truthy and
    leaves it out otherwise, the three list tools wrap it under
    [entries], [approvals] and [requests], the other tools pass it on
    as it is. *)
Definition structuredFor (n : string) (d : value) : value :=
  if (n =? "beeboo_knowledge_search")%string
  then (if JS.truthy d then VObj [("results", d)] else VUndef)
  else if (n =? "beeboo_knowledge_list")%string then VObj [("entries", d)]
  else if (n =? "beeboo_approvals_list")%string then VObj [("approvals", d)]
  else if (n =? "beeboo_requests_list")%string then VObj [("requests", d)]
  else d.

End BridgeSpec.

Module ValidationSpec.

(** What a schema admits, said directly: a string; a string among the
    listed values; an array whose elements are all admitted; and, for
    an optional schema, [undefined] or what the inner schema admits. *)
Fixpoint conforms (s : ZodSchema) (v : value) : bool :=
  match s with
  | z_string => JS.isString v
  | z_enum values => match v with VStr x => z.mem x values | _ => false end
  | z_array item => match v with VArr l => forallb (conforms item) l | _ => false end
  | z_optional inner => match v with VUndef => true | _ => conforms inner v end
  end.

(** An argument value is accepted when it is an object each declared
    field of which is admitted by its schema. *)
Definition accepts (shape : list (string * ZodSchema)) (v : value) : bool :=
  match v with
  | VObj o => forallb (fun p => conforms (snd p) (JS.prop v (fst p))) shape
  | _ => false
  end.

(** The declared fields of an accepted object, in the order of the
    schema: a field is listed when the object has the key or a value
    for it; keys the schema does not declare are not listed. *)
Fixpoint declared (shape : list (string * ZodSchema)) (o : list (string * value))
  : list (string * value) :=
  match shape with
  | [] => []
  | (k, _) :: rest =>
      match JS.prop (VObj o) k, JS.lookup k o with
      | VUndef, None => declared rest o
      | v, _ => (k, v) :: declared rest o
      end
  end.

End ValidationSpec.

Module HandlerSpec.

(** The one request each tool makes, from the arguments its handler
    was given. *)
Definition requestOf (n : string) (a : value) : HttpRequest :=
  if (n =? "beeboo_knowledge_search")%string then
    mkRequest "POST" "/api/v1/knowledge/search"
      (VObj [("query", JS.prop a "query"); ("limit", VNum 10)]) VNull
  else if (n =? "beeboo_knowledge_add")%string then
    mkRequest "POST" "/api/v1/knowledge/entries"
      (VObj ([("title", JS.prop a "title"); ("content", JS.prop a "content");
              ("namespace", VStr "default"); ("content_type", VStr "text");
              ("key", VStr (match JS.prop a "title" with
                            | VStr t => Slug.slug t
                            | _ => ""
                            end))]
             ++ match JS.prop a "tags" with
                | VArr (x :: l) => [("tags", VArr (x :: l))]
                | _ => []
                end)%list)
      VNull
  else if (n =? "beeboo_knowledge_list")%string then
    mkRequest "GET" "/api/v1/knowledge/entries" VNull (VObj [])
  else if (n =? "beeboo_approval_request")%string then
    mkRequest "POST" "/api/v1/approvals"
      (VObj [("title", JS.prop a "title"); ("description", JS.prop a "description");
             ("category", VStr "general"); ("urgency", VStr "normal")])
      VNull
  else if (n =? "beeboo_approval_check")%string then
    mkRequest "GET" ("/api/v1/approvals/" ++ JS.toStr (JS.prop a "id")) VNull VNull
  else if (n =? "beeboo_approvals_list")%string then
    mkRequest "GET" "/api/v1/approvals" VNull
      (if JS.truthy (JS.prop a "status")
       then VObj [("status", JS.prop a "status")] else VObj [])
  else if (n =? "beeboo_request_create")%string then
    mkRequest "POST" "/api/v1/requests"
      (VObj [("title", JS.prop a "title");
             ("description", JS.or (JS.prop a "description") (VStr ""));
             ("priority", JS.or (JS.prop a "priority") (VStr "medium"))])
      VNull
  else
    mkRequest "GET" "/api/v1/requests" VNull
      (if JS.truthy (JS.prop a "status")
       then VObj [("status", JS.prop a "status")] else VObj []).


(** The words a handler puts before the extracted message when the
    transport answers outside 2xx. *)
Definition failurePrefix (n : string) : string :=
  if (n =? "beeboo_knowledge_search")%string then "Search failed"
  else if (n =? "beeboo_knowledge_add")%string then "Failed to create entry"
  else if (n =? "beeboo_knowledge_list")%string then "Failed to list entries"
  else if (n =? "beeboo_approval_request")%string then "Failed to submit approval"
  else if (n =? "beeboo_approval_check")%string then "Failed to check approval"
  else if (n =? "beeboo_approvals_list")%string then "Failed to list approvals"
  else if (n =? "beeboo_request_create")%string then "Failed to create request"
  else "Failed to list requests".

(** What a handler throws on a result outside 2xx: the approval check
    its not-found error on a 404; otherwise the tool's prefix and the
    extracted message, provided the message has a text, and the
    engine's conversion error when it has none. *)
Definition failure (n : string) (a : value) (res : TransportResult) : Exn :=
  if (n =? "beeboo_approval_check")%string && (status res =? 404)
  then Error ("Approval not found: " ++ JS.toStr (JS.prop a "id"))
  else if JS.printable (getError res)
       then Error (failurePrefix n ++ ": " ++ JS.toStr (getError res))
       else JS.cannotConvert.

(** The environment lets no request through: the key is missing or
    empty, or every exchange is rejected with the same message. *)
Definition rejects (env : Env) (e : Exn) : Prop :=
  getConfig env = inl e \/
  ((exists k, getConfig env = inr k) /\
   exists msg, e = Error msg /\ forall rq, network env rq = inl msg).

End HandlerSpec.

Module ListSpec.

(** The id as a list line shows it: its first eight characters, or the
    long dash when there is no id or the id is empty. *)
Definition shownId (id : value) : string :=
  match id with
  | VStr s => match substring 0 8 s with
              | EmptyString => "—"
              | short => short
              end
  | _ => "—"
  end.

(** The tags as a knowledge line shows them: nothing for no tags, else
    the tags between brackets, separated by a comma and a blank. *)
Definition shownTags (t : value) : string :=
  match t with
  | VArr (x :: l) => " [" ++ JS.joinValues ", " (x :: l) ++ "]"
  | _ => ""
  end.

Definition entryLine (i : nat) (e : value) : string :=
  JS.showNat (i + 1) ++ ". "
  ++ JS.toStr (JS.or (JS.or (JS.prop e "title") (JS.prop e "key")) (VStr "(untitled)"))
  ++ " (" ++ shownId (JS.prop e "id") ++ ")" ++ shownTags (JS.prop e "tags").

Definition approvalLine (i : nat) (a : value) : string :=
  JS.showNat (i + 1) ++ ". " ++ tools.approvalIcon (JS.prop a "status") ++ " "
  ++ JS.toStr (JS.or (JS.prop a "title") (VStr "(untitled)"))
  ++ " (" ++ shownId (JS.prop a "id") ++ ") - "
  ++ JS.toStr (JS.or (JS.prop a "status") (VStr "pending")).

Definition requestLine (i : nat) (r : value) : string :=
  JS.showNat (i + 1) ++ ". "
  ++ (if JS.strictEqStr (JS.prop r "status") "resolved" then "✅"
      else if JS.strictEqStr (JS.prop r "status") "in_progress" then "🔄" else "📋")
  ++ " "
  ++ (if JS.strictEqStr (JS.prop r "priority") "critical" then "🔴"
      else if JS.strictEqStr (JS.prop r "priority") "high" then "🟠"
      else if JS.strictEqStr (JS.prop r "priority") "low" then "⚪" else "🟡")
  ++ " " ++ JS.toStr (JS.or (JS.prop r "title") (VStr "(untitled)"))
  ++ " (" ++ shownId (JS.prop r "id") ++ ")".

(** One line per item, numbered from [i + 1], in the order of the list. *)
Fixpoint numbered (line : nat -> value -> string) (i : nat) (items : list value)
  : list string :=
  match items with
  | [] => []
  | x :: rest => line i x :: numbered line (S i) rest
  end.

(** A list item: not [null], its id a string or missing. *)
Definition item (x : value) : Prop :=
  JS.nullish x = false /\
  (JS.nullish (JS.prop x "id") = true \/ JS.isString (JS.prop x "id") = true).

(** A work request: an item whose title (or the word that stands
    for a missing one) has a text. *)
Definition workRequest (x : value) : Prop :=
  item x /\ JS.printable (JS.or (JS.prop x "title") (VStr "(untitled)")) = true.

(** An approval: a work request whose status, if any, has a text. *)
Definition approval (x : value) : Prop :=
  workRequest x /\ JS.printable (JS.or (JS.prop x "status") (VStr "pending")) = true.

(** A knowledge entry: an item whose title, or else its key, has a
    text and whose tags are missing or an array of values that have
    one. *)
Definition entry (x : value) : Prop :=
  item x
  /\ JS.printable (JS.or (JS.or (JS.prop x "title") (JS.prop x "key"))
                         (VStr "(untitled)")) = true
  /\ (JS.nullish (JS.prop x "tags") = true \/
      (JS.isArray (JS.prop x "tags") = true /\
       JS.printable (JS.prop x "tags") = true)).

End ListSpec.

Module JsonSchemaSpec.

(** The schema under its optional wrappers. *)
Fixpoint core (s : Zod) : Zod :=
  match s with
  | ZodOptional inner _ => core inner
  | _ => s
  end.

(** The description that reaches the protocol: the outermost one. *)
Fixpoint described (s : Zod) : option string :=
  match Described.descriptionOf s with
  | Some t => Some t
  | None => match s with
            | ZodOptional inner _ => described inner
            | _ => None
            end
  end.

(** The JSON Schema type of a parameter: arrays say [array], strings
    and enumerations say [string]. *)
Definition typeOf (s : Zod) : string :=
  match core s with
  | ZodArray _ _ => "array"
  | _ => "string"
  end.

(** The [enum] list of a parameter: the values of an enumeration. *)
Definition enumOf (s : Zod) : option value :=
  match core s with
  | ZodEnum values _ => Some (VArr (map VStr values))
  | _ => None
  end.

(** What is advertised of a tool: name, description, the type of the
    input, the required names and the names of the properties. *)
Definition summary (d : value) : value * value * value * value * list string :=
  (JS.prop d "name", JS.prop d "description",
   JS.prop (JS.prop d "inputSchema") "type",
   JS.prop (JS.prop d "inputSchema") "required",
   map fst (entries (JS.prop (JS.prop d "inputSchema") "properties"))).

End JsonSchemaSpec.

Module SlugFacts.

(** Some character of [s] is in the class [a-z0-9]. *)
Fixpoint anyAlnum (s : string) : bool :=
  match s with
  | EmptyString => false
  | String c r => Slug.isAlnum c || anyAlnum r
  end.

(** A letter A-Z or a-z, or a digit. *)
Definition isLetterOrDigit (c : ascii) : bool :=
  let n := nat_of_ascii c in
  (((65 <=? n) && (n <=? 90)) || ((97 <=? n) && (n <=? 122))
   || ((48 <=? n) && (n <=? 57)))%nat.

Fixpoint anyLetterOrDigit (s : string) : bool :=
  match s with
  | EmptyString => false
  | String c r => isLetterOrDigit c || anyLetterOrDigit r
  end.

End SlugFacts.

(* ===================================================================== *)
(** ** The text of a number *)
(* ===================================================================== *)

Lemma stripZeros_all_zero (d : Decimal.uint) :
  Number.stripZeros (NilEmpty.string_of_uint d) = "" -> Pos.of_uint d = 0%N.
Proof.
  induction d; cbn [NilEmpty.string_of_uint Number.stripZeros Pos.of_uint];
    try (destruct (Number.stripZeros (NilEmpty.string_of_uint d)); discriminate).
  - reflexivity.
  - destruct (Number.stripZeros (NilEmpty.string_of_uint d)); [| discriminate].
    intros _. now apply IHd.
Qed.

Lemma digits_not_all_zero (p : positive) :
  Number.stripZeros (Number.digitsOf p) <> "".
Proof.
  unfold Number.digitsOf. intros H.
  pose proof (DecimalPos.Unsigned.of_to p) as R.
  destruct (Pos.to_uint p) eqn:E;
    try (apply stripZeros_all_zero in H; rewrite H in R; discriminate).
  now apply (DecimalPos.Unsigned.to_uint_nonnil p).
Qed.

Lemma string_app_assoc (a b c : string) : (a ++ b) ++ c = a ++ b ++ c.
Proof. induction a as [| x a IH]; simpl; [reflexivity | now rewrite IH]. Qed.

Lemma append_nonempty_l (a b : string) : a <> "" -> a ++ b <> "".
Proof. destruct a; [intros H; now contradiction H | discriminate]. Qed.

Lemma append_nonempty_r (a b : string) : b <> "" -> a ++ b <> "".
Proof. destruct a; [intros H; exact H | discriminate]. Qed.

Lemma toString_nonempty (x : Number.t) : Number.toString x <> "".
Proof.
  destruct x as [| negative p e | negative |]; try discriminate.
  - cbn [Number.toString]. cbv zeta. apply append_nonempty_r.
    destruct (_ && _).
    + apply append_nonempty_l, digits_not_all_zero.
    + destruct (_ && _).
      * apply append_nonempty_r. discriminate.
      * destruct (_ && _); [discriminate |].
        apply append_nonempty_r. discriminate.
  - destruct negative; discriminate.
Qed.

Lemma showZ_nonempty (n : Z) : JS.showZ n <> "".
Proof. apply toString_nonempty. Qed.

Lemma gt_ofNat_200 (n : nat) : Number.gt (Number.ofNat n) 200 = (200 <? n)%nat.
Proof.
  unfold Number.ofNat. destruct n as [| n]; [reflexivity |].
  cbn [Z.of_nat Number.ofZ Number.gt Z.leb Z.compare Z.pow].
  rewrite Z.mul_1_r.
  destruct (Nat.ltb_spec 200 (S n)); [apply Z.ltb_lt | apply Z.ltb_ge]; lia.
Qed.

Lemma gt_ofNat_0 (n : nat) : Number.gt (Number.ofNat n) 0 = (0 <? n)%nat.
Proof. destruct n; reflexivity. Qed.

(* ===================================================================== *)
(** ** Properties of the envelope helpers *)
(* ===================================================================== *)

Lemma stringify_nonempty (v : value) : JS.stringify v <> "".
Proof.
  destruct v as [ | | [|] | x | s | l | o]; simpl; try discriminate.
  destruct x; try discriminate; apply toString_nonempty.
Qed.

Lemma truthy_string_nonempty (s : string) :
  JS.truthy (VStr s) = true -> s <> "".
Proof.
  simpl. intros H ->. discriminate.
Qed.

Lemma falsy_has_no_message (v : value) :
  JS.truthy v = false -> JS.optProp v "message" = VUndef.
Proof.
  destruct v as [ | | [|] | n | s | l | o]; simpl; try reflexivity; discriminate.
Qed.

(** C4, as the code has it.  [getError] returns [body.error.message]
    when that is truthy; else [body.error] itself when it is a
    non-empty string and its JSON serialisation when it is any other
    truthy value; else the body when the body is a string; else
    [HTTP <status>].  The message is a non-empty string whenever the
    body is not the empty string and [body.error.message], if truthy,
    is a string. *)
Theorem getError_cascade (res : TransportResult) :
  let error := JS.optProp (data res) "error" in
  let message := JS.optProp error "message" in
  (JS.truthy message = true -> getError res = message) /\
  (JS.truthy message = false -> JS.truthy error = true ->
   getError res = if JS.isString error then error
                  else VStr (JS.stringify error)) /\
  (JS.truthy error = false ->
   forall s, data res = VStr s -> getError res = VStr s) /\
  (JS.truthy error = false -> JS.isString (data res) = false ->
   getError res = VStr ("HTTP " ++ JS.showZ (status res))) /\
  (data res <> VStr "" ->
   JS.truthy message = false \/ JS.isString message = true ->
   exists s, getError res = VStr s /\ s <> "").
Proof.
  cbv zeta. unfold getError.
  remember (JS.optProp (data res) "error") as error eqn:E.
  remember (JS.optProp error "message") as message eqn:Em.
  repeat split.
  - intros ->. reflexivity.
  - intros -> ->. reflexivity.
  - intros He s Hs.
    rewrite Em, (falsy_has_no_message _ He). simpl.
    rewrite He, Hs. reflexivity.
  - intros He Hd.
    rewrite Em, (falsy_has_no_message _ He). simpl.
    rewrite He, Hd. reflexivity.
  - intros Hbody Hmsg.
    destruct (JS.truthy message) eqn:Tm.
    + destruct Hmsg as [Hm | Hm]; [discriminate |].
      destruct message as [ | | b | n | s | l | o]; try discriminate.
      exists s. split; [reflexivity | now apply truthy_string_nonempty].
    + destruct (JS.truthy error) eqn:Te.
      * destruct error as [ | | b | n | s | l | o]; cbn [JS.isString]; try discriminate.
        -- eexists; split; [reflexivity | apply stringify_nonempty].
        -- eexists; split; [reflexivity | apply stringify_nonempty].
        -- exists s. split; [reflexivity | now apply truthy_string_nonempty].
        -- eexists; split; [reflexivity | apply stringify_nonempty].
        -- eexists; split; [reflexivity | apply stringify_nonempty].
      * destruct (data res) as [ | | b | n | s | l | o] eqn:D; simpl;
          try (eexists; split; [reflexivity | discriminate]).
        exists s. split; [reflexivity |]. intros ->. now apply Hbody.
Qed.

(** C4's guarantee exercised: a 500 whose body is the JSON text
    [{ error: { code: 7 } }] gives the serialisation of the error. *)
Lemma getError_cascade_witness :
  exists s, getError (mkResult 500 (VObj [("error", VObj [("code", VNum 7)])]) "")
            = VStr s /\ s <> "".
Proof.
  apply (getError_cascade
           (mkResult 500 (VObj [("error", VObj [("code", VNum 7)])]) "")).
  - simpl. discriminate.
  - left. reflexivity.
Defined.

(** C4 as stated fails: a response with an empty body (so the parsed
    body is the empty string) gets the empty message. *)
Lemma getError_empty_body :
  getError (mkResult 502 (VStr "") "") = VStr "" /\
  String.length (JS.toStr (getError (mkResult 502 (VStr "") ""))) = 0%nat.
Proof. split; reflexivity. Qed.

(* ===================================================================== *)
(** ** The slug of a new knowledge entry *)
(* ===================================================================== *)

Section SlugProofs.

Import Slug SlugSpec.

Lemma alnum_not_dash (c : ascii) : isAlnum c = true -> isDash c = false.
Proof.
  unfold isDash. destruct (Ascii.eqb_spec c "-") as [-> | _]; [| reflexivity].
  discriminate.
Qed.

Lemma pieces_not_nil (s : string) : pieces s <> [].
Proof.
  destruct s as [| c r]; simpl; [discriminate |].
  destruct (isAlnum c); [| discriminate].
  destruct (pieces r); discriminate.
Qed.

Lemma pieces_alnum (s : string) : Forall (fun w => allAlnum w = true) (pieces s).
Proof.
  induction s as [| c r IH]; simpl.
  - repeat constructor.
  - destruct (isAlnum c) eqn:A.
    + destruct (pieces r) as [| w ws].
      * repeat constructor. simpl. now rewrite A.
      * inversion IH; subst. constructor; [| assumption].
        simpl. now rewrite A.
    + constructor; [reflexivity | assumption].
Qed.

Lemma replaceRuns_glue (s : string) :
  forall pending, replaceRuns pending s = glue pending (pieces s).
Proof.
  induction s as [| c r IH]; intros pending; simpl; [reflexivity |].
  destruct (isAlnum c) eqn:A.
  - rewrite IH. destruct (pieces r) as [| w [| w' ws]]; try reflexivity.
    cbn [glue nonEmpty negb andb]. rewrite andb_false_r. reflexivity.
  - rewrite IH. pose proof (pieces_not_nil r) as N.
    destruct (pieces r) as [| w ws]; [contradiction |].
    destruct pending; reflexivity.
Qed.

Lemma dropTrailingDash_alnum (w : string) :
  allAlnum w = true -> dropTrailingDash w = w.
Proof.
  induction w as [| c r IH]; simpl; [reflexivity |].
  intros H. apply andb_prop in H as [A R].
  rewrite (alnum_not_dash _ A). simpl. now rewrite IH.
Qed.

Lemma isEmpty_app (r : string) (d : ascii) (y : string) :
  isEmpty (r ++ String d y) = false.
Proof. destruct r; reflexivity. Qed.

Lemma dropTrailingDash_cons (c : ascii) (r : string) (d : ascii) (y : string) :
  dropTrailingDash (String c (r ++ String d y))
  = String c (dropTrailingDash (r ++ String d y)).
Proof.
  cbn [dropTrailingDash]. now rewrite isEmpty_app, andb_false_r.
Qed.

Lemma dropTrailingDash_last (w : string) :
  dropTrailingDash (w ++ "-") = w.
Proof.
  induction w as [| c r IH]; [reflexivity |].
  change (String c r ++ "-") with (String c (r ++ "-")).
  now rewrite dropTrailingDash_cons, IH.
Qed.

Lemma dropTrailingDash_inner (w x : string) :
  x <> "" -> dropTrailingDash (w ++ "-" ++ x) = w ++ "-" ++ dropTrailingDash x.
Proof.
  intros X. induction w as [| c r IH].
  - destruct x as [| d y]; [contradiction |]. reflexivity.
  - change (String c r ++ "-" ++ x) with (String c (r ++ String "-" x)).
    rewrite dropTrailingDash_cons.
    change (String c r ++ "-" ++ dropTrailingDash x)
      with (String c (r ++ "-" ++ dropTrailingDash x)).
    f_equal. exact IH.
Qed.

Lemma glue_no_runs (ws : list string) :
  filter nonEmpty ws = [] -> glue true ws = "".
Proof.
  induction ws as [| w rest IH]; [reflexivity |].
  cbn [filter]. destruct w; cbn [nonEmpty]; [| discriminate].
  intros F. specialize (IH F). cbn [glue].
  destruct rest; [reflexivity |]. cbn [nonEmpty negb andb append]. exact IH.
Qed.

Lemma glue_some_run (ws : list string) :
  filter nonEmpty ws <> [] -> glue true ws <> "".
Proof.
  induction ws as [| w rest IH]; [intros F; now contradiction F |].
  cbn [filter glue]. destruct w as [| c w]; cbn [nonEmpty].
  - intros F. specialize (IH F).
    destruct rest; [exact IH |]. cbn [nonEmpty negb andb append]. exact IH.
  - intros _. destruct rest; discriminate.
Qed.

Lemma glue_trimmed (ws : list string) :
  Forall (fun w => allAlnum w = true) ws ->
  dropTrailingDash (glue true ws) = String.concat "-" (filter nonEmpty ws).
Proof.
  induction ws as [| w rest IH]; intros A; [reflexivity |].
  inversion A as [| ? ? Aw Arest]; subst. specialize (IH Arest).
  destruct rest as [| w' rest'].
  - cbn [glue filter]. rewrite (dropTrailingDash_alnum _ Aw).
    destruct w; reflexivity.
  - remember (w' :: rest') as rest eqn:R.
    assert (G : glue true (w :: rest)
                = w ++ (if negb (nonEmpty w) then "" else "-") ++ glue true rest)
      by (rewrite R; reflexivity).
    rewrite G. cbn [filter].
    destruct w as [| c w].
    + cbn [nonEmpty negb append]. exact IH.
    + cbn [nonEmpty negb].
      destruct (filter nonEmpty rest) as [| r1 rs] eqn:F.
      * rewrite (glue_no_runs _ F). change ("-" ++ "") with "-".
        apply (dropTrailingDash_last (String c w)).
      * assert (X : glue true rest <> "")
          by (apply glue_some_run; rewrite F; discriminate).
        rewrite (dropTrailingDash_inner (String c w) _ X), IH.
        reflexivity.
Qed.

Lemma glue_leading (ws : list string) :
  Forall (fun w => allAlnum w = true) ws ->
  dropLeadingDash (glue false ws) = glue true ws.
Proof.
  intros A. destruct ws as [| w rest]; [reflexivity |].
  inversion A as [| ? ? Aw _]; subst.
  destruct rest as [| w' rest'].
  - cbn [glue]. destruct w as [| c w]; [reflexivity |].
    simpl in Aw. apply andb_prop in Aw as [Ac _].
    cbn [dropLeadingDash]. now rewrite (alnum_not_dash _ Ac).
  - cbn [glue andb]. destruct w as [| c w]; cbn [nonEmpty negb append].
    + reflexivity.
    + simpl in Aw. apply andb_prop in Aw as [Ac _].
      cbn [dropLeadingDash]. now rewrite (alnum_not_dash _ Ac).
Qed.

Lemma runs_alnum (s : string) :
  Forall (fun w => nonEmpty w = true /\ allAlnum w = true) (runs s).
Proof.
  unfold runs. pose proof (pieces_alnum s) as A.
  induction A as [| w ws Aw _ IH]; cbn [filter]; [constructor |].
  destruct (nonEmpty w) eqn:N; [| exact IH].
  constructor; [now split | exact IH].
Qed.

Lemma slug_refines (title : string) : Slug.slug title = SlugSpec.slug title.
Proof.
  unfold Slug.slug, SlugSpec.slug, trimDashes, runs.
  rewrite replaceRuns_glue.
  rewrite (glue_leading _ (pieces_alnum _)).
  apply glue_trimmed, pieces_alnum.
Qed.

End SlugProofs.

(** C5.  The key derived from a title is the title lower-cased, cut
    into its maximal runs of [a-z0-9] (each run non-empty and free of
    dashes), the runs joined by single dashes with none in front or
    behind; the knowledge-add handler sends it as the [key] of the
    entry it posts, unless the test of the tags throws before anything
    is sent; [Deploy Hotfix!!] gives [deploy-hotfix]. *)
Theorem slug_derivation :
  (forall title, Slug.slug title = SlugSpec.slug title) /\
  (forall s, Forall (fun w => SlugSpec.nonEmpty w = true /\ SlugSpec.allAlnum w = true)
                    (SlugSpec.runs s)) /\
  (forall title content tags env log,
     (forall given,
        tools.hasTags tags = inr given ->
        exists entry,
          snd (tools.beeboo_knowledge_add
                 (VObj [("title", VStr title); ("content", content); ("tags", tags)])
                 env log)
          = (log ++ [mkRequest "POST" "/api/v1/knowledge/entries" entry VNull])%list /\
          JS.prop entry "key" = VStr (Slug.slug title)) /\
     (forall e,
        tools.hasTags tags = inl e ->
        tools.beeboo_knowledge_add
          (VObj [("title", VStr title); ("content", content); ("tags", tags)])
          env log
        = (inl e, log))) /\
  Slug.slug "Deploy Hotfix!!" = "deploy-hotfix" /\
  SlugSpec.runs (Slug.toLowerCase "Deploy Hotfix!!") = ["deploy"; "hotfix"].
Proof.
  split; [exact slug_refines |]. split; [exact runs_alnum |].
  split; [| split; reflexivity].
  intros title content tags env log.
  unfold tools.beeboo_knowledge_add, api.createKnowledgeEntry, api.post, api.dflt,
    orFail, request, destructure, slugOf, bind, lift, ret, throw.
  cbn [JS.prop JS.lookup String.eqb Ascii.eqb Bool.eqb].
  split.
  - intros given ->.
    exists (VObj ([("title", VStr title); ("content", content);
                   ("namespace", VStr "default"); ("content_type", VStr "text");
                   ("key", VStr (Slug.slug title))]
                  ++ (if given then [("tags", tags)] else []))%list).
    split; [| reflexivity].
    destruct given; cbn [app];
      (destruct (getConfig env) as [e | k]; [reflexivity |]);
      cbn [queryParams JS.truthy];
      (destruct (network env _) as [msg | res]; [reflexivity |]);
      destruct (negb (isOk res)); cbv beta iota;
      repeat match goal with
             | |- context [match ?x with _ => _ end] =>
                 lazymatch x with
                 | context [match _ with _ => _ end] => fail
                 | _ => destruct x; cbv beta iota
                 end
             end; reflexivity.
  - intros e ->. reflexivity.
Qed.

(* ===================================================================== *)
(** ** Running a handler against an environment that answers *)
(* ===================================================================== *)

Lemma toString_printable (v : value) :
  JS.printable v = true -> JS.toString v = inr (JS.toStr v).
Proof. intros P. unfold JS.toString. now rewrite P. Qed.

Lemma toString_unprintable (v : value) :
  JS.printable v = false -> JS.toString v = inl JS.cannotConvert.
Proof. intros P. unfold JS.toString. now rewrite P. Qed.

Lemma or_printable (a b : value) :
  JS.printable b = true ->
  JS.printable (JS.or a b) = (negb (JS.truthy a) || JS.printable a).
Proof.
  intros B. unfold JS.or. destruct (JS.truthy a); [reflexivity | exact B].
Qed.

Lemma falsy_printable (v : value) : JS.truthy v = false -> JS.printable v = true.
Proof. destruct v; try reflexivity; discriminate. Qed.

Lemma request_serves (env : Env) (res : TransportResult) :
  serves env res ->
  forall m p b q log,
    (exists ps, queryParams q = inr ps) ->
    request m p b q env log = (inr res, (log ++ [mkRequest m p b q])%list).
Proof.
  intros [[k [K Kne]] N] m p b q log [ps Q].
  unfold request, getConfig. rewrite K, Q, N.
  destruct (String.eqb_spec k ""); [contradiction | reflexivity].
Qed.

(** Every call of [request] leaves its mark in the log, whatever its
    outcome: a log that did not grow shows that no call was made. *)
Lemma request_logs (m p : string) (b q : value) (env : Env) (log : Log) :
  snd (request m p b q env log) = (log ++ [mkRequest m p b q])%list.
Proof.
  unfold request.
  destruct (getConfig env); [reflexivity |].
  destruct (queryParams q); [reflexivity |].
  destruct (network env _); reflexivity.
Qed.

Lemma request_throws (env : Env) (res : TransportResult) (e : Exn) :
  serves env res ->
  forall m p b q log,
    queryParams q = inl e ->
    request m p b q env log = (inl e, (log ++ [mkRequest m p b q])%list).
Proof.
  intros [[k [K Kne]] N] m p b q log Q.
  unfold request, getConfig. rewrite K, Q.
  destruct (String.eqb_spec k ""); [contradiction | reflexivity].
Qed.

Lemma statusQuery_params (st : value) :
  queryParams (tools.statusQuery st)
  = if JS.truthy st
    then (if JS.printable st then inr [("status", JS.toStr st)] else inl JS.cannotConvert)
    else inr [].
Proof.
  unfold tools.statusQuery.
  destruct (JS.truthy st) eqn:T; [| reflexivity].
  cbn [queryParams JS.truthy entries params].
  destruct st as [ | | b | x | [| c s] | l | o]; try discriminate;
    unfold JS.toString; destruct (JS.printable _); reflexivity.
Qed.

Lemma statusQuery_dflt (st : value) :
  api.dflt (tools.statusQuery st) = tools.statusQuery st.
Proof. unfold tools.statusQuery. now destruct (JS.truthy st). Qed.

Lemma statusQuery_ok (st : value) :
  JS.printable st = true -> exists ps, queryParams (tools.statusQuery st) = inr ps.
Proof.
  intros P. rewrite statusQuery_params, P. destruct (JS.truthy st); now eexists.
Qed.

Lemma orFail_ok (what : string) (res : TransportResult) (env : Env) (log : Log) :
  isOk res = true -> orFail what res env log = (inr tt, log).
Proof. intros H. unfold orFail. now rewrite H. Qed.

Lemma orFail_fails (what : string) (res : TransportResult) (env : Env) (log : Log) :
  isOk res = false ->
  orFail what res env log
  = (inl (if JS.printable (getError res)
          then Error (what ++ ": " ++ JS.toStr (getError res))
          else JS.cannotConvert), log).
Proof.
  intros H. unfold orFail. rewrite H. cbn [negb JS.template JS.pieceText andThen].
  unfold bind, lift, JS.toString.
  destruct (JS.printable (getError res)); reflexivity.
Qed.

Lemma not_found_is_not_ok (res : TransportResult) :
  status res = 404 -> isOk res = false.
Proof. intros H. unfold isOk. rewrite H. reflexivity. Qed.

Lemma arrayOrEmpty_non_array (v : value) :
  JS.isArray v = false -> tools.arrayOrEmpty v = [].
Proof. destruct v; simpl; try reflexivity. discriminate. Qed.

(** Unfold the monad around the calls of the [api] helpers. *)
Ltac unfold_api :=
  unfold api.searchKnowledge, api.listKnowledgeEntries, api.createKnowledgeEntry,
    api.submitApproval, api.listApprovals, api.getApproval, api.createRequest,
    api.listRequests, api.get, api.post, bind, lift, ret, throw;
  cbv beta iota;
  cbn [JS.template JS.pieceText JS.toString JS.printable JS.toStr andThen];
  cbv beta iota.

(** Run one call of an [api] helper whose query holds no parameter
    that lacks a text. *)
Ltac run_api S :=
  unfold_api; rewrite (request_serves _ _ S) by (now eexists).

(** Split every remaining case distinction of the goal. *)
Ltac split_cases :=
  repeat match goal with
         | |- context [match ?x with _ => _ end] =>
             lazymatch x with
             | context [match _ with _ => _ end] => fail
             | _ => destruct x; cbv beta iota
             end
         end.

(* ===================================================================== *)
(** ** The approval check and its not-found failure *)
(* ===================================================================== *)

(** C7.  Given an id, a 404 from the transport makes the approval check
    fail with [Approval not found: <id>]; any other status outside 2xx
    makes it fail with [Failed to check approval: <extracted message>]
    (or, when the extracted message has no text, with the engine's
    conversion error), and the two messages are never equal. *)
Theorem approval_check_not_found
  (args : value) (id : string) (env : Env) (res : TransportResult) (log : Log) :
  destructure args "id" = inr (VStr id) ->
  serves env res ->
  (status res = 404 ->
   fst (tools.beeboo_approval_check args env log)
   = inl (Error ("Approval not found: " ++ id)))
  /\
  (isOk res = false -> status res <> 404 ->
   fst (tools.beeboo_approval_check args env log)
   = inl (if JS.printable (getError res)
          then Error ("Failed to check approval: " ++ JS.toStr (getError res))
          else JS.cannotConvert))
  /\
  (forall id' extracted,
     "Approval not found: " ++ id' <> "Failed to check approval: " ++ extracted).
Proof.
  intros D Sv. repeat split.
  - intros E. unfold tools.beeboo_approval_check. rewrite D. run_api Sv.
    rewrite (not_found_is_not_ok _ E), E. reflexivity.
  - intros F E. unfold tools.beeboo_approval_check. rewrite D. run_api Sv.
    rewrite F. cbn [negb].
    destruct (Z.eqb_spec (status res) 404); [contradiction |].
    unfold JS.toString. destruct (JS.printable (getError res)); reflexivity.
  - intros id' extracted. simpl. discriminate.
Qed.

(** C7 for the id [abc123] against a backend that answers 404. *)
Lemma approval_check_not_found_witness :
  fst (tools.beeboo_approval_check
         (VObj [("id", VStr "abc123")])
         (mkEnv (Some "bb_sk_test") (fun _ => inr (mkResult 404 (VStr "Not Found") "Not Found")))
         [])
  = inl (Error "Approval not found: abc123").
Proof.
  refine (proj1 (approval_check_not_found
                   (VObj [("id", VStr "abc123")]) "abc123"
                   (mkEnv (Some "bb_sk_test")
                          (fun _ => inr (mkResult 404 (VStr "Not Found") "Not Found")))
                   (mkResult 404 (VStr "Not Found") "Not Found") [] _ _) _).
  - reflexivity.
  - split; [exists "bb_sk_test"; split; [reflexivity | discriminate] | reflexivity].
  - reflexivity.
Defined.


(* ===================================================================== *)
(** ** The list tools on a payload that is not an array *)
(* ===================================================================== *)

Lemma statusQuery_throws (st : value) :
  JS.printable st = false -> queryParams (tools.statusQuery st) = inl JS.cannotConvert.
Proof.
  intros P. rewrite statusQuery_params, P.
  destruct (JS.truthy st) eqn:T; [reflexivity |].
  now rewrite (falsy_printable _ T) in P.
Qed.

Lemma noneFound_text (what : string) (st : value) :
  JS.printable st = true ->
  tools.noneFound what st
  = inr ("No " ++ what ++ " found"
         ++ (if JS.truthy st then " with status " ++ quoted (JS.toStr st) else "")
         ++ ".").
Proof.
  intros P. unfold tools.noneFound, tools.filterText, quoted.
  destruct (JS.truthy st);
    cbn [JS.template JS.pieceText andThen]; rewrite ?(toString_printable _ P);
    cbn [andThen JS.toString JS.printable JS.toStr];
    now rewrite ?string_app_assoc.
Qed.

(** C10.  When the transport answers 2xx and the extracted payload is
    not an array, each list tool makes its one request and returns its
    none-found text (naming the status filter when one was given)
    with the empty list as data.  A status that has no text, which no
    validated call carries, makes the request itself throw. *)
Theorem list_tools_tolerate_non_array
  (args st : value) (env : Env) (res : TransportResult) (log : Log) :
  destructure args "status" = inr st ->
  serves env res ->
  isOk res = true ->
  JS.isArray (getData res) = false ->
  tools.beeboo_knowledge_list args env log
  = (inr (mkToolResult "No knowledge entries found." (VArr [])),
     (log ++ [mkRequest "GET" "/api/v1/knowledge/entries" VNull (VObj [])])%list)
  /\
  tools.beeboo_approvals_list args env log
  = ((if JS.printable st
      then inr (mkToolResult
                  ("No approvals found"
                   ++ (if JS.truthy st then " with status " ++ quoted (JS.toStr st) else "")
                   ++ ".")
                  (VArr []))
      else inl JS.cannotConvert),
     (log ++ [mkRequest "GET" "/api/v1/approvals" VNull
                (if JS.truthy st then VObj [("status", st)] else VObj [])])%list)
  /\
  tools.beeboo_requests_list args env log
  = ((if JS.printable st
      then inr (mkToolResult
                  ("No work requests found"
                   ++ (if JS.truthy st then " with status " ++ quoted (JS.toStr st) else "")
                   ++ ".")
                  (VArr []))
      else inl JS.cannotConvert),
     (log ++ [mkRequest "GET" "/api/v1/requests" VNull
                (if JS.truthy st then VObj [("status", st)] else VObj [])])%list).
Proof.
  intros D S Ok NA.
  repeat split.
  - unfold tools.beeboo_knowledge_list. run_api S.
    rewrite orFail_ok by assumption.
    rewrite (arrayOrEmpty_non_array _ NA). reflexivity.
  - unfold tools.beeboo_approvals_list. rewrite D. unfold_api.
    rewrite statusQuery_dflt.
    destruct (JS.printable st) eqn:P.
    + rewrite (request_serves _ _ S) by now apply statusQuery_ok.
      rewrite orFail_ok by assumption.
      rewrite (arrayOrEmpty_non_array _ NA).
      rewrite (noneFound_text "approvals" st P). reflexivity.
    + rewrite (request_throws _ _ _ S _ _ _ _ _ (statusQuery_throws _ P)).
      reflexivity.
  - unfold tools.beeboo_requests_list. rewrite D. unfold_api.
    rewrite statusQuery_dflt.
    destruct (JS.printable st) eqn:P.
    + rewrite (request_serves _ _ S) by now apply statusQuery_ok.
      rewrite orFail_ok by assumption.
      rewrite (arrayOrEmpty_non_array _ NA).
      rewrite (noneFound_text "work requests" st P). reflexivity.
    + rewrite (request_throws _ _ _ S _ _ _ _ _ (statusQuery_throws _ P)).
      reflexivity.
Qed.

(** C10 against a backend whose list endpoints answer 200 with the
    object [{ total: 0 }], the approvals being filtered by [pending]. *)
Lemma list_tools_tolerate_non_array_witness :
  fst (tools.beeboo_approvals_list
         (VObj [("status", VStr "pending")])
         (mkEnv (Some "bb_sk_test")
                (fun _ => inr (mkResult 200 (VObj [("total", VNum 0)]) "")))
         [])
  = inr (mkToolResult
           ("No approvals found with status " ++ quoted "pending" ++ ".")
           (VArr [])).
Proof.
  refine (f_equal fst
            (proj1 (proj2 (list_tools_tolerate_non_array
                             (VObj [("status", VStr "pending")]) (VStr "pending")
                             (mkEnv (Some "bb_sk_test")
                                    (fun _ => inr (mkResult 200 (VObj [("total", VNum 0)]) "")))
                             (mkResult 200 (VObj [("total", VNum 0)]) "") [] _ _ _ _)))).
  - reflexivity.
  - split; [exists "bb_sk_test"; split; [reflexivity | discriminate] | reflexivity].
  - reflexivity.
  - reflexivity.
Defined.


(* ===================================================================== *)
(** ** Validation *)
(* ===================================================================== *)

Lemma findTool_In (l : list (string * ToolSpec)) (n : string) (tool : ToolSpec) :
  findTool n l = Some tool -> In (n, tool) l.
Proof.
  induction l as [| [k t] rest IH]; simpl; [discriminate |].
  destruct (String.eqb_spec k n) as [-> | _].
  - intros H. injection H as ->. now left.
  - intros H. right. now apply IH.
Qed.

Lemma parse_required_undefined (s : ZodSchema) (path : list (string + nat)) :
  z.isOptional s = false -> fst (z.parse s path VUndef) <> [].
Proof. destruct s; simpl; discriminate. Qed.

Lemma parseFields_required_missing
  (f : string) (s : ZodSchema) (o : list (string * value)) :
  z.isOptional s = false ->
  JS.prop (VObj o) f = VUndef ->
  forall shape, In (f, s) shape -> fst (z.parseFields shape o) <> [].
Proof.
  intros R U shape. induction shape as [| [k s0] rest IH]; [intros [] |].
  intros I. cbn [z.parseFields].
  destruct (z.parse s0 [inl k] (JS.prop (VObj o) k)) as [ik out] eqn:P.
  destruct (z.parseFields rest o) as [ir outs] eqn:PF.
  cbn [fst] in *. destruct I as [I | I].
  - injection I as -> ->. rewrite U in P.
    pose proof (parse_required_undefined s [inl f] R) as N. rewrite P in N.
    destruct ik; [now contradiction N | discriminate].
  - specialize (IH I). destruct ik; [exact IH | discriminate].
Qed.

Lemma required_field_schema (f : string) (shape : list (string * ZodSchema)) :
  In f (requiredFields shape) ->
  exists s, In (f, s) shape /\ z.isOptional s = false.
Proof.
  unfold requiredFields. intros I.
  apply in_map_iff in I as [[k s] [E I]]. simpl in E. subst k.
  apply filter_In in I as [I O]. exists s. split; [exact I |].
  simpl in O. now destruct (z.isOptional s).
Qed.

Lemma object_parse_missing
  (f : string) (shape : list (string * ZodSchema)) (o : list (string * value)) :
  In f (requiredFields shape) ->
  JS.prop (VObj o) f = VUndef ->
  exists issues, issues <> [] /\ z.object_parse shape (VObj o) = inl (ZodError issues).
Proof.
  intros I U. destruct (required_field_schema _ _ I) as (s & Is & R).
  pose proof (parseFields_required_missing f s o R U shape Is) as N.
  unfold z.object_parse.
  destruct (z.parseFields shape o) as [[| i more] outs]; [now contradiction N |].
  exists (i :: more). split; [discriminate | reflexivity].
Qed.

Lemma parseFields_all_optional (shape : list (string * ZodSchema)) :
  requiredFields shape = [] -> z.parseFields shape [] = ([], []).
Proof.
  induction shape as [| [k s] rest IH]; [reflexivity |].
  unfold requiredFields. cbn [filter snd].
  destruct s; cbn [z.isOptional negb map]; try discriminate.
  intros H. cbn [z.parseFields JS.prop JS.lookup z.parse].
  unfold requiredFields in IH. now rewrite (IH H).
Qed.


(** C9.  [executeTool] treats [null] and [undefined] arguments as the
    empty object.  With them an unknown name is reported as such, a
    tool that requires no field runs its handler on the empty object,
    and a tool that requires a field fails in validation, before any
    request. *)
Theorem executeTool_absent_arguments (n : string) (env : Env) (log : Log) :
  executeTool n VNull env log = executeTool n (VObj []) env log /\
  executeTool n VUndef env log = executeTool n (VObj []) env log /\
  (forall tool,
     findTool n registry = Some tool ->
     (requiredFields (inputSchema tool) = [] ->
      executeTool n VNull env log = handler tool (VObj []) env log) /\
     (requiredFields (inputSchema tool) <> [] ->
      exists issues,
        issues <> [] /\
        executeTool n VNull env log = (inl (ZodError issues), log))).
Proof.
  split; [reflexivity |]. split; [reflexivity |].
  intros tool T. unfold executeTool. rewrite T.
  cbn [JS.or JS.truthy]. split.
  - intros R. unfold z.object_parse. rewrite (parseFields_all_optional _ R).
    reflexivity.
  - intros R.
    destruct (requiredFields (inputSchema tool)) as [| f fs] eqn:E;
      [now contradiction R |].
    assert (I : In f (requiredFields (inputSchema tool)))
      by (rewrite E; now left).
    destruct (object_parse_missing f (inputSchema tool) [] I eq_refl)
      as (issues & N & P).
    exists issues. split; [exact N |]. unfold bind, lift. now rewrite P.
Qed.

(** C9 on the approvals list (no required field) and on the search
    tool (one required field), with no API key configured: the first
    reaches its handler exactly as with the empty object, the second
    stops in validation. *)
Lemma executeTool_absent_arguments_witness :
  executeTool "beeboo_approvals_list" VNull (mkEnv None (fun _ => inl "unreachable")) []
  = tools.beeboo_approvals_list (VObj []) (mkEnv None (fun _ => inl "unreachable")) []
  /\
  exists issues,
    issues <> [] /\
    executeTool "beeboo_knowledge_search" VNull (mkEnv None (fun _ => inl "unreachable")) []
    = (inl (ZodError issues), []).
Proof.
  split.
  - refine (proj1 (proj2 (proj2 (executeTool_absent_arguments
                                   "beeboo_approvals_list"
                                   (mkEnv None (fun _ => inl "unreachable")) []))
                           _ eq_refl) eq_refl).
  - refine (proj2 (proj2 (proj2 (executeTool_absent_arguments
                                   "beeboo_knowledge_search"
                                   (mkEnv None (fun _ => inl "unreachable")) []))
                           _ eq_refl) _).
    discriminate.
Defined.


(* ===================================================================== *)
(** ** What validation lets through *)
(* ===================================================================== *)

Lemma parse_conforms (s : ZodSchema) :
  forall path v,
    (fst (z.parse s path v) = [] <-> ValidationSpec.conforms s v = true) /\
    (ValidationSpec.conforms s v = true -> snd (z.parse s path v) = v).
Proof.
  induction s as [ | values | item IH | inner IH]; intros path v.
  - destruct v; simpl; repeat split; intros; try discriminate; reflexivity.
  - destruct v as [ | | b | n | x | l | o]; simpl;
      try (repeat split; intros; try discriminate; reflexivity).
    destruct (z.mem x values); simpl;
      repeat split; intros; try discriminate; reflexivity.
  - destruct v as [ | | b | n | x | l | o]; simpl;
      try (repeat split; intros; try discriminate; reflexivity).
    assert (E : forall i,
               let r := (fix each (i : nat) (l : list value)
                           : list ZodIssue * list value :=
                           match l with
                           | [] => ([], [])
                           | x :: r =>
                               let '(ix, ox) := z.parse item (path ++ [inr i])%list x in
                               let '(ir, or) := each (S i) r in
                               ((ix ++ ir)%list, ox :: or)
                           end) i l in
               (fst r = [] <-> forallb (ValidationSpec.conforms item) l = true) /\
               (forallb (ValidationSpec.conforms item) l = true -> snd r = l)).
    { induction l as [| x r IHl]; intros i; cbn zeta.
      - split; [split; reflexivity | reflexivity].
      - destruct (IH (path ++ [inr i])%list x) as [C1 C2].
        destruct (IHl (S i)) as [D1 D2]. cbn zeta in D1, D2.
        destruct (z.parse item (path ++ [inr i])%list x) as [ix ox].
        match goal with
        | |- context [let '(ir, or) := ?e in _] => destruct e as [ir or]
        end.
        cbn [fst snd forallb] in *. split.
        + split.
          * intros H. apply app_eq_nil in H as [-> ->].
            rewrite (proj1 C1 eq_refl), (proj1 D1 eq_refl). reflexivity.
          * intros H. apply andb_prop in H as [Hx Hr].
            now rewrite (proj2 C1 Hx), (proj2 D1 Hr).
        + intros H. apply andb_prop in H as [Hx Hr].
          now rewrite (C2 Hx), (D2 Hr). }
    specialize (E 0%nat). cbn zeta in E.
    match goal with
    | |- context [let '(issues, outs) := ?e in _] => destruct e as [issues outs]
    end.
    cbn [fst snd] in *. destruct E as [E1 E2]. split; [exact E1 |].
    intros H. now rewrite (E2 H).
  - destruct v as [ | | b | n | x | l | o]; simpl;
      try apply IH.
    repeat split; intros; reflexivity.
Qed.

Lemma parseFields_conforms (shape : list (string * ZodSchema)) (o : list (string * value)) :
  (fst (z.parseFields shape o) = [] <-> ValidationSpec.accepts shape (VObj o) = true) /\
  (ValidationSpec.accepts shape (VObj o) = true ->
   snd (z.parseFields shape o) = ValidationSpec.declared shape o).
Proof.
  unfold ValidationSpec.accepts.
  induction shape as [| [k s] rest IH].
  - split; [split; reflexivity | reflexivity].
  - cbn [z.parseFields forallb fst snd ValidationSpec.declared].
    destruct (parse_conforms s [inl k] (JS.prop (VObj o) k)) as [C1 C2].
    destruct (z.parse s [inl k] (JS.prop (VObj o) k)) as [ik out].
    destruct (z.parseFields rest o) as [ir outs].
    cbn [fst snd] in *. destruct IH as [I1 I2]. split.
    + split.
      * intros H. apply app_eq_nil in H as [-> ->].
        rewrite (proj1 C1 eq_refl), (proj1 I1 eq_refl). reflexivity.
      * intros H. apply andb_prop in H as [Hk Hr].
        now rewrite (proj2 C1 Hk), (proj2 I1 Hr).
    + intros H. apply andb_prop in H as [Hk Hr].
      rewrite (C2 Hk), (I2 Hr).
      destruct (JS.prop (VObj o) k); destruct (JS.lookup k o); reflexivity.
Qed.

Lemma object_parse_accepts (shape : list (string * ZodSchema)) (v : value) :
  (ValidationSpec.accepts shape v = true ->
   exists o, v = VObj o /\
             z.object_parse shape v = inr (VObj (ValidationSpec.declared shape o))) /\
  (ValidationSpec.accepts shape v = false ->
   exists issues, issues <> [] /\ z.object_parse shape v = inl (ZodError issues)).
Proof.
  destruct v as [ | | b | n | x | l | o];
    try (split; [discriminate | intros _; eexists; split; [| reflexivity]; discriminate]).
  destruct (parseFields_conforms shape o) as [P1 P2].
  unfold z.object_parse.
  destruct (z.parseFields shape o) as [issues outs]. cbn [fst snd] in *.
  split; intros A.
  - exists o. split; [reflexivity |].
    rewrite (proj2 P1 A), (P2 A). reflexivity.
  - destruct issues as [| i more].
    + rewrite (proj1 P1 eq_refl) in A. discriminate.
    + exists (i :: more). split; [discriminate | reflexivity].
Qed.

(** X1.  [executeTool] lets a call through exactly when the arguments
    (or the empty object in their place when they are falsy) are an
    object whose declared fields are each admitted by their schema.
    The handler then receives the declared fields only, with their
    values unchanged; otherwise the call fails with the validator's
    error and no request is made. *)
Theorem executeTool_validates
  (n : string) (tool : ToolSpec) (args : value) (env : Env) (log : Log) :
  findTool n registry = Some tool ->
  (ValidationSpec.accepts (inputSchema tool) (JS.or args (VObj [])) = true ->
   exists o,
     JS.or args (VObj []) = VObj o /\
     executeTool n args env log
     = handler tool (VObj (ValidationSpec.declared (inputSchema tool) o)) env log)
  /\
  (ValidationSpec.accepts (inputSchema tool) (JS.or args (VObj [])) = false ->
   exists issues,
     issues <> [] /\ executeTool n args env log = (inl (ZodError issues), log)).
Proof.
  intros T. unfold executeTool. rewrite T.
  destruct (object_parse_accepts (inputSchema tool) (JS.or args (VObj []))) as [A R].
  split; intros H.
  - destruct (A H) as (o & E & P). exists o. split; [exact E |].
    unfold bind. rewrite P. reflexivity.
  - destruct (R H) as (issues & N & P). exists issues. split; [exact N |].
    unfold bind. rewrite P. reflexivity.
Qed.

(** X1 on the approvals list: an extra key is dropped before the
    handler runs. *)
Lemma executeTool_validates_witness :
  exists o,
    JS.or (VObj [("status", VStr "pending"); ("page", VNum 2)]) (VObj []) = VObj o /\
    executeTool "beeboo_approvals_list"
      (VObj [("status", VStr "pending"); ("page", VNum 2)])
      (mkEnv None (fun _ => inl "unreachable")) []
    = tools.beeboo_approvals_list
        (VObj (ValidationSpec.declared
                 [("status", z_optional (z_enum ["pending"; "approved"; "rejected"]))] o))
        (mkEnv None (fun _ => inl "unreachable")) [].
Proof.
  refine (proj1 (executeTool_validates "beeboo_approvals_list" _
                   (VObj [("status", VStr "pending"); ("page", VNum 2)])
                   (mkEnv None (fun _ => inl "unreachable")) [] eq_refl) eq_refl).
Defined.

(** X2.  A call whose argument object gives some declared field a
    value its schema does not admit (a value of the wrong kind, a
    string outside an enumeration, a non-string inside an array) fails
    with the validator's error before the handler runs: no request is
    made. *)
Theorem inadmissible_field_rejected
  (n : string) (tool : ToolSpec) (o : list (string * value))
  (k : string) (s : ZodSchema) (env : Env) (log : Log) :
  findTool n registry = Some tool ->
  In (k, s) (inputSchema tool) ->
  ValidationSpec.conforms s (JS.prop (VObj o) k) = false ->
  exists issues,
    issues <> [] /\
    executeTool n (VObj o) env log = (inl (ZodError issues), log).
Proof.
  intros T I C.
  assert (A : ValidationSpec.accepts (inputSchema tool) (VObj o) = false).
  { unfold ValidationSpec.accepts.
    destruct (forallb _ (inputSchema tool)) eqn:F; [| reflexivity].
    rewrite forallb_forall in F. specialize (F _ I). cbn [fst snd] in F.
    congruence. }
  unfold executeTool. rewrite T. cbn [JS.or JS.truthy].
  destruct (proj2 (object_parse_accepts (inputSchema tool) (VObj o)) A)
    as (issues & N & P).
  exists issues. split; [exact N |]. unfold bind. now rewrite P.
Qed.

(** X2 on the approvals list asked for a status outside its
    enumeration. *)
Lemma inadmissible_field_rejected_witness :
  exists issues,
    issues <> [] /\
    executeTool "beeboo_approvals_list" (VObj [("status", VStr "denied")])
      (mkEnv (Some "bb_sk_test") (fun _ => inl "unreachable")) []
    = (inl (ZodError issues), []).
Proof.
  refine (inadmissible_field_rejected "beeboo_approvals_list" _
            [("status", VStr "denied")] "status"
            (z_optional (z_enum ["pending"; "approved"; "rejected"]))
            (mkEnv (Some "bb_sk_test") (fun _ => inl "unreachable")) []
            eq_refl _ eq_refl).
  left. reflexivity.
Defined.

(* ===================================================================== *)
(** ** What the handlers are given, and the request each one makes *)
(* ===================================================================== *)

Lemma declared_cons (k0 : string) (s0 : ZodSchema)
  (rest : list (string * ZodSchema)) (o : list (string * value)) :
  ValidationSpec.declared ((k0, s0) :: rest) o
  = match JS.lookup k0 o with
    | Some v => (k0, v) :: ValidationSpec.declared rest o
    | None => ValidationSpec.declared rest o
    end.
Proof.
  cbn [ValidationSpec.declared JS.prop].
  destruct (JS.lookup k0 o) as [v |]; [destruct v |]; reflexivity.
Qed.

Lemma declared_absent (shape : list (string * ZodSchema)) (o : list (string * value)) (k : string) :
  JS.lookup k o = None -> JS.lookup k (ValidationSpec.declared shape o) = None.
Proof.
  intros L. induction shape as [| [k0 s0] rest IH]; [reflexivity |].
  rewrite declared_cons.
  destruct (JS.lookup k0 o) as [v |] eqn:L0; [| exact IH].
  cbn [JS.lookup]. destruct (String.eqb_spec k0 k) as [-> | _]; [congruence | exact IH].
Qed.

Lemma declared_prop (shape : list (string * ZodSchema)) (o : list (string * value)) (k : string) :
  In k (map fst shape) ->
  JS.prop (VObj (ValidationSpec.declared shape o)) k = JS.prop (VObj o) k.
Proof.
  induction shape as [| [k0 s0] rest IH]; [intros [] |].
  cbn [map fst]. intros I. rewrite declared_cons. cbn [JS.prop] in *.
  destruct (String.eqb_spec k0 k) as [-> | Ne].
  - destruct (JS.lookup k o) as [v |] eqn:L.
    + cbn [JS.lookup]. now rewrite String.eqb_refl.
    + now rewrite (declared_absent rest o k L).
  - destruct I as [E | I]; [contradiction |]. specialize (IH I).
    destruct (JS.lookup k0 o) as [v |]; [| exact IH].
    cbn [JS.lookup]. destruct (String.eqb_spec k0 k); [contradiction | exact IH].
Qed.

(** What passed validation is an object whose declared fields are
    admitted by their schemas. *)
Lemma validated_conforms (shape : list (string * ZodSchema)) (raw a : value) :
  z.object_parse shape raw = inr a ->
  (exists outs, a = VObj outs) /\
  forall k s, In (k, s) shape -> ValidationSpec.conforms s (JS.prop a k) = true.
Proof.
  intros P.
  destruct (ValidationSpec.accepts shape raw) eqn:A.
  - destruct (proj1 (object_parse_accepts shape raw) A) as (o & -> & P').
    rewrite P' in P. injection P as <-. split; [now eexists |].
    intros k s I.
    rewrite declared_prop by (apply in_map_iff; now exists (k, s)).
    unfold ValidationSpec.accepts in A. rewrite forallb_forall in A.
    exact (A _ I).
  - destruct (proj2 (object_parse_accepts shape raw) A) as (issues & _ & P').
    rewrite P' in P. discriminate.
Qed.

Lemma conforms_string (v : value) :
  ValidationSpec.conforms z_string v = true -> exists t, v = VStr t.
Proof. destruct v; try discriminate. now eexists. Qed.

Lemma conforms_optional_strings (v : value) :
  ValidationSpec.conforms (z_optional (z_array z_string)) v = true ->
  v = VUndef \/ exists l, v = VArr l.
Proof. destruct v; try discriminate; [now left | right; now eexists]. Qed.

(** Take the registered tools one by one. *)
Ltac each_tool I :=
  simpl in I;
  destruct I as [I | [I | [I | [I | [I | [I | [I | [I | I]]]]]]]];
  try contradiction;
  injection I as <- <-; cbn [handler inputSchema] in *.


Lemma conforms_optional_enum (values : list string) (v : value) :
  ValidationSpec.conforms (z_optional (z_enum values)) v = true ->
  v = VUndef \/ exists s, v = VStr s.
Proof. destruct v; try discriminate; [now left | right; now eexists]. Qed.

(** Every handler, on arguments that passed its schema, is one call of
    [request] followed by a continuation that makes no further call
    and that fails with the tool's failure on a result outside 2xx;
    the query of the call holds no parameter that lacks a text. *)
Lemma handler_form
  (n : string) (tool : ToolSpec) (raw a : value) :
  In (n, tool) registry ->
  z.object_parse (inputSchema tool) raw = inr a ->
  exists K : TransportResult -> M ToolResult,
    (forall env log,
       handler tool a env log
       = bind (request (req_method (HandlerSpec.requestOf n a))
                       (req_path (HandlerSpec.requestOf n a))
                       (req_body (HandlerSpec.requestOf n a))
                       (req_query (HandlerSpec.requestOf n a))) K env log) /\
    (forall res env log,
       isOk res = false ->
       K res env log = (inl (HandlerSpec.failure n a res), log)) /\
    (forall res env log, snd (K res env log) = log) /\
    (exists ps, queryParams (req_query (HandlerSpec.requestOf n a)) = inr ps) /\
    (forall res res' env env' log,
       isOk res = true -> isOk res' = true -> getData res = getData res' ->
       K res env log = K res' env' log).
Proof.
  intros I P.
  destruct (validated_conforms _ _ _ P) as [[outs ->] C].
  each_tool I.
  - eexists. split; [| split; [| split; [| split]]].
    + intros env log. unfold tools.beeboo_knowledge_search.
      reflexivity.
    + intros res env log F. cbv beta.
      unfold bind. rewrite (orFail_fails _ _ _ _ F). reflexivity.
    + intros res env log. cbv beta. unfold orFail, bind, lift, ret, throw.
      split_cases; reflexivity.
    + now eexists.
    + intros res res' env env' log Ok Ok' E. cbv beta.
      unfold bind. rewrite !orFail_ok by assumption. rewrite E.
      unfold lift, ret, throw. split_cases; reflexivity.
  - destruct (conforms_string _ (C "title" z_string (or_introl eq_refl))) as [t T].
    assert (G : exists extra,
               tools.hasTags (JS.prop (VObj outs) "tags")
               = inr (match extra with [] => false | _ => true end) /\
               (extra = [] \/ extra = [("tags", JS.prop (VObj outs) "tags")]) /\
               match JS.prop (VObj outs) "tags" with
               | VArr (x :: l) => [("tags", VArr (x :: l))]
               | _ => []
               end = extra).
    { destruct (conforms_optional_strings _
                  (C "tags" (z_optional (z_array z_string))
                     (or_intror (or_intror (or_introl eq_refl)))))
        as [-> | [[| x l] ->]].
      - exists []. repeat split. now left.
      - exists []. repeat split. now left.
      - exists [("tags", VArr (x :: l))]. repeat split. now right. }
    destruct G as (extra & G1 & G0 & G2).
    eexists. split; [| split; [| split; [| split]]].
    + intros env log. unfold tools.beeboo_knowledge_add, HandlerSpec.requestOf.
      cbn [String.eqb Ascii.eqb Bool.eqb req_method req_path req_body req_query].
      rewrite G2, T.
      unfold bind at 1. unfold destructure, lift at 1, ret at 1. rewrite T.
      unfold bind at 1. unfold lift at 1, slugOf, ret at 1.
      unfold bind at 1. rewrite G1. unfold lift at 1, ret at 1.
      destruct G0 as [-> | ->]; reflexivity.
    + intros res env log F. cbv beta.
      unfold bind. rewrite (orFail_fails _ _ _ _ F). reflexivity.
    + intros res env log. cbv beta. unfold orFail, bind, lift, ret, throw.
      split_cases; reflexivity.
    + now eexists.
    + intros res res' env env' log Ok Ok' E. cbv beta.
      unfold bind. rewrite !orFail_ok by assumption. rewrite E.
      unfold lift, ret, throw. split_cases; reflexivity.
  - eexists. split; [| split; [| split; [| split]]].
    + intros env log. unfold tools.beeboo_knowledge_list. reflexivity.
    + intros res env log F. cbv beta.
      unfold bind. rewrite (orFail_fails _ _ _ _ F). reflexivity.
    + intros res env log. cbv beta. unfold orFail, bind, lift, ret, throw.
      split_cases; reflexivity.
    + now eexists.
    + intros res res' env env' log Ok Ok' E. cbv beta.
      unfold bind. rewrite !orFail_ok by assumption. rewrite E.
      unfold lift, ret, throw. split_cases; reflexivity.
  - eexists. split; [| split; [| split; [| split]]].
    + intros env log. unfold tools.beeboo_approval_request. reflexivity.
    + intros res env log F. cbv beta.
      unfold bind. rewrite (orFail_fails _ _ _ _ F). reflexivity.
    + intros res env log. cbv beta. unfold orFail, bind, lift, ret, throw.
      split_cases; reflexivity.
    + now eexists.
    + intros res res' env env' log Ok Ok' E. cbv beta.
      unfold bind. rewrite !orFail_ok by assumption. rewrite E.
      unfold lift, ret, throw. split_cases; reflexivity.
  - destruct (conforms_string _ (C "id" z_string (or_introl eq_refl))) as [t T].
    eexists. split; [| split; [| split; [| split]]].
    + intros env log. unfold tools.beeboo_approval_check, HandlerSpec.requestOf.
      cbn [String.eqb Ascii.eqb Bool.eqb req_method req_path req_body req_query].
      unfold destructure. rewrite T. reflexivity.
    + intros res env log F. cbv beta.
      unfold bind, HandlerSpec.failure. rewrite F, T.
      cbn [negb String.eqb Ascii.eqb Bool.eqb andb HandlerSpec.failurePrefix].
      destruct (status res =? 404); [reflexivity |].
      unfold lift. cbn [JS.template JS.pieceText andThen]. unfold JS.toString.
      destruct (JS.printable (getError res)); reflexivity.
    + intros res env log. cbv beta. unfold bind, lift, ret, throw.
      split_cases; reflexivity.
    + now eexists.
    + intros res res' env env' log Ok Ok' E. cbv beta.
      unfold bind. rewrite Ok, Ok', E. cbn [negb].
      unfold lift, ret, throw. split_cases; reflexivity.
  - assert (Q : JS.printable (JS.prop (VObj outs) "status") = true).
    { destruct (conforms_optional_enum _ _ (C "status" _ (or_introl eq_refl)))
        as [-> | [s ->]]; reflexivity. }
    eexists. split; [| split; [| split; [| split]]].
    + intros env log. unfold tools.beeboo_approvals_list, tools.statusQuery.
      unfold HandlerSpec.requestOf.
      cbn [String.eqb Ascii.eqb Bool.eqb req_method req_path req_body req_query].
      destruct (JS.truthy (JS.prop (VObj outs) "status")) eqn:Tr;
        unfold bind at 1; unfold destructure, lift at 1, ret at 1;
        rewrite Tr; reflexivity.
    + intros res env log F. cbv beta.
      unfold bind. rewrite (orFail_fails _ _ _ _ F). reflexivity.
    + intros res env log. cbv beta. unfold orFail, bind, lift, ret, throw.
      split_cases; reflexivity.
    + unfold HandlerSpec.requestOf.
      cbn [String.eqb Ascii.eqb Bool.eqb req_query].
      apply (statusQuery_ok _ Q).
    + intros res res' env env' log Ok Ok' E. cbv beta.
      unfold bind. rewrite !orFail_ok by assumption. rewrite E.
      unfold lift, ret, throw. split_cases; reflexivity.
  - eexists. split; [| split; [| split; [| split]]].
    + intros env log. unfold tools.beeboo_request_create. reflexivity.
    + intros res env log F. cbv beta.
      unfold bind. rewrite (orFail_fails _ _ _ _ F). reflexivity.
    + intros res env log. cbv beta. unfold orFail, bind, lift, ret, throw.
      split_cases; reflexivity.
    + now eexists.
    + intros res res' env env' log Ok Ok' E. cbv beta.
      unfold bind. rewrite !orFail_ok by assumption. rewrite E.
      unfold lift, ret, throw. split_cases; reflexivity.
  - assert (Q : JS.printable (JS.prop (VObj outs) "status") = true).
    { destruct (conforms_optional_enum _ _ (C "status" _ (or_introl eq_refl)))
        as [-> | [s ->]]; reflexivity. }
    eexists. split; [| split; [| split; [| split]]].
    + intros env log. unfold tools.beeboo_requests_list, tools.statusQuery.
      unfold HandlerSpec.requestOf.
      cbn [String.eqb Ascii.eqb Bool.eqb req_method req_path req_body req_query].
      destruct (JS.truthy (JS.prop (VObj outs) "status")) eqn:Tr;
        unfold bind at 1; unfold destructure, lift at 1, ret at 1;
        rewrite Tr; reflexivity.
    + intros res env log F. cbv beta.
      unfold bind. rewrite (orFail_fails _ _ _ _ F). reflexivity.
    + intros res env log. cbv beta. unfold orFail, bind, lift, ret, throw.
      split_cases; reflexivity.
    + unfold HandlerSpec.requestOf.
      cbn [String.eqb Ascii.eqb Bool.eqb req_query].
      apply (statusQuery_ok _ Q).
    + intros res res' env env' log Ok Ok' E. cbv beta.
      unfold bind. rewrite !orFail_ok by assumption. rewrite E.
      unfold lift, ret, throw. split_cases; reflexivity.
Qed.

Lemma request_eta (rq : HttpRequest) :
  mkRequest (req_method rq) (req_path rq) (req_body rq) (req_query rq) = rq.
Proof. now destruct rq. Qed.

Lemma request_rejects (env : Env) (e : Exn) :
  HandlerSpec.rejects env e ->
  forall m p b q log,
    (exists ps, queryParams q = inr ps) ->
    request m p b q env log = (inl e, (log ++ [mkRequest m p b q])%list).
Proof.
  intros [C | [[k C] (msg & -> & N)]] m p b q log [ps Q]; unfold request; rewrite C.
  - reflexivity.
  - now rewrite Q, N.
Qed.

(** X3.  Whatever the environment does, a handler called with
    arguments that passed its schema makes exactly one request, the
    one [HandlerSpec.requestOf] lists for the tool: the log grows by
    that request and nothing else. *)
Theorem one_request_per_call
  (n : string) (tool : ToolSpec) (raw a : value) (env : Env) (log : Log) :
  findTool n registry = Some tool ->
  z.object_parse (inputSchema tool) raw = inr a ->
  snd (handler tool a env log) = (log ++ [HandlerSpec.requestOf n a])%list.
Proof.
  intros T P.
  destruct (handler_form n tool raw a (findTool_In _ _ _ T) P) as (K & H & _ & Q & _).
  rewrite H. unfold bind.
  pose proof (request_logs (req_method (HandlerSpec.requestOf n a))
                (req_path (HandlerSpec.requestOf n a))
                (req_body (HandlerSpec.requestOf n a))
                (req_query (HandlerSpec.requestOf n a)) env log) as L.
  rewrite request_eta in L.
  destruct (request _ _ _ _ env log) as [[e | res] log']; cbn [snd] in *.
  - exact L.
  - now rewrite Q.
Qed.

(** X3 on a work request created with a title only: one POST with the
    default description and priority filled in. *)
Lemma one_request_per_call_witness :
  snd (tools.beeboo_request_create (VObj [("title", VStr "Rotate keys")])
         (mkEnv None (fun _ => inl "unreachable")) [])
  = [mkRequest "POST" "/api/v1/requests"
       (VObj [("title", VStr "Rotate keys"); ("description", VStr "");
              ("priority", VStr "medium")]) VNull].
Proof.
  refine (one_request_per_call "beeboo_request_create" _
            (VObj [("title", VStr "Rotate keys")])
            (VObj [("title", VStr "Rotate keys")])
            (mkEnv None (fun _ => inl "unreachable")) [] eq_refl eq_refl).
Defined.


(* ===================================================================== *)
(** ** Transport failures reach the caller *)
(* ===================================================================== *)

Lemma handler_on_failure
  (n : string) (tool : ToolSpec) (raw a : value)
  (env : Env) (res : TransportResult) (log : Log) :
  In (n, tool) registry ->
  z.object_parse (inputSchema tool) raw = inr a ->
  serves env res ->
  isOk res = false ->
  handler tool a env log
  = (inl (HandlerSpec.failure n a res), (log ++ [HandlerSpec.requestOf n a])%list).
Proof.
  intros I P Sv F.
  destruct (handler_form n tool raw a I P) as (K & H & Kf & _ & Q & _).
  rewrite H. unfold bind. rewrite (request_serves env res Sv) by exact Q.
  rewrite request_eta. apply Kf, F.
Qed.

(** C3, as the code has it.  For every registered tool, called with
    arguments that passed its schema, a transport result outside 2xx
    makes the handler fail after its one request, and never return a
    result.  The approval check answers a 404 with its own
    [Approval not found: <id>]; in every other case the error message
    is the tool's own prefix, a colon and the extracted message,
    provided the extracted message has a text; an extracted message
    without one makes the handler fail with the engine's conversion
    error instead. *)
Theorem non_success_fails
  (n : string) (tool : ToolSpec) (raw a : value)
  (env : Env) (res : TransportResult) (log : Log) :
  In (n, tool) registry ->
  z.object_parse (inputSchema tool) raw = inr a ->
  serves env res ->
  isOk res = false ->
  exists e,
    handler tool a env log = (inl e, (log ++ [HandlerSpec.requestOf n a])%list) /\
    ((n = "beeboo_approval_check" /\ status res = 404 /\
      e = Error ("Approval not found: " ++ JS.toStr (JS.prop a "id")))
     \/
     ((n <> "beeboo_approval_check" \/ status res <> 404) /\
      JS.printable (getError res) = true /\
      e = Error (HandlerSpec.failurePrefix n ++ ": " ++ JS.toStr (getError res)))
     \/
     ((n <> "beeboo_approval_check" \/ status res <> 404) /\
      JS.printable (getError res) = false /\
      e = TypeError "Cannot convert object to primitive value")).
Proof.
  intros I P Sv F.
  exists (HandlerSpec.failure n a res).
  split; [now apply (handler_on_failure n tool raw) |].
  unfold HandlerSpec.failure.
  destruct (String.eqb_spec n "beeboo_approval_check") as [En | En];
    destruct (Z.eqb_spec (status res) 404) as [Es | Es]; cbn [andb];
    try (left; now repeat split);
    right; (destruct (JS.printable (getError res)); [left | right]);
    repeat split; auto.
Qed.

(** C3 for the search tool against a backend that answers 500 with
    [{ error: { message: 'index offline' } }]. *)
Lemma non_success_fails_witness :
  exists e,
    tools.beeboo_knowledge_search
      (VObj [("query", VStr "deploy")])
      (mkEnv (Some "bb_sk_test")
             (fun _ => inr (mkResult 500
                              (VObj [("error", VObj [("message", VStr "index offline")])])
                              "")))
      []
    = (inl e, [mkRequest "POST" "/api/v1/knowledge/search"
                 (VObj [("query", VStr "deploy"); ("limit", VNum 10)]) VNull]) /\
    (("beeboo_knowledge_search" = "beeboo_approval_check" /\ 500 = 404 /\
      e = Error ("Approval not found: " ++ "undefined"))
     \/
     (("beeboo_knowledge_search" <> "beeboo_approval_check" \/ 500 <> 404) /\
      true = true /\
      e = Error ("Search failed" ++ ": " ++ "index offline"))
     \/
     (("beeboo_knowledge_search" <> "beeboo_approval_check" \/ 500 <> 404) /\
      true = false /\
      e = TypeError "Cannot convert object to primitive value")).
Proof.
  refine (non_success_fails
            "beeboo_knowledge_search"
            (mkTool "beeboo_knowledge_search"
               "Search the BeeBoo knowledge base for information using semantic search"
               [("query", z_string)]
               tools.beeboo_knowledge_search)
            (VObj [("query", VStr "deploy"); ("verbose", VBool true)])
            (VObj [("query", VStr "deploy")])
            (mkEnv (Some "bb_sk_test")
               (fun _ => inr (mkResult 500
                                (VObj [("error", VObj [("message", VStr "index offline")])])
                                "")))
            (mkResult 500 (VObj [("error", VObj [("message", VStr "index offline")])]) "")
            [] _ _ _ _).
  - left. reflexivity.
  - reflexivity.
  - split; [exists "bb_sk_test"; split; [reflexivity | discriminate] | reflexivity].
  - reflexivity.
Defined.

(** C3 as stated fails twice.  On a 404 the approval check drops the
    extracted message in favour of its not-found text; and an
    extracted message that has no text (an object with a [toString]
    key of its own) makes the search handler fail with the engine's
    error, which does not carry it either. *)
Lemma not_found_drops_extracted_message :
  let res := mkResult 404
               (VObj [("error", VObj [("message", VStr "no such approval")])]) "" in
  let env := mkEnv (Some "bb_sk_test") (fun _ => inr res) in
  let res' := mkResult 500
                (VObj [("error", VObj [("message", VObj [("toString", VNum 1)])])]) "" in
  let env' := mkEnv (Some "bb_sk_test") (fun _ => inr res') in
  isOk res = false /\
  getError res = VStr "no such approval" /\
  fst (tools.beeboo_approval_check (VObj [("id", VStr "abc123")]) env [])
  = inl (Error "Approval not found: abc123") /\
  contains "no such approval" "Approval not found: abc123" = false /\
  isOk res' = false /\
  getError res' = VObj [("toString", VNum 1)] /\
  fst (tools.beeboo_knowledge_search (VObj [("query", VStr "deploy")]) env' [])
  = inl (TypeError "Cannot convert object to primitive value").
Proof. repeat split. Qed.

(* ===================================================================== *)
(** ** The registered callbacks *)
(* ===================================================================== *)

Lemma destructure_present (raw : value) (k : string) :
  JS.nullish raw = false -> destructure raw k = inr (JS.prop raw k).
Proof. destruct raw; try reflexivity; discriminate. Qed.

(** Every callback is the same wrapper around [executeTool]: forward
    the schema's keys, then shape the result or the exception. *)
Lemma callback_runs
  (zm : list ZodIssue -> string) (n : string)
  (cb : value -> M ProtocolResponse) (tool : ToolSpec) (raw : value) :
  In (n, cb) (registerTools zm) ->
  findTool n registry = Some tool ->
  JS.nullish raw = false ->
  forall env log,
    cb raw env log
    = try_catch
        (result <- executeTool n (BridgeSpec.forwarded tool raw) ;;
         ret (mkResponse [mkBlock "text" (text result)]
                (BridgeSpec.structuredFor n (tool_data result)) None))
        (errorResponse zm) env log.
Proof.
  intros I T N env log.
  simpl in I.
  destruct I as [I | [I | [I | [I | [I | [I | [I | [I | I]]]]]]]];
    try contradiction;
    injection I as <- <-; cbn in T; injection T as <-;
    unfold cb_knowledge_search, cb_knowledge_add, cb_knowledge_list,
      cb_approval_request, cb_approval_check, cb_approvals_list,
      cb_request_create, cb_requests_list;
    try rewrite (destructure_present _ _ N);
    reflexivity.
Qed.

(** C1, as the code has it.  When the arguments a callback forwards
    pass validation and the handler returns a result, the response has
    one text block holding the result's text, no error flag, and the
    structured content of [BridgeSpec.structuredFor]: the data itself
    for the add, approval request, approval check and request create
    tools, the data under [results] (or nothing when it is not truthy)
    for the search tool, and the data under [entries], [approvals] or
    [requests] for the three list tools. *)
Theorem success_response_shape
  (zm : list ZodIssue -> string) (n : string)
  (cb : value -> M ProtocolResponse) (tool : ToolSpec)
  (raw validated : value) (result : ToolResult) (env : Env) (log log' : Log) :
  In (n, cb) (registerTools zm) ->
  findTool n registry = Some tool ->
  JS.nullish raw = false ->
  z.object_parse (inputSchema tool) (BridgeSpec.forwarded tool raw) = inr validated ->
  handler tool validated env log = (inr result, log') ->
  cb raw env log
  = (inr (mkResponse [mkBlock "text" (text result)]
            (BridgeSpec.structuredFor n (tool_data result)) None),
     log').
Proof.
  intros I T N P H.
  rewrite (callback_runs zm n cb tool raw I T N).
  unfold try_catch, executeTool. rewrite T.
  unfold bind, BridgeSpec.forwarded in *. cbn [JS.or JS.truthy].
  rewrite P. cbn [lift]. unfold ret at 1. rewrite H. reflexivity.
Qed.

(** C1 on the approval check: the data object is passed on as it is. *)
Lemma success_response_shape_witness :
  cb_approval_check (fun _ => "invalid arguments")
    (VObj [("id", VStr "abc123")])
    (mkEnv (Some "bb_sk_test")
           (fun _ => inr (mkResult 200 (VObj [("status", VStr "approved")]) "")))
    []
  = (inr (mkResponse
            [mkBlock "text" ("✅ Approval: abc123" ++ nl ++ "Status: approved")]
            (VObj [("status", VStr "approved")]) None),
     [mkRequest "GET" "/api/v1/approvals/abc123" VNull VNull]).
Proof.
  refine (success_response_shape (fun _ => "invalid arguments")
            "beeboo_approval_check" _ _
            (VObj [("id", VStr "abc123")]) (VObj [("id", VStr "abc123")])
            (mkToolResult ("✅ Approval: abc123" ++ nl ++ "Status: approved")
                          (VObj [("status", VStr "approved")]))
            (mkEnv (Some "bb_sk_test")
                   (fun _ => inr (mkResult 200 (VObj [("status", VStr "approved")]) "")))
            [] _ _ eq_refl eq_refl eq_refl eq_refl).
  do 4 right. left. reflexivity.
Defined.

(** C1 as stated fails for the list tools: the handler's data is the
    list, the structured content is an object holding the list. *)
Lemma list_data_is_wrapped :
  fst (tools.beeboo_knowledge_list (VObj [])
         (mkEnv (Some "bb_sk_test") (fun _ => inr (mkResult 200 (VArr []) "[]"))) [])
  = inr (mkToolResult "No knowledge entries found." (VArr []))
  /\
  fst (cb_knowledge_list (fun _ => "invalid arguments") (VObj [])
         (mkEnv (Some "bb_sk_test") (fun _ => inr (mkResult 200 (VArr []) "[]"))) [])
  = inr (mkResponse [mkBlock "text" "No knowledge entries found."]
           (VObj [("entries", VArr [])]) None)
  /\
  VObj [("entries", VArr [])] <> VArr [].
Proof.
  split; [reflexivity |]. split; [reflexivity | discriminate].
Qed.


(* ===================================================================== *)
(** ** A call that lacks a required argument *)
(* ===================================================================== *)






(* ===================================================================== *)
(** ** Failures, end to end *)
(* ===================================================================== *)

Lemma callback_on_validated
  (zm : list ZodIssue -> string) (n : string)
  (cb : value -> M ProtocolResponse) (tool : ToolSpec) (raw a : value) :
  In (n, cb) (registerTools zm) ->
  findTool n registry = Some tool ->
  JS.nullish raw = false ->
  z.object_parse (inputSchema tool) (BridgeSpec.forwarded tool raw) = inr a ->
  forall env log,
    cb raw env log
    = match handler tool a env log with
      | (inr result, log') =>
          (inr (mkResponse [mkBlock "text" (text result)]
                  (BridgeSpec.structuredFor n (tool_data result)) None), log')
      | (inl e, log') =>
          (inr (mkResponse [mkBlock "text" ("Error: " ++ messageOf zm e)]
                  VUndef (Some true)), log')
      end.
Proof.
  intros I T N P env log.
  rewrite (callback_runs zm n cb tool raw I T N).
  unfold try_catch, executeTool. rewrite T.
  unfold bind, BridgeSpec.forwarded in *. cbn [JS.or JS.truthy].
  rewrite P. cbn [lift]. unfold ret at 1.
  destruct (handler tool a env log) as [[e | result] log']; reflexivity.
Qed.


(** X4.  When the environment lets no request through (no API key, or
    an exchange that is rejected), a call whose arguments pass the
    schema still answers: the response carries the error flag, no
    structured content, and the text [Error: ] followed by the very
    message of the failure; the one request was attempted. *)
Theorem rejection_becomes_error_response
  (zm : list ZodIssue -> string) (n : string)
  (cb : value -> M ProtocolResponse) (tool : ToolSpec) (raw a : value)
  (env : Env) (e : Exn) (log : Log) :
  In (n, cb) (registerTools zm) ->
  findTool n registry = Some tool ->
  JS.nullish raw = false ->
  z.object_parse (inputSchema tool) (BridgeSpec.forwarded tool raw) = inr a ->
  HandlerSpec.rejects env e ->
  cb raw env log
  = (inr (mkResponse [mkBlock "text" ("Error: " ++ messageOf zm e)] VUndef (Some true)),
     (log ++ [HandlerSpec.requestOf n a])%list).
Proof.
  intros I T N P R.
  rewrite (callback_on_validated zm n cb tool raw a I T N P).
  destruct (handler_form n tool _ a (findTool_In _ _ _ T) P) as (K & H & _ & _ & Q & _).
  rewrite H. unfold bind. rewrite (request_rejects env e R) by exact Q.
  rewrite request_eta. reflexivity.
Qed.

(** X4 on the knowledge list with no API key configured. *)
Lemma rejection_becomes_error_response_witness :
  cb_knowledge_list (fun _ => "invalid arguments") (VObj [])
    (mkEnv None (fun _ => inl "unreachable")) []
  = (inr (mkResponse
            [mkBlock "text" "Error: BEEBOO_API_KEY environment variable is required"]
            VUndef (Some true)),
     [mkRequest "GET" "/api/v1/knowledge/entries" VNull (VObj [])]).
Proof.
  refine (rejection_becomes_error_response (fun _ => "invalid arguments")
            "beeboo_knowledge_list" _ _ (VObj []) (VObj [])
            (mkEnv None (fun _ => inl "unreachable"))
            (Error "BEEBOO_API_KEY environment variable is required") []
            _ eq_refl eq_refl eq_refl _).
  - do 2 right. left. reflexivity.
  - left. reflexivity.
Defined.


(** X5.  When the transport answers outside 2xx, a call whose
    arguments pass the schema answers with the error flag, no
    structured content, and the text [Error: ] followed by the message
    of the handler's failure: the tool's own prefix and the extracted
    message, or the not-found text of the approval check on a 404, or
    the engine's [Cannot convert object to primitive value] when the
    extracted message has no text. *)
Theorem non_success_becomes_error_response
  (zm : list ZodIssue -> string) (n : string)
  (cb : value -> M ProtocolResponse) (tool : ToolSpec) (raw a : value)
  (env : Env) (res : TransportResult) (log : Log) :
  In (n, cb) (registerTools zm) ->
  findTool n registry = Some tool ->
  JS.nullish raw = false ->
  z.object_parse (inputSchema tool) (BridgeSpec.forwarded tool raw) = inr a ->
  serves env res ->
  isOk res = false ->
  cb raw env log
  = (inr (mkResponse
            [mkBlock "text"
               ("Error: "
                ++ (if (n =? "beeboo_approval_check")%string && (status res =? 404)
                    then "Approval not found: " ++ JS.toStr (JS.prop a "id")
                    else if JS.printable (getError res)
                         then HandlerSpec.failurePrefix n ++ ": "
                              ++ JS.toStr (getError res)
                         else "Cannot convert object to primitive value"))]
            VUndef (Some true)),
     (log ++ [HandlerSpec.requestOf n a])%list).
Proof.
  intros I T N P Sv F.
  rewrite (callback_on_validated zm n cb tool raw a I T N P).
  rewrite (handler_on_failure n tool _ a env res log (findTool_In _ _ _ T) P Sv F).
  unfold HandlerSpec.failure.
  destruct ((n =? "beeboo_approval_check")%string && (status res =? 404));
    [reflexivity |].
  destruct (JS.printable (getError res)); reflexivity.
Qed.

(** X5 on the approvals list against a backend that answers 503 with
    a plain text body. *)
Lemma non_success_becomes_error_response_witness :
  cb_approvals_list (fun _ => "invalid arguments") (VObj [("status", VStr "pending")])
    (mkEnv (Some "bb_sk_test")
           (fun _ => inr (mkResult 503 (VStr "Service Unavailable") "Service Unavailable")))
    []
  = (inr (mkResponse
            [mkBlock "text" "Error: Failed to list approvals: Service Unavailable"]
            VUndef (Some true)),
     [mkRequest "GET" "/api/v1/approvals" VNull (VObj [("status", VStr "pending")])]).
Proof.
  refine (non_success_becomes_error_response (fun _ => "invalid arguments")
            "beeboo_approvals_list" _ _
            (VObj [("status", VStr "pending")]) (VObj [("status", VStr "pending")])
            (mkEnv (Some "bb_sk_test")
                   (fun _ => inr (mkResult 503 (VStr "Service Unavailable")
                                    "Service Unavailable")))
            (mkResult 503 (VStr "Service Unavailable") "Service Unavailable") []
            _ eq_refl eq_refl eq_refl _ eq_refl).
  - do 5 right. left. reflexivity.
  - split; [exists "bb_sk_test"; split; [reflexivity | discriminate] | reflexivity].
Defined.

Lemma registered_tool
  (zm : list ZodIssue -> string) (n : string) (cb : value -> M ProtocolResponse) :
  In (n, cb) (registerTools zm) -> exists tool, findTool n registry = Some tool.
Proof.
  intros I. simpl in I.
  destruct I as [I | [I | [I | [I | [I | [I | [I | [I | I]]]]]]]];
    try contradiction; injection I as <- _; eexists; reflexivity.
Qed.

(** X6.  A registered callback called with an argument that is neither
    [null] nor [undefined] always returns a response, whatever the
    arguments hold and whatever the environment does: no exception
    leaves it.  The response has exactly one text block, and it either
    carries no error flag, or carries the flag, no structured content
    and a text that starts with [Error: ]. *)
Theorem callbacks_always_answer
  (zm : list ZodIssue -> string) (n : string)
  (cb : value -> M ProtocolResponse) (raw : value) (env : Env) (log : Log) :
  In (n, cb) (registerTools zm) ->
  JS.nullish raw = false ->
  exists resp log' t,
    cb raw env log = (inr resp, log') /\
    content resp = [mkBlock "text" t] /\
    (isError resp = None \/
     (isError resp = Some true /\ structuredContent resp = VUndef /\
      String.prefix "Error: " t = true)).
Proof.
  intros I N. destruct (registered_tool zm n cb I) as [tool T].
  rewrite (callback_runs zm n cb tool raw I T N).
  unfold try_catch, bind.
  destruct (executeTool n (BridgeSpec.forwarded tool raw) env log)
    as [[e | result] log'].
  - eexists _, _, _. split; [reflexivity |]. split; [reflexivity |].
    right. repeat split. cbn [String.prefix append].
    now destruct (messageOf zm e).
  - eexists _, _, _. split; [reflexivity |]. split; [reflexivity |]. now left.
Qed.

(** X6 on the knowledge-add callback given a number for a title. *)
Lemma callbacks_always_answer_witness :
  exists resp log' t,
    cb_knowledge_add (fun _ => "invalid arguments")
      (VObj [("title", VNum 7)])
      (mkEnv None (fun _ => inl "unreachable")) []
    = (inr resp, log') /\
    content resp = [mkBlock "text" t] /\
    (isError resp = None \/
     (isError resp = Some true /\ structuredContent resp = VUndef /\
      String.prefix "Error: " t = true)).
Proof.
  refine (callbacks_always_answer (fun _ => "invalid arguments")
            "beeboo_knowledge_add" _ (VObj [("title", VNum 7)])
            (mkEnv None (fun _ => inl "unreachable")) [] _ eq_refl).
  right. left. reflexivity.
Defined.


(* ===================================================================== *)
(** ** The search handler *)
(* ===================================================================== *)

(** The result list of a payload: the payload when it is an array, its
    [results] when they are truthy, the empty list otherwise. *)
Lemma searchResults_shapes (d : value) (rs : list value) :
  tools.searchResults (VArr rs) = VArr rs /\
  (JS.isArray d = false -> JS.optProp d "results" = VArr rs ->
   tools.searchResults d = VArr rs) /\
  (JS.isArray d = false -> JS.truthy (JS.optProp d "results") = false ->
   tools.searchResults d = VArr []).
Proof.
  unfold tools.searchResults, JS.or. repeat split.
  - intros -> ->. reflexivity.
  - intros -> ->. reflexivity.
Qed.

Lemma substring_length (n : nat) :
  forall s, String.length (substring 0 n s) = Nat.min n (String.length s).
Proof.
  induction n as [| n IH]; intros [| c r]; simpl; try reflexivity.
  now rewrite IH.
Qed.

Lemma substring_prefix (n : nat) :
  forall s, exists rest, s = substring 0 n s ++ rest.
Proof.
  induction n as [| n IH]; intros [| c r]; simpl.
  - now exists "".
  - now exists (String c r).
  - now exists "".
  - destruct (IH r) as [rest E]. exists rest. now rewrite <- E.
Qed.

(** The content of a summary: for a content that can be shown, a
    value whose text is the shown content; for any other, a
    [TypeError] at once or a value that has no text. *)
Lemma contentOf_spec (c : value) :
  (SearchSpec.showable c = true /\
   exists v, tools.contentOf c = inr v /\ JS.printable v = true /\
             JS.toStr v = SearchSpec.shown c)
  \/
  (SearchSpec.showable c = false /\
   ((exists m, tools.contentOf c = inl (TypeError m)) \/
    (exists v, tools.contentOf c = inr v /\ JS.printable v = false))).
Proof.
  unfold tools.contentOf.
  destruct c as [ | | [|] | x | s | l | o].
  - left. split; [reflexivity |]. now exists (VStr "").
  - left. split; [reflexivity |]. now exists (VStr "").
  - left. split; [reflexivity |]. now exists (VBool true).
  - left. split; [reflexivity |]. now exists (VStr "").
  - left. split; [reflexivity |].
    cbn [JS.truthy SearchSpec.shown].
    destruct (Number.truthy x); [now exists (VNum x) | now exists (VStr "")].
  - left. split; [reflexivity |].
    destruct s as [| c s']; [now exists (VStr "") |].
    cbn [JS.truthy String.eqb negb JS.prop Ascii.eqb Bool.eqb].
    cbn [JS.gt JS.toNumber andThen]. rewrite gt_ofNat_200.
    unfold SearchSpec.shown, SearchSpec.capped.
    destruct (200 <? String.length (String c s'))%nat; eexists; repeat split.
  - cbn [JS.truthy JS.prop String.eqb Ascii.eqb Bool.eqb].
    cbn [JS.gt JS.toNumber andThen]. rewrite gt_ofNat_200.
    unfold SearchSpec.showable, SearchSpec.shown.
    destruct (200 <? List.length l)%nat.
    + cbn [slice andThen]. unfold JS.concat, JS.toString.
      destruct (JS.printable (VArr (firstn 200 l))) eqn:P.
      * left. split; [reflexivity |]. eexists. repeat split.
      * right. split; [reflexivity |]. left. now eexists.
    + destruct (JS.printable (VArr l)) eqn:P.
      * left. split; [reflexivity |]. now exists (VArr l).
      * right. split; [reflexivity |]. right. now exists (VArr l).
  - cbn [JS.truthy]. unfold SearchSpec.showable, SearchSpec.shown.
    cbn [JS.truthy].
    destruct (JS.gt (JS.prop (VObj o) "length") 200) as [e | [|]] eqn:G.
    + right. split; [reflexivity |]. left.
      unfold JS.gt in G. destruct (JS.toNumber _) as [e' |] eqn:N; [| discriminate].
      injection G as <-.
      unfold JS.toNumber in N.
      destruct (JS.prop (VObj o) "length"); try discriminate;
        unfold JS.toString in N; destruct (JS.printable _); try discriminate;
        injection N as <-; now eexists.
    + right. split; [reflexivity |]. left. now eexists.
    + cbn [andThen].
      destruct (JS.printable (VObj o)) eqn:P.
      * left. split; [reflexivity |]. now exists (VObj o).
      * right. split; [reflexivity |]. right. now exists (VObj o).
Qed.

Lemma summary_template (i : nat) (title idv content : value) :
  JS.template [JS.Hole (VNum (Number.ofNat (i + 1))); JS.Lit ". **";
               JS.Hole title; JS.Lit "**";
               JS.Sub (if JS.truthy idv
                       then JS.template [JS.Lit " ("; JS.Hole idv; JS.Lit ")"]
                       else inr "");
               JS.Lit (nl ++ "   "); JS.Hole content]
  = if JS.printable title && (negb (JS.truthy idv) || JS.printable idv)
       && JS.printable content
    then inr (JS.showNat (i + 1) ++ ". **" ++ JS.toStr title ++ "**"
              ++ (if JS.truthy idv then " (" ++ JS.toStr idv ++ ")" else "")
              ++ nl ++ "   " ++ JS.toStr content)
    else inl JS.cannotConvert.
Proof.
  cbn [JS.template JS.pieceText]. unfold JS.toString.
  cbn [JS.printable andThen].
  destruct (JS.printable title); [| reflexivity].
  destruct (JS.truthy idv); cbn [negb orb andb andThen].
  - destruct (JS.printable idv); [| reflexivity].
    destruct (JS.printable content); reflexivity.
  - destruct (JS.printable content); reflexivity.
Qed.

(** A result that can be rendered gives its summary line; any other
    makes the callback throw a [TypeError]. *)
Lemma formatResult_spec (i : nat) (r : value) :
  (SearchSpec.renderable r = true /\
   tools.formatResult i r = inr (SearchSpec.line i r))
  \/
  (SearchSpec.renderable r = false /\
   exists m, tools.formatResult i r = inl (TypeError m)).
Proof.
  unfold tools.formatResult, SearchSpec.renderable.
  destruct (JS.nullish r) eqn:N.
  - right. split; [reflexivity |].
    destruct r; try discriminate; now eexists.
  - assert (G : getProp r "title" = inr (JS.prop r "title"))
      by (destruct r; try reflexivity; discriminate).
    rewrite G. cbn [andThen negb andb].
    fold (SearchSpec.titleOf r).
    destruct (contentOf_spec (JS.prop r "content"))
      as [[Sh (v & E & Pv & Tv)] | [Sh [[m E] | (v & E & Pv)]]];
      rewrite Sh, E; cbn [andThen]; rewrite ?summary_template, ?Pv, ?andb_false_r.
    + rewrite !andb_true_r.
      destruct (JS.printable (SearchSpec.titleOf r)
                && (negb (JS.truthy (JS.prop r "id")) || JS.printable (JS.prop r "id"))).
      * left. split; [reflexivity |].
        unfold SearchSpec.line, SearchSpec.heading.
        now rewrite Tv, !string_app_assoc.
      * right. split; [reflexivity |]. now eexists.
    + right. split; [reflexivity |]. now exists m.
    + right. split; [reflexivity |]. now eexists.
Qed.

Lemma mapi_renderable (rs : list value) :
  forallb SearchSpec.renderable rs = true ->
  forall i, mapi tools.formatResult i rs = inr (SearchSpec.enumerate i rs).
Proof.
  induction rs as [| r rest IH]; intros F i; [reflexivity |].
  cbn [forallb] in F. apply andb_prop in F as [Fr Frest].
  cbn [mapi SearchSpec.enumerate].
  destruct (formatResult_spec i r) as [[_ E] | [R _]]; [| congruence].
  now rewrite E, (IH Frest).
Qed.


Lemma enumerate_length (rs : list value) :
  forall i, List.length (SearchSpec.enumerate i rs) = List.length rs.
Proof. induction rs as [| r rest IH]; intros i; cbn; [reflexivity | now rewrite IH]. Qed.

Lemma enumerate_nth (before after : list value) (r : value) :
  forall i,
    nth_error (SearchSpec.enumerate i (before ++ r :: after)) (List.length before)
    = Some (SearchSpec.line (i + List.length before) r).
Proof.
  induction before as [| b before IH]; intros i; cbn.
  - now rewrite Nat.add_0_r.
  - rewrite IH. now rewrite Nat.add_succ_r.
Qed.

(** The search handler after a 2xx answer, by cases on the result
    list. *)
Lemma search_on_list
  (q : string) (env : Env) (res : TransportResult) (log : Log) (rs : list value) :
  serves env res ->
  isOk res = true ->
  tools.searchResults (getData res) = VArr rs ->
  tools.beeboo_knowledge_search (VObj [("query", VStr q)]) env log
  = (match rs with
     | [] => inr (mkToolResult ("No results found for " ++ quoted q) VUndef)
     | _ =>
         match mapi tools.formatResult 0 rs with
         | inl e => inl e
         | inr lines =>
             inr (mkToolResult
                    ("Found " ++ JS.showNat (List.length rs) ++ " result(s) for "
                     ++ quoted q ++ ":" ++ nl ++ nl ++ JS.join (nl ++ nl) lines)
                    (VArr rs))
         end
     end,
     (log ++ [mkRequest "POST" "/api/v1/knowledge/search"
                (VObj [("query", VStr q); ("limit", VNum 10)]) VNull])%list).
Proof.
  intros Sv Ok R.
  unfold tools.beeboo_knowledge_search, destructure.
  cbn [JS.prop JS.lookup String.eqb Ascii.eqb Bool.eqb].
  run_api Sv. rewrite orFail_ok by assumption. rewrite R.
  destruct rs as [| r rest]; [reflexivity |].
  cbn [JS.prop String.eqb Ascii.eqb Bool.eqb List.length].
  cbn [Number.ofNat Z.of_nat Number.ofZ].
  destruct (mapi tools.formatResult 0 (r :: rest)) as [e | lines]; [reflexivity |].
  unfold quoted. now rewrite !string_app_assoc.
Qed.





(** C8.  For a result whose content is a string, the summary the
    search handler returns for it shows the content unchanged when it
    has at most 200 characters, and its first 200 characters followed
    by three dots when it has more. *)
Theorem content_capped_at_200
  (q : string) (env : Env) (res : TransportResult) (log : Log)
  (before after : list value) (r : value) (s : string) :
  serves env res ->
  isOk res = true ->
  tools.searchResults (getData res) = VArr (before ++ r :: after) ->
  forallb SearchSpec.renderable (before ++ r :: after) = true ->
  JS.prop r "content" = VStr s ->
  exists lines,
    fst (tools.beeboo_knowledge_search (VObj [("query", VStr q)]) env log)
    = inr (mkToolResult
             ("Found " ++ JS.showNat (List.length (before ++ r :: after))
              ++ " result(s) for " ++ quoted q ++ ":" ++ nl ++ nl
              ++ JS.join (nl ++ nl) lines)
             (VArr (before ++ r :: after))) /\
    List.length lines = List.length (before ++ r :: after) /\
    nth_error lines (List.length before)
    = Some (SearchSpec.heading (List.length before) r ++ nl ++ "   "
            ++ (if (200 <? String.length s)%nat
                then substring 0 200 s ++ "..." else s)) /\
    String.length (substring 0 200 s) = Nat.min 200 (String.length s) /\
    exists rest, s = substring 0 200 s ++ rest.
Proof.
  intros Sv Ok R F C.
  exists (SearchSpec.enumerate 0 (before ++ r :: after)).
  split; [| split; [| split; [| split]]].
  - rewrite (search_on_list q env res log _ Sv Ok R), (mapi_renderable _ F).
    destruct before; reflexivity.
  - apply enumerate_length.
  - rewrite enumerate_nth. unfold SearchSpec.line. now rewrite C.
  - apply substring_length.
  - apply substring_prefix.
Qed.

(** C8 at the boundary: of two results, the first with a content of
    exactly 200 characters is shown whole, the second with 201
    characters is cut after the 200th. *)
Lemma content_capped_at_200_witness :
  let whole := "abcdefghijabcdefghijabcdefghijabcdefghijabcdefghijabcdefghijabcdefghijabcdefghijabcdefghijabcdefghijabcdefghijabcdefghijabcdefghijabcdefghijabcdefghijabcdefghijabcdefghijabcdefghijabcdefghijabcdefghij" in
  let more := "abcdefghijabcdefghijabcdefghijabcdefghijabcdefghijabcdefghijabcdefghijabcdefghijabcdefghijabcdefghijabcdefghijabcdefghijabcdefghijabcdefghijabcdefghijabcdefghijabcdefghijabcdefghijabcdefghijabcdefghijk" in
  let first := VObj [("title", VStr "Runbook"); ("content", VStr whole)] in
  let second := VObj [("title", VStr "Checklist"); ("content", VStr more)] in
  let env := mkEnv (Some "bb_sk_test")
               (fun _ => inr (mkResult 200 (VArr [first; second]) "")) in
  (exists lines,
     fst (tools.beeboo_knowledge_search (VObj [("query", VStr "deploy")]) env [])
     = inr (mkToolResult
              ("Found 2 result(s) for " ++ quoted "deploy" ++ ":" ++ nl ++ nl
               ++ JS.join (nl ++ nl) lines)
              (VArr [first; second])) /\
     List.length lines = 2%nat /\
     nth_error lines 0 = Some ("1. **Runbook**" ++ nl ++ "   " ++ whole) /\
     String.length (substring 0 200 whole) = 200%nat /\
     exists rest, whole = substring 0 200 whole ++ rest)
  /\
  (exists lines,
     fst (tools.beeboo_knowledge_search (VObj [("query", VStr "deploy")]) env [])
     = inr (mkToolResult
              ("Found 2 result(s) for " ++ quoted "deploy" ++ ":" ++ nl ++ nl
               ++ JS.join (nl ++ nl) lines)
              (VArr [first; second])) /\
     List.length lines = 2%nat /\
     nth_error lines 1 = Some ("2. **Checklist**" ++ nl ++ "   " ++ whole ++ "...") /\
     String.length (substring 0 200 more) = 200%nat /\
     exists rest, more = substring 0 200 more ++ rest).
Proof.
  cbv zeta. split.
  - apply (content_capped_at_200 "deploy" _
             (mkResult 200 (VArr [(VObj [("title", VStr "Runbook"); ("content", VStr "abcdefghijabcdefghijabcdefghijabcdefghijabcdefghijabcdefghijabcdefghijabcdefghijabcdefghijabcdefghijabcdefghijabcdefghijabcdefghijabcdefghijabcdefghijabcdefghijabcdefghijabcdefghijabcdefghijabcdefghij")]); (VObj [("title", VStr "Checklist"); ("content", VStr "abcdefghijabcdefghijabcdefghijabcdefghijabcdefghijabcdefghijabcdefghijabcdefghijabcdefghijabcdefghijabcdefghijabcdefghijabcdefghijabcdefghijabcdefghijabcdefghijabcdefghijabcdefghijabcdefghijabcdefghijk")])]) "")
             [] [] [(VObj [("title", VStr "Checklist"); ("content", VStr "abcdefghijabcdefghijabcdefghijabcdefghijabcdefghijabcdefghijabcdefghijabcdefghijabcdefghijabcdefghijabcdefghijabcdefghijabcdefghijabcdefghijabcdefghijabcdefghijabcdefghijabcdefghijabcdefghijabcdefghijk")])]
             (VObj [("title", VStr "Runbook"); ("content", VStr "abcdefghijabcdefghijabcdefghijabcdefghijabcdefghijabcdefghijabcdefghijabcdefghijabcdefghijabcdefghijabcdefghijabcdefghijabcdefghijabcdefghijabcdefghijabcdefghijabcdefghijabcdefghijabcdefghijabcdefghij")])
             "abcdefghijabcdefghijabcdefghijabcdefghijabcdefghijabcdefghijabcdefghijabcdefghijabcdefghijabcdefghijabcdefghijabcdefghijabcdefghijabcdefghijabcdefghijabcdefghijabcdefghijabcdefghijabcdefghijabcdefghij").
    + split; [exists "bb_sk_test"; split; [reflexivity | discriminate] | reflexivity].
    + reflexivity.
    + reflexivity.
    + reflexivity.
    + reflexivity.
  - apply (content_capped_at_200 "deploy" _
             (mkResult 200 (VArr [(VObj [("title", VStr "Runbook"); ("content", VStr "abcdefghijabcdefghijabcdefghijabcdefghijabcdefghijabcdefghijabcdefghijabcdefghijabcdefghijabcdefghijabcdefghijabcdefghijabcdefghijabcdefghijabcdefghijabcdefghijabcdefghijabcdefghijabcdefghijabcdefghij")]); (VObj [("title", VStr "Checklist"); ("content", VStr "abcdefghijabcdefghijabcdefghijabcdefghijabcdefghijabcdefghijabcdefghijabcdefghijabcdefghijabcdefghijabcdefghijabcdefghijabcdefghijabcdefghijabcdefghijabcdefghijabcdefghijabcdefghijabcdefghijabcdefghijk")])]) "")
             [] [(VObj [("title", VStr "Runbook"); ("content", VStr "abcdefghijabcdefghijabcdefghijabcdefghijabcdefghijabcdefghijabcdefghijabcdefghijabcdefghijabcdefghijabcdefghijabcdefghijabcdefghijabcdefghijabcdefghijabcdefghijabcdefghijabcdefghijabcdefghijabcdefghij")])] []
             (VObj [("title", VStr "Checklist"); ("content", VStr "abcdefghijabcdefghijabcdefghijabcdefghijabcdefghijabcdefghijabcdefghijabcdefghijabcdefghijabcdefghijabcdefghijabcdefghijabcdefghijabcdefghijabcdefghijabcdefghijabcdefghijabcdefghijabcdefghijabcdefghijk")])
             "abcdefghijabcdefghijabcdefghijabcdefghijabcdefghijabcdefghijabcdefghijabcdefghijabcdefghijabcdefghijabcdefghijabcdefghijabcdefghijabcdefghijabcdefghijabcdefghijabcdefghijabcdefghijabcdefghijabcdefghijk").
    + split; [exists "bb_sk_test"; split; [reflexivity | discriminate] | reflexivity].
    + reflexivity.
    + reflexivity.
    + reflexivity.
    + reflexivity.
Defined.

(* ===================================================================== *)
(** ** Search results that are not a list *)
(* ===================================================================== *)

(** X19.  The search handler takes a payload that is not an array for
    an object with [results]: when those are missing or falsy it
    answers with no results; when they are truthy but no array and do
    not have the length 0 (a string, a number, an object without
    entries), the handler throws, since only an array can be mapped. *)
Theorem search_results_not_a_list
  (q : string) (env : Env) (res : TransportResult) (log : Log) :
  serves env res ->
  isOk res = true ->
  JS.isArray (getData res) = false ->
  (JS.truthy (JS.optProp (getData res) "results") = false ->
   fst (tools.beeboo_knowledge_search (VObj [("query", VStr q)]) env log)
   = inr (mkToolResult ("No results found for " ++ quoted q) VUndef))
  /\
  (JS.truthy (JS.optProp (getData res) "results") = true ->
   JS.isArray (JS.optProp (getData res) "results") = false ->
   JS.prop (JS.optProp (getData res) "results") "length" <> VNum 0 ->
   fst (tools.beeboo_knowledge_search (VObj [("query", VStr q)]) env log)
   = inl (TypeError "results.map is not a function")).
Proof.
  intros Sv Ok NA. split.
  - intros F.
    rewrite (search_on_list q env res log []
               Sv Ok (proj2 (proj2 (searchResults_shapes _ [])) NA F)).
    reflexivity.
  - intros Tr NAr L. unfold tools.beeboo_knowledge_search, destructure.
    cbn [JS.prop JS.lookup String.eqb Ascii.eqb Bool.eqb].
    run_api Sv. rewrite orFail_ok by assumption.
    unfold tools.searchResults, JS.or. rewrite NA, Tr.
    destruct (JS.optProp (getData res) "results") as [ | | b | n | s | l | o];
      try discriminate;
      destruct (JS.prop _ "length") as [ | | b' | [| neg p e | neg |] | s' | l' | o'];
      try reflexivity; now contradiction L.
Qed.

(** X19 on a backend that answers 200 with
    [{ results: 'none' }]. *)
Lemma search_results_not_a_list_witness :
  fst (tools.beeboo_knowledge_search (VObj [("query", VStr "deploy")])
         (mkEnv (Some "bb_sk_test")
                (fun _ => inr (mkResult 200 (VObj [("results", VStr "none")]) "")))
         [])
  = inl (TypeError "results.map is not a function").
Proof.
  refine (proj2 (search_results_not_a_list "deploy"
                   (mkEnv (Some "bb_sk_test")
                          (fun _ => inr (mkResult 200 (VObj [("results", VStr "none")]) "")))
                   (mkResult 200 (VObj [("results", VStr "none")]) "") []
                   _ eq_refl eq_refl) eq_refl eq_refl _).
  - split; [exists "bb_sk_test"; split; [reflexivity | discriminate] | reflexivity].
  - discriminate.
Defined.

(* ===================================================================== *)
(** ** The list tools on a list of items *)
(* ===================================================================== *)

Lemma mapi_numbered (f : nat -> value -> Exn + string)
  (line : nat -> value -> string) (P : value -> Prop) :
  (forall i x, P x -> f i x = inr (line i x)) ->
  forall items, Forall P items ->
  forall i, mapi f i items = inr (ListSpec.numbered line i items).
Proof.
  intros H items F. induction F as [| x rest Px _ IH]; intros i; [reflexivity |].
  cbn [mapi ListSpec.numbered]. now rewrite (H i x Px), IH.
Qed.

Lemma mapi_fails (f : nat -> value -> Exn + string) (x : value) :
  (forall i, exists e, f i x = inl e) ->
  forall items, In x items -> forall i, exists e, mapi f i items = inl e.
Proof.
  intros H items. induction items as [| y rest IH]; [intros [] |].
  intros [-> | I] i; cbn [mapi].
  - destruct (H i) as [e ->]. now exists e.
  - destruct (f i y) as [e | s]; [now exists e |].
    destruct (IH I (S i)) as [e ->]. now exists e.
Qed.

Lemma shortId_item (recv : string) (x : value) :
  ListSpec.item x ->
  getProp x "id" = inr (JS.prop x "id") /\
  shortId recv x = inr (VStr (ListSpec.shownId (JS.prop x "id"))).
Proof.
  intros [N I]. split; [destruct x; try reflexivity; discriminate |].
  unfold shortId, ListSpec.shownId.
  destruct (JS.prop x "id") as [ | | b | n | s | l | o];
    destruct I as [I | I]; try discriminate; try reflexivity.
  cbn [JS.nullish slice JS.or JS.truthy].
  destruct (substring 0 8 s); reflexivity.
Qed.

Lemma tagsText_tags (t : value) :
  JS.nullish t = true \/ (JS.isArray t = true /\ JS.printable t = true) ->
  tools.tagsText t = inr (ListSpec.shownTags t).
Proof.
  unfold tools.tagsText, JS.joinArray.
  intros [N | [A P]]; destruct t as [ | | b | x | s | [| y l] | o];
    try discriminate; try reflexivity.
  cbn [JS.optProp JS.nullish JS.prop String.eqb Ascii.eqb Bool.eqb JS.truthy].
  rewrite P. reflexivity.
Qed.

Lemma formatEntry_entry (i : nat) (e : value) :
  ListSpec.entry e -> tools.formatEntry i e = inr (ListSpec.entryLine i e).
Proof.
  intros (It & Pt & T). destruct (shortId_item "e.id?.slice" e It) as [G S].
  unfold tools.formatEntry, ListSpec.entryLine.
  rewrite G, S, (tagsText_tags _ T).
  cbn [andThen JS.template JS.pieceText]. rewrite (toString_printable _ Pt).
  reflexivity.
Qed.

Lemma formatApproval_item (i : nat) (a : value) :
  ListSpec.approval a -> tools.formatApproval i a = inr (ListSpec.approvalLine i a).
Proof.
  intros ((It & Pt) & Ps). destruct (shortId_item "a.id?.slice" a It) as [G S].
  unfold tools.formatApproval, ListSpec.approvalLine. rewrite G, S.
  cbn [andThen JS.template JS.pieceText].
  rewrite (toString_printable _ Pt), (toString_printable _ Ps).
  reflexivity.
Qed.

Lemma formatRequest_item (i : nat) (r : value) :
  ListSpec.workRequest r -> tools.formatRequest i r = inr (ListSpec.requestLine i r).
Proof.
  intros (It & Pt). destruct (shortId_item "r.id?.slice" r It) as [G S].
  unfold tools.formatRequest, ListSpec.requestLine. rewrite G, S.
  cbn [andThen JS.template JS.pieceText].
  rewrite (toString_printable _ Pt).
  reflexivity.
Qed.

(** X10.  When the transport answers 2xx with a non-empty array of
    items (each not [null], its id a string or missing, the values
    its line shows having a text, and for a knowledge entry its tags
    an array or missing), each list tool returns the count in its
    header, one numbered line per item in the order of the array, and
    the array itself as data. *)
Theorem list_tools_render_items
  (args st : value) (env : Env) (res : TransportResult) (log : Log)
  (x : value) (rest : list value) :
  destructure args "status" = inr st ->
  JS.printable st = true ->
  serves env res ->
  isOk res = true ->
  getData res = VArr (x :: rest) ->
  (Forall ListSpec.entry (x :: rest) ->
   fst (tools.beeboo_knowledge_list args env log)
   = inr (mkToolResult
            ("📚 " ++ JS.showNat (List.length (x :: rest)) ++ " knowledge entries:"
             ++ nl ++ nl
             ++ JS.join nl (ListSpec.numbered ListSpec.entryLine 0 (x :: rest)))
            (VArr (x :: rest))))
  /\
  (Forall ListSpec.approval (x :: rest) ->
   fst (tools.beeboo_approvals_list args env log)
   = inr (mkToolResult
            ("📋 " ++ JS.showNat (List.length (x :: rest)) ++ " approval(s):"
             ++ nl ++ nl
             ++ JS.join nl (ListSpec.numbered ListSpec.approvalLine 0 (x :: rest)))
            (VArr (x :: rest))))
  /\
  (Forall ListSpec.workRequest (x :: rest) ->
   fst (tools.beeboo_requests_list args env log)
   = inr (mkToolResult
            ("📋 " ++ JS.showNat (List.length (x :: rest)) ++ " work request(s):"
             ++ nl ++ nl
             ++ JS.join nl (ListSpec.numbered ListSpec.requestLine 0 (x :: rest)))
            (VArr (x :: rest)))).
Proof.
  intros D Pst Sv Ok G. split; [| split]; intros F.
  - unfold tools.beeboo_knowledge_list. run_api Sv.
    rewrite orFail_ok by assumption. rewrite G. cbn [tools.arrayOrEmpty].
    rewrite (mapi_numbered _ _ _ formatEntry_entry _ F). reflexivity.
  - unfold tools.beeboo_approvals_list. rewrite D. unfold_api.
    rewrite statusQuery_dflt.
    rewrite (request_serves _ _ Sv) by now apply statusQuery_ok.
    rewrite orFail_ok by assumption. rewrite G. cbn [tools.arrayOrEmpty].
    rewrite (mapi_numbered _ _ _ formatApproval_item _ F). reflexivity.
  - unfold tools.beeboo_requests_list. rewrite D. unfold_api.
    rewrite statusQuery_dflt.
    rewrite (request_serves _ _ Sv) by now apply statusQuery_ok.
    rewrite orFail_ok by assumption. rewrite G. cbn [tools.arrayOrEmpty].
    rewrite (mapi_numbered _ _ _ formatRequest_item _ F). reflexivity.
Qed.

(** X10 on one pending approval with a long id. *)
Lemma list_tools_render_items_witness :
  fst (tools.beeboo_approvals_list (VObj [])
         (mkEnv (Some "bb_sk_test")
            (fun _ => inr (mkResult 200
                             (VArr [VObj [("id", VStr "a1b2c3d4e5f6");
                                          ("title", VStr "Ship it")]])
                             "")))
         [])
  = inr (mkToolResult
           ("📋 1 approval(s):" ++ nl ++ nl ++ "1. ⏳ Ship it (a1b2c3d4) - pending")
           (VArr [VObj [("id", VStr "a1b2c3d4e5f6"); ("title", VStr "Ship it")]])).
Proof.
  refine (proj1 (proj2 (list_tools_render_items (VObj []) VUndef
                          (mkEnv (Some "bb_sk_test")
                             (fun _ => inr (mkResult 200
                                              (VArr [VObj [("id", VStr "a1b2c3d4e5f6");
                                                           ("title", VStr "Ship it")]])
                                              "")))
                          (mkResult 200
                             (VArr [VObj [("id", VStr "a1b2c3d4e5f6");
                                          ("title", VStr "Ship it")]])
                             "")
                          []
                          (VObj [("id", VStr "a1b2c3d4e5f6"); ("title", VStr "Ship it")])
                          [] eq_refl eq_refl _ eq_refl eq_refl)) _).
  - split; [exists "bb_sk_test"; split; [reflexivity | discriminate] | reflexivity].
  - constructor; [| constructor].
    split; [split; [split; [reflexivity | right; reflexivity] | reflexivity]
           | reflexivity].
Defined.

(** X11.  The id a list line shows is cut to eight characters: for an
    item whose id is a string, the list renderers show the long dash
    when the id is empty, and otherwise its first eight characters
    (the whole id when it is shorter). *)
Theorem short_id_is_a_prefix (recv : string) (x : value) (s : string) :
  JS.prop x "id" = VStr s ->
  exists shown,
    shortId recv x = inr (VStr shown) /\
    ((s = "" /\ shown = "—") \/
     (s <> "" /\ shown = substring 0 8 s /\
      String.length shown = Nat.min 8 (String.length s) /\
      exists tail, s = shown ++ tail)).
Proof.
  intros I. unfold shortId. rewrite I. cbn [JS.nullish slice].
  destruct s as [| c r].
  - exists "—". split; [reflexivity |]. now left.
  - exists (substring 0 8 (String c r)). split; [reflexivity |]. right.
    split; [discriminate |]. split; [reflexivity |].
    split; [apply substring_length | apply substring_prefix].
Qed.

(** X11 on a twelve character id. *)
Lemma short_id_is_a_prefix_witness :
  exists shown,
    shortId "e.id?.slice" (VObj [("id", VStr "a1b2c3d4e5f6")]) = inr (VStr shown) /\
    (("a1b2c3d4e5f6" = "" /\ shown = "—") \/
     ("a1b2c3d4e5f6" <> "" /\ shown = substring 0 8 "a1b2c3d4e5f6" /\
      String.length shown = Nat.min 8 (String.length "a1b2c3d4e5f6") /\
      exists tail, "a1b2c3d4e5f6" = shown ++ tail)).
Proof.
  exact (short_id_is_a_prefix "e.id?.slice" (VObj [("id", VStr "a1b2c3d4e5f6")])
           "a1b2c3d4e5f6" eq_refl).
Defined.

Lemma shortId_not_sliceable (recv : string) (x : value) :
  JS.nullish (JS.prop x "id") = false ->
  JS.isString (JS.prop x "id") = false ->
  JS.isArray (JS.prop x "id") = false ->
  shortId recv x = inl (TypeError (recv ++ " is not a function")).
Proof.
  unfold shortId.
  destruct (JS.prop x "id"); intros; try discriminate; reflexivity.
Qed.


(** X12.  An item whose id is present but is neither a string nor an
    array (a number, say) has no [slice]: when the transport answers
    2xx with an array holding such an item, each list tool fails
    instead of returning a list. *)
Theorem list_tools_fail_on_unsliceable_id
  (args st : value) (env : Env) (res : TransportResult) (log : Log)
  (items : list value) (x : value) :
  destructure args "status" = inr st ->
  serves env res ->
  isOk res = true ->
  getData res = VArr items ->
  In x items ->
  JS.nullish x = false ->
  JS.nullish (JS.prop x "id") = false ->
  JS.isString (JS.prop x "id") = false ->
  JS.isArray (JS.prop x "id") = false ->
  (exists e, fst (tools.beeboo_knowledge_list args env log) = inl e) /\
  (exists e, fst (tools.beeboo_approvals_list args env log) = inl e) /\
  (exists e, fst (tools.beeboo_requests_list args env log) = inl e).
Proof.
  intros D Sv Ok G I N Ni Ns Na.
  assert (Gp : getProp x "id" = inr (JS.prop x "id"))
    by (destruct x; try reflexivity; discriminate).
  assert (Ne : items <> []) by (intros ->; contradiction).
  repeat split.
  - unfold tools.beeboo_knowledge_list. run_api Sv.
    rewrite orFail_ok by assumption. rewrite G. cbn [tools.arrayOrEmpty].
    destruct (mapi_fails tools.formatEntry x) with (items := items) (i := 0%nat)
      as [e E]; [| exact I |].
    + intros i. unfold tools.formatEntry.
      rewrite Gp, (shortId_not_sliceable _ _ Ni Ns Na). now eexists.
    + rewrite E. destruct items; [contradiction | now exists e].
  - unfold tools.beeboo_approvals_list. rewrite D. unfold_api.
    rewrite statusQuery_dflt.
    destruct (JS.printable st) eqn:P.
    + rewrite (request_serves _ _ Sv) by now apply statusQuery_ok.
      rewrite orFail_ok by assumption. rewrite G. cbn [tools.arrayOrEmpty].
      destruct (mapi_fails tools.formatApproval x) with (items := items) (i := 0%nat)
        as [e E]; [| exact I |].
      * intros i. unfold tools.formatApproval.
        rewrite Gp, (shortId_not_sliceable _ _ Ni Ns Na). now eexists.
      * rewrite E. destruct items; [contradiction | now exists e].
    + rewrite (request_throws _ _ _ Sv _ _ _ _ _ (statusQuery_throws _ P)).
      now eexists.
  - unfold tools.beeboo_requests_list. rewrite D. unfold_api.
    rewrite statusQuery_dflt.
    destruct (JS.printable st) eqn:P.
    + rewrite (request_serves _ _ Sv) by now apply statusQuery_ok.
      rewrite orFail_ok by assumption. rewrite G. cbn [tools.arrayOrEmpty].
      destruct (mapi_fails tools.formatRequest x) with (items := items) (i := 0%nat)
        as [e E]; [| exact I |].
      * intros i. unfold tools.formatRequest.
        rewrite Gp, (shortId_not_sliceable _ _ Ni Ns Na). now eexists.
      * rewrite E. destruct items; [contradiction | now exists e].
    + rewrite (request_throws _ _ _ Sv _ _ _ _ _ (statusQuery_throws _ P)).
      now eexists.
Qed.

(** X12 on a knowledge entry with the numeric id 42. *)
Lemma list_tools_fail_on_unsliceable_id_witness :
  exists e,
    fst (tools.beeboo_knowledge_list (VObj [])
           (mkEnv (Some "bb_sk_test")
              (fun _ => inr (mkResult 200 (VArr [VObj [("id", VNum 42)]]) "")))
           [])
    = inl e.
Proof.
  refine (proj1 (list_tools_fail_on_unsliceable_id (VObj []) VUndef
                   (mkEnv (Some "bb_sk_test")
                      (fun _ => inr (mkResult 200 (VArr [VObj [("id", VNum 42)]]) "")))
                   (mkResult 200 (VArr [VObj [("id", VNum 42)]]) "") []
                   [VObj [("id", VNum 42)]] (VObj [("id", VNum 42)])
                   eq_refl _ eq_refl eq_refl _ eq_refl eq_refl eq_refl eq_refl)).
  - split; [exists "bb_sk_test"; split; [reflexivity | discriminate] | reflexivity].
  - left. reflexivity.
Defined.


(* ===================================================================== *)
(** ** The create tools and the approval check on a 2xx answer *)
(* ===================================================================== *)

Lemma string_app_nil_r (s : string) : s ++ "" = s.
Proof. induction s as [| c s IH]; simpl; [reflexivity | now rewrite IH]. Qed.

Lemma or_default_printable (v : value) (s : string) :
  JS.printable (JS.or v (VStr s)) = JS.printable v.
Proof.
  unfold JS.or. destruct (JS.truthy v) eqn:T; [reflexivity |].
  now rewrite (falsy_printable _ T).
Qed.

(** X13.  On a 2xx answer the three create tools return the payload
    as data whatever it is, be it [null] or plain text, as long as the
    payload's id has a text: the knowledge entry text names the id
    when it is truthy, the approval and work request texts show the
    id or the word [unknown], and the work request text shows the
    priority that was sent, [medium] when none was given.  An id (or a
    priority) without a text makes the handler throw after the
    request. *)
Theorem create_tools_on_success
  (args : value) (t : string) (env : Env) (res : TransportResult) (log : Log) :
  destructure args "title" = inr (VStr t) ->
  serves env res ->
  isOk res = true ->
  (forall given,
     tools.hasTags (JS.prop args "tags") = inr given ->
     fst (tools.beeboo_knowledge_add args env log)
     = if JS.printable (JS.optProp (getData res) "id")
       then inr (mkToolResult
                   ("✅ Knowledge entry created: " ++ quoted t
                    ++ (if JS.truthy (JS.optProp (getData res) "id")
                        then " (ID: " ++ JS.toStr (JS.optProp (getData res) "id") ++ ")"
                        else ""))
                   (getData res))
       else inl JS.cannotConvert)
  /\
  fst (tools.beeboo_approval_request args env log)
  = (if JS.printable (JS.optProp (getData res) "id")
     then inr (mkToolResult
                 ("⏳ Approval requested: " ++ quoted t ++ nl
                  ++ "ID: "
                  ++ JS.toStr (JS.or (JS.optProp (getData res) "id") (VStr "unknown"))
                  ++ nl ++ "Status: pending" ++ nl ++ nl
                  ++ "Wait for human approval before proceeding.")
                 (getData res))
     else inl JS.cannotConvert)
  /\
  fst (tools.beeboo_request_create args env log)
  = (if JS.printable (JS.optProp (getData res) "id")
        && JS.printable (JS.prop args "priority")
     then inr (mkToolResult
                 ("📋 Work request created: " ++ quoted t ++ nl
                  ++ "ID: "
                  ++ JS.toStr (JS.or (JS.optProp (getData res) "id") (VStr "unknown"))
                  ++ nl ++ "Priority: "
                  ++ JS.toStr (JS.or (JS.prop args "priority") (VStr "medium")))
                 (getData res))
     else inl JS.cannotConvert).
Proof.
  intros D Sv Ok. split; [| split].
  - intros given G. unfold tools.beeboo_knowledge_add. rewrite D, G.
    unfold bind at 1. unfold lift at 1, ret at 1.
    unfold bind at 1. unfold lift at 1, ret at 1. cbn [slugOf].
    unfold bind at 1. unfold lift at 1, ret at 1.
    run_api Sv. rewrite orFail_ok by assumption.
    unfold JS.toString.
    destruct (JS.truthy (JS.optProp (getData res) "id")) eqn:T.
    + destruct (JS.printable (JS.optProp (getData res) "id")); cbn [andThen];
        [| reflexivity].
      unfold quoted. now rewrite !string_app_assoc.
    + rewrite (falsy_printable _ T). cbn [andThen].
      unfold quoted. now rewrite !string_app_assoc.
  - unfold tools.beeboo_approval_request. rewrite D. run_api Sv.
    rewrite orFail_ok by assumption.
    unfold JS.toString. rewrite or_default_printable.
    destruct (JS.printable (JS.optProp (getData res) "id")); cbn [andThen];
      [| reflexivity].
    unfold quoted. now rewrite !string_app_assoc.
  - unfold tools.beeboo_request_create. rewrite D. run_api Sv.
    rewrite orFail_ok by assumption.
    unfold JS.toString. rewrite !or_default_printable.
    destruct (JS.printable (JS.optProp (getData res) "id")); cbn [andThen andb];
      [| reflexivity].
    destruct (JS.printable (JS.prop args "priority")); cbn [andThen];
      [| reflexivity].
    unfold quoted. now rewrite !string_app_assoc.
Qed.

(** X13 on a backend that answers 201 with the body [null]. *)
Lemma create_tools_on_success_witness :
  fst (tools.beeboo_request_create
         (VObj [("title", VStr "Rotate keys"); ("priority", VStr "high")])
         (mkEnv (Some "bb_sk_test") (fun _ => inr (mkResult 201 VNull "null")))
         [])
  = inr (mkToolResult
           ("📋 Work request created: " ++ quoted "Rotate keys" ++ nl
            ++ "ID: unknown" ++ nl ++ "Priority: high")
           VNull).
Proof.
  refine (proj2 (proj2 (create_tools_on_success
                          (VObj [("title", VStr "Rotate keys"); ("priority", VStr "high")])
                          "Rotate keys"
                          (mkEnv (Some "bb_sk_test")
                                 (fun _ => inr (mkResult 201 VNull "null")))
                          (mkResult 201 VNull "null") [] eq_refl _ eq_refl))).
  split; [exists "bb_sk_test"; split; [reflexivity | discriminate] | reflexivity].
Defined.

Lemma optionalLine_text (label : string) (x : value) (t : string) :
  tools.optionalLine label x t
  = if JS.printable x
    then inr (t ++ (if JS.truthy x then nl ++ label ++ JS.toStr x else ""))
    else inl JS.cannotConvert.
Proof.
  unfold tools.optionalLine.
  destruct (JS.truthy x) eqn:T.
  - cbn [JS.template JS.pieceText andThen]. unfold JS.toString.
    destruct (JS.printable x); cbn [andThen]; [| reflexivity].
    now rewrite !string_app_assoc.
  - now rewrite (falsy_printable _ T), string_app_nil_r.
Qed.

(** X14.  On a 2xx answer the approval check reads the payload's
    status first: a payload that is [null] or [undefined] makes it
    throw.  Any other payload whose title, status, description,
    decision time and decision note have a text is returned as data,
    under a text that opens with the icon of the status (approved,
    denied, anything else), shows the title or else the id, the status
    or else [pending], and then the description, the decision time and
    the decision note, each only when truthy; one of these without a
    text makes the handler throw. *)
Theorem approval_check_on_success
  (args : value) (id : string) (env : Env) (res : TransportResult) (log : Log) :
  destructure args "id" = inr (VStr id) ->
  serves env res ->
  isOk res = true ->
  (JS.nullish (getData res) = true ->
   fst (tools.beeboo_approval_check args env log)
   = inl (TypeError ("Cannot read properties of " ++ JS.toStr (getData res)
                     ++ " (reading 'status')")))
  /\
  (JS.nullish (getData res) = false ->
   fst (tools.beeboo_approval_check args env log)
   = if JS.printable (JS.prop (getData res) "title")
        && JS.printable (JS.prop (getData res) "status")
        && JS.printable (JS.prop (getData res) "description")
        && JS.printable (JS.prop (getData res) "decided_at")
        && JS.printable (JS.prop (getData res) "decision_note")
     then
       inr (mkToolResult
              ((if JS.strictEqStr (JS.prop (getData res) "status") "approved" then "✅"
                else if JS.strictEqStr (JS.prop (getData res) "status") "denied" then "❌"
                else "⏳")
               ++ " Approval: "
               ++ JS.toStr (JS.or (JS.prop (getData res) "title") (VStr id)) ++ nl
               ++ "Status: "
               ++ JS.toStr (JS.or (JS.prop (getData res) "status") (VStr "pending"))
               ++ (if JS.truthy (JS.prop (getData res) "description")
                   then nl ++ "Description: "
                        ++ JS.toStr (JS.prop (getData res) "description") else "")
               ++ (if JS.truthy (JS.prop (getData res) "decided_at")
                   then nl ++ "Decided: "
                        ++ JS.toStr (JS.prop (getData res) "decided_at") else "")
               ++ (if JS.truthy (JS.prop (getData res) "decision_note")
                   then nl ++ "Note: "
                        ++ JS.toStr (JS.prop (getData res) "decision_note") else ""))
              (getData res))
     else inl JS.cannotConvert).
Proof.
  intros D Sv Ok. split; intros N;
    unfold tools.beeboo_approval_check; rewrite D; run_api Sv;
    rewrite Ok; cbn [negb].
  - destruct (getData res); try discriminate; reflexivity.
  - assert (G : getProp (getData res) "status" = inr (JS.prop (getData res) "status"))
      by (destruct (getData res); try reflexivity; discriminate).
    rewrite G. cbv beta iota.
    unfold JS.toString. rewrite !or_default_printable.
    destruct (JS.printable (JS.prop (getData res) "title")); cbn [andThen andb];
      [| reflexivity].
    destruct (JS.printable (JS.prop (getData res) "status")); cbn [andThen andb];
      [| reflexivity].
    cbv beta iota. rewrite optionalLine_text.
    destruct (JS.printable (JS.prop (getData res) "description")); cbn [andThen andb];
      [| reflexivity].
    cbv beta iota. rewrite optionalLine_text.
    destruct (JS.printable (JS.prop (getData res) "decided_at")); cbn [andThen andb];
      [| reflexivity].
    cbv beta iota. rewrite optionalLine_text.
    destruct (JS.printable (JS.prop (getData res) "decision_note")); cbn [andThen andb];
      [| reflexivity].
    cbv beta iota. cbn [fst]. unfold tools.approvalIcon.
    now rewrite !string_app_assoc.
Qed.

(** X14 on a backend that answers 200 with the envelope
    [{ data: null }]. *)
Lemma approval_check_on_success_witness :
  fst (tools.beeboo_approval_check (VObj [("id", VStr "abc123")])
         (mkEnv (Some "bb_sk_test")
                (fun _ => inr (mkResult 200 (VObj [("data", VNull)]) "")))
         [])
  = inl (TypeError "Cannot read properties of null (reading 'status')").
Proof.
  refine (proj1 (approval_check_on_success (VObj [("id", VStr "abc123")]) "abc123"
                   (mkEnv (Some "bb_sk_test")
                          (fun _ => inr (mkResult 200 (VObj [("data", VNull)]) "")))
                   (mkResult 200 (VObj [("data", VNull)]) "") [] eq_refl _ eq_refl)
            eq_refl).
  split; [exists "bb_sk_test"; split; [reflexivity | discriminate] | reflexivity].
Defined.

(* ===================================================================== *)
(** ** The payload envelope *)
(* ===================================================================== *)

Lemma getData_wrapped (st : Z) (p : value) (r : string) :
  p <> VUndef -> getData (mkResult st (VObj [("data", p)]) r) = p.
Proof.
  intros N. unfold getData. cbn. destruct p; try reflexivity. contradiction.
Qed.

Lemma getData_plain (st : Z) (p : value) (r : string) :
  JS.optProp p "data" = VUndef -> getData (mkResult st p r) = p.
Proof. intros H. unfold getData. cbn [data]. now rewrite H. Qed.


(** X15.  Handlers do not see whether the service wrapped its payload:
    for every tool and arguments that passed its schema, a 2xx answer
    whose body is [{ data: p }] and a 2xx answer whose body is [p]
    itself ([p] not [undefined] and without a [data] of its own) give
    the same result and the same request. *)
Theorem payload_envelope_is_transparent
  (n : string) (tool : ToolSpec) (raw a p : value)
  (st1 st2 : Z) (r1 r2 : string) (env1 env2 : Env) (log : Log) :
  findTool n registry = Some tool ->
  z.object_parse (inputSchema tool) raw = inr a ->
  p <> VUndef ->
  JS.optProp p "data" = VUndef ->
  serves env1 (mkResult st1 (VObj [("data", p)]) r1) ->
  serves env2 (mkResult st2 p r2) ->
  isOk (mkResult st1 (VObj [("data", p)]) r1) = true ->
  isOk (mkResult st2 p r2) = true ->
  handler tool a env1 log = handler tool a env2 log.
Proof.
  intros T P Np Hp S1 S2 Ok1 Ok2.
  pose proof (getData_wrapped st1 p r1 Np) as G1.
  pose proof (getData_plain st2 p r2 Hp) as G2.
  destruct (handler_form n tool raw a (findTool_In _ _ _ T) P)
    as (K & H & _ & _ & Q & E).
  rewrite !H. unfold bind.
  rewrite (request_serves _ _ S1) by exact Q.
  rewrite (request_serves _ _ S2) by exact Q.
  apply E; [exact Ok1 | exact Ok2 | now rewrite G1, G2].
Qed.

(** X15 on the knowledge list, an empty array sent bare and wrapped. *)
Lemma payload_envelope_is_transparent_witness :
  tools.beeboo_knowledge_list (VObj [])
    (mkEnv (Some "bb_sk_test")
           (fun _ => inr (mkResult 200 (VObj [("data", VArr [])]) "")))
    []
  = tools.beeboo_knowledge_list (VObj [])
      (mkEnv (Some "bb_sk_test") (fun _ => inr (mkResult 200 (VArr []) "[]")))
      [].
Proof.
  refine (payload_envelope_is_transparent "beeboo_knowledge_list" _
            (VObj []) (VObj []) (VArr []) 200 200 "" "[]"
            (mkEnv (Some "bb_sk_test")
                   (fun _ => inr (mkResult 200 (VObj [("data", VArr [])]) "")))
            (mkEnv (Some "bb_sk_test") (fun _ => inr (mkResult 200 (VArr []) "[]")))
            [] eq_refl eq_refl _ eq_refl _ _ eq_refl eq_refl).
  - discriminate.
  - split; [exists "bb_sk_test"; split; [reflexivity | discriminate] | reflexivity].
  - split; [exists "bb_sk_test"; split; [reflexivity | discriminate] | reflexivity].
Defined.


(* ===================================================================== *)
(** ** The tool definitions advertised to the protocol *)
(* ===================================================================== *)

Lemma lookup_setProp_same (k : string) (v : value) (o : list (string * value)) :
  JS.lookup k (setProp k v o) = Some v.
Proof.
  induction o as [| [k' x] r IH]; cbn [setProp JS.lookup].
  - now rewrite String.eqb_refl.
  - destruct (String.eqb_spec k' k) as [-> | Ne]; cbn [JS.lookup].
    + now rewrite String.eqb_refl.
    + destruct (String.eqb_spec k' k); [contradiction | exact IH].
Qed.

Lemma lookup_setProp_other (k k0 : string) (v : value) (o : list (string * value)) :
  k <> k0 -> JS.lookup k (setProp k0 v o) = JS.lookup k o.
Proof.
  intros Ne. induction o as [| [k' x] r IH]; cbn [setProp JS.lookup].
  - destruct (String.eqb_spec k0 k); [congruence | reflexivity].
  - destruct (String.eqb_spec k' k0) as [-> | Ne']; cbn [JS.lookup].
    + destruct (String.eqb_spec k0 k); [congruence | reflexivity].
    + destruct (String.eqb_spec k' k); [reflexivity | exact IH].
Qed.

(** X7.  [zodToJsonSchema] gives every parameter a [type], which is
    [array] for an array schema and [string] for a string or an
    enumeration; an optional wrapper changes neither the type nor the
    [enum] list, which holds exactly the values of an enumeration and
    is absent otherwise; and the description reported is the
    outermost one the schema carries. *)
Theorem json_schema_translation (schema : Zod) :
  JS.lookup "type" (zodToJsonSchema schema)
  = Some (VStr (JsonSchemaSpec.typeOf schema)) /\
  JS.lookup "enum" (zodToJsonSchema schema) = JsonSchemaSpec.enumOf schema /\
  JS.lookup "description" (zodToJsonSchema schema)
  = option_map VStr (JsonSchemaSpec.described schema).
Proof.
  unfold JsonSchemaSpec.typeOf, JsonSchemaSpec.enumOf.
  induction schema as [d | values d | t IH d | inner IH d].
  - destruct d as [[| c r] |]; repeat split.
  - destruct d as [[| c r] |]; repeat split.
  - destruct t; destruct d as [[| c r] |]; repeat split.
  - destruct IH as (It & Ie & Id).
    cbn [zodToJsonSchema JsonSchemaSpec.core JsonSchemaSpec.described].
    destruct (Described.descriptionOf (ZodOptional inner d)) as [t |] eqn:D.
    + rewrite !lookup_setProp_other by discriminate.
      rewrite lookup_setProp_same. repeat split; assumption.
    + repeat split; assumption.
Qed.

(** X8.  [getToolDefinitions] advertises the eight tools of the
    registry, one each and in its order, under the registry's names
    and descriptions: the input of each is an [object], its properties
    are the fields of the tool's schema in their order, and its
    [required] list holds exactly the fields validation does not let
    go missing.  The schemas written in tools.js, read without their
    descriptions, are the ones [executeTool] validates against; and
    server.js registers each callback under the same name, with the
    same description and the same schema. *)
Theorem tool_definitions_follow_registry :
  List.length getToolDefinitions = 8%nat
  /\
  map JsonSchemaSpec.summary getToolDefinitions
  = map (fun e => (VStr (fst e), VStr (description (snd e)), VStr "object",
                   VArr (map VStr (requiredFields (inputSchema (snd e)))),
                   map fst (inputSchema (snd e))))
        registry
  /\
  map (fun e => (fst e, map (fun p => (fst p, Described.erase (snd p))) (snd e)))
      Described.toolSchemas
  = map (fun e => (fst e, inputSchema (snd e))) registry
  /\
  Described.serverSchemas
  = map (fun e => (fst e, (description (snd e),
                           Described.schemaOf (fst e) Described.toolSchemas)))
        registry
  /\
  (forall zm, map fst (registerTools zm) = map fst registry)
  /\
  map fst registry = map (fun e => name (snd e)) registry
  /\
  NoDup (map fst registry).
Proof.
  repeat split.
  cbn [map fst registry].
  repeat (constructor; [cbn [In]; intuition discriminate |]).
  constructor.
Qed.

(* ===================================================================== *)
(** ** The query parameters of the list tools *)
(* ===================================================================== *)


(** X9.  The status filter travels as a query parameter only when one
    was given: with it [undefined] or empty, the approvals and work
    request lists send a GET without parameters; with a status they
    send exactly [status=<value>]; and the knowledge list never sends
    a parameter.  This holds whatever the outcome of the request. *)
Theorem status_filter_as_query
  (args st : value) (env : Env) (log : Log) :
  destructure args "status" = inr st ->
  st = VUndef \/ (exists s, st = VStr s) ->
  exists qa qr qk,
    snd (tools.beeboo_approvals_list args env log)
    = (log ++ [mkRequest "GET" "/api/v1/approvals" VNull qa])%list /\
    snd (tools.beeboo_requests_list args env log)
    = (log ++ [mkRequest "GET" "/api/v1/requests" VNull qr])%list /\
    snd (tools.beeboo_knowledge_list args env log)
    = (log ++ [mkRequest "GET" "/api/v1/knowledge/entries" VNull qk])%list /\
    queryParams qa = inr match st with
                         | VStr (String c r) => [("status", String c r)]
                         | _ => []
                         end /\
    queryParams qr = queryParams qa /\
    queryParams qk = inr [].
Proof.
  intros D Ty.
  assert (P : JS.printable st = true) by (destruct Ty as [-> | [s ->]]; reflexivity).
  exists (tools.statusQuery st), (tools.statusQuery st), (VObj []).
  repeat split.
  - unfold tools.beeboo_approvals_list. rewrite D.
    unfold orFail, api.listApprovals, api.get, request, bind, lift, ret, throw.
    rewrite statusQuery_dflt.
    split_cases; reflexivity.
  - unfold tools.beeboo_requests_list. rewrite D.
    unfold orFail, api.listRequests, api.get, request, bind, lift, ret, throw.
    rewrite statusQuery_dflt.
    split_cases; reflexivity.
  - unfold tools.beeboo_knowledge_list.
    unfold orFail, api.listKnowledgeEntries, api.get, request, bind, lift, ret, throw.
    cbn [api.dflt].
    split_cases; reflexivity.
  - destruct Ty as [-> | [[| c r] ->]]; reflexivity.
Qed.

(** X9 on the approvals list filtered by [approved], with no API key. *)
Lemma status_filter_as_query_witness :
  exists qa qr qk,
    snd (tools.beeboo_approvals_list (VObj [("status", VStr "approved")])
           (mkEnv None (fun _ => inl "unreachable")) [])
    = [mkRequest "GET" "/api/v1/approvals" VNull qa] /\
    snd (tools.beeboo_requests_list (VObj [("status", VStr "approved")])
           (mkEnv None (fun _ => inl "unreachable")) [])
    = [mkRequest "GET" "/api/v1/requests" VNull qr] /\
    snd (tools.beeboo_knowledge_list (VObj [("status", VStr "approved")])
           (mkEnv None (fun _ => inl "unreachable")) [])
    = [mkRequest "GET" "/api/v1/knowledge/entries" VNull qk] /\
    queryParams qa = inr [("status", "approved")] /\
    queryParams qr = queryParams qa /\
    queryParams qk = inr [].
Proof.
  refine (status_filter_as_query (VObj [("status", VStr "approved")]) (VStr "approved")
            (mkEnv None (fun _ => inl "unreachable")) [] eq_refl _).
  right. now exists "approved".
Defined.

(* ===================================================================== *)
(** ** More on the slug *)
(* ===================================================================== *)

Lemma alnum_not_upper (c : ascii) : Slug.isAlnum c = true -> Slug.isUpper c = false.
Proof.
  unfold Slug.isAlnum, Slug.isUpper. cbv zeta. intros A.
  apply orb_prop in A as [A | A]; apply andb_prop in A as [L U];
    apply Nat.leb_le in L; apply Nat.leb_le in U;
    apply orb_false_intro.
  - destruct (Nat.leb_spec (nat_of_ascii c) 90); [lia | apply andb_false_r].
  - destruct (Nat.leb_spec 192 (nat_of_ascii c)); [lia | reflexivity].
  - destruct (Nat.leb_spec 65 (nat_of_ascii c)); [lia | reflexivity].
  - destruct (Nat.leb_spec 192 (nat_of_ascii c)); [lia | reflexivity].
Qed.

Lemma toLowerCase_alnum (w : string) :
  SlugSpec.allAlnum w = true -> Slug.toLowerCase w = w.
Proof.
  induction w as [| c r IH]; [reflexivity |].
  cbn [SlugSpec.allAlnum Slug.toLowerCase]. intros H.
  apply andb_prop in H as [A R].
  unfold Slug.lowerChar. now rewrite (alnum_not_upper _ A), (IH R).
Qed.

Lemma toLowerCase_app (a b : string) :
  Slug.toLowerCase (a ++ b) = Slug.toLowerCase a ++ Slug.toLowerCase b.
Proof.
  induction a as [| c r IH]; [reflexivity |].
  cbn [append Slug.toLowerCase]. now rewrite IH.
Qed.

Lemma toLowerCase_joined (ws : list string) :
  Forall (fun w => SlugSpec.nonEmpty w = true /\ SlugSpec.allAlnum w = true) ws ->
  Slug.toLowerCase (String.concat "-" ws) = String.concat "-" ws.
Proof.
  induction 1 as [| w rest [_ A] F IH]; [reflexivity |].
  destruct rest as [| w' rest']; cbn [String.concat] in *.
  - now apply toLowerCase_alnum.
  - rewrite !toLowerCase_app, IH, (toLowerCase_alnum _ A). reflexivity.
Qed.

Lemma pieces_word (w : string) :
  SlugSpec.allAlnum w = true -> SlugSpec.pieces w = [w].
Proof.
  induction w as [| c r IH]; [reflexivity |].
  cbn [SlugSpec.allAlnum SlugSpec.pieces]. intros H.
  apply andb_prop in H as [A R]. now rewrite A, (IH R).
Qed.

Lemma pieces_before_dash (w x : string) :
  SlugSpec.allAlnum w = true ->
  SlugSpec.pieces (w ++ "-" ++ x) = w :: SlugSpec.pieces x.
Proof.
  induction w as [| c r IH]; [reflexivity |].
  cbn [SlugSpec.allAlnum]. intros H. apply andb_prop in H as [A R].
  change (String c r ++ "-" ++ x) with (String c (r ++ "-" ++ x)).
  cbn [SlugSpec.pieces]. now rewrite A, (IH R).
Qed.

Lemma pieces_joined (ws : list string) :
  Forall (fun w => SlugSpec.nonEmpty w = true /\ SlugSpec.allAlnum w = true) ws ->
  ws <> [] ->
  SlugSpec.pieces (String.concat "-" ws) = ws.
Proof.
  induction 1 as [| w rest [_ A] F IH]; [intros N; now contradiction N |].
  intros _. destruct rest as [| w' rest']; cbn [String.concat].
  - now apply pieces_word.
  - rewrite (pieces_before_dash _ _ A). f_equal. apply IH. discriminate.
Qed.

Lemma filter_runs (ws : list string) :
  Forall (fun w => SlugSpec.nonEmpty w = true /\ SlugSpec.allAlnum w = true) ws ->
  filter SlugSpec.nonEmpty ws = ws.
Proof.
  induction 1 as [| w rest [N _] F IH]; [reflexivity |].
  cbn [filter]. now rewrite N, IH.
Qed.

(** X16.  The slug is stable: taking the slug of a slug gives the slug
    back, so a key that was derived once can be derived again from
    itself. *)
Theorem slug_idempotent (title : string) :
  Slug.slug (Slug.slug title) = Slug.slug title.
Proof.
  rewrite (slug_refines title). unfold SlugSpec.slug.
  pose proof (runs_alnum (Slug.toLowerCase title)) as R.
  destruct (SlugSpec.runs (Slug.toLowerCase title)) as [| w ws] eqn:E;
    [reflexivity |].
  rewrite slug_refines. unfold SlugSpec.slug, SlugSpec.runs.
  rewrite (toLowerCase_joined _ R), (pieces_joined _ R) by discriminate.
  now rewrite (filter_runs _ R).
Qed.

Lemma runs_nil (s : string) :
  SlugSpec.runs s = [] <-> SlugFacts.anyAlnum s = false.
Proof.
  unfold SlugSpec.runs. induction s as [| c r IH]; [split; reflexivity |].
  cbn [SlugSpec.pieces SlugFacts.anyAlnum].
  destruct (Slug.isAlnum c); cbn [orb].
  - destruct (SlugSpec.pieces r); cbn [filter SlugSpec.nonEmpty];
      split; discriminate.
  - cbn [filter SlugSpec.nonEmpty]. exact IH.
Qed.

Lemma joined_empty (ws : list string) :
  Forall (fun w => SlugSpec.nonEmpty w = true /\ SlugSpec.allAlnum w = true) ws ->
  String.concat "-" ws = "" <-> ws = [].
Proof.
  intros F. destruct F as [| w rest [N _] _]; [split; reflexivity |].
  destruct w as [| c w]; [discriminate |].
  destruct rest; cbn [String.concat append]; split; discriminate.
Qed.


Lemma lowerChar_alnum (c : ascii) :
  SlugFacts.isLetterOrDigit c = true -> Slug.isAlnum (Slug.lowerChar c) = true.
Proof.
  destruct c as [[] [] [] [] [] [] [] []]; vm_compute; intros H;
    first [reflexivity | discriminate H].
Qed.

Lemma anyAlnum_toLowerCase (s : string) :
  SlugFacts.anyLetterOrDigit s = true ->
  SlugFacts.anyAlnum (Slug.toLowerCase s) = true.
Proof.
  induction s as [| c r IH]; [discriminate |].
  cbn [SlugFacts.anyLetterOrDigit Slug.toLowerCase SlugFacts.anyAlnum]. intros H.
  apply orb_prop in H as [H | H].
  - now rewrite (lowerChar_alnum _ H).
  - rewrite (IH H). apply orb_true_r.
Qed.

(** X17.  The slug is empty exactly when the lower-cased title holds
    no character of the class [a-z0-9]: such a title, the empty one
    included, gets the empty key, and every other title gets a key
    that is not empty.  In particular a title with a letter A-Z or
    a-z or with a digit never gets the empty key. *)
Theorem slug_empty_iff (title : string) :
  (Slug.slug title = "" <-> SlugFacts.anyAlnum (Slug.toLowerCase title) = false)
  /\
  (SlugFacts.anyLetterOrDigit title = true -> Slug.slug title <> "").
Proof.
  assert (E : Slug.slug title = ""
              <-> SlugFacts.anyAlnum (Slug.toLowerCase title) = false).
  { rewrite slug_refines. unfold SlugSpec.slug.
    rewrite (joined_empty _ (runs_alnum _)). apply runs_nil. }
  split; [exact E |].
  intros L Z. apply E in Z. rewrite (anyAlnum_toLowerCase _ L) in Z. discriminate.
Qed.

(* ===================================================================== *)
(** ** Names that are not tools *)
(* ===================================================================== *)

Lemma findTool_unknown (n : string) (l : list (string * ToolSpec)) :
  ~ In n (map fst l) -> findTool n l = None.
Proof.
  induction l as [| [k t] rest IH]; [reflexivity |].
  cbn [map fst In findTool]. intros N.
  destruct (String.eqb_spec k n) as [E | _]; [exfalso; apply N; now left |].
  apply IH. intros I. apply N. now right.
Qed.

(** X18.  A name that is not one of the registry's keys never reaches
    validation of a tool's schema, a handler or the service.  When it
    is not a member that every object inherits either, [executeTool]
    throws [Unknown tool: <name>] whatever the arguments are.  An
    inherited name, [constructor] or [toString] for one, is truthy
    under [tools[name]] and passes the guard: the call then fails with
    an exception that is not an [Error], so not the unknown-tool one. *)
Theorem unknown_tool_is_refused (n : string) (args : value) (env : Env) (log : Log) :
  ~ In n (map fst registry) ->
  (inherited n = false ->
   executeTool n args env log = (inl (Error ("Unknown tool: " ++ n)), log))
  /\
  (inherited n = true ->
   exists e, executeTool n args env log = (inl e, log) /\ forall m, e <> Error m).
Proof.
  intros N. unfold executeTool. rewrite (findTool_unknown n registry N).
  split; intros I; rewrite I.
  - reflexivity.
  - unfold bind, lift, throw, z.shapeless_parse.
    destruct (JS.or args (VObj [])); eexists; (split; [reflexivity | discriminate]).
Qed.

(** X18 on a name in the wrong case and on the name [constructor]. *)
Lemma unknown_tool_is_refused_witness :
  executeTool "Beeboo_Knowledge_Search" (VObj [("query", VStr "deploy")])
    (mkEnv (Some "bb_sk_test") (fun _ => inl "unreachable")) []
  = (inl (Error "Unknown tool: Beeboo_Knowledge_Search"), [])
  /\
  exists e,
    executeTool "constructor" (VObj [("query", VStr "deploy")])
      (mkEnv (Some "bb_sk_test") (fun _ => inl "unreachable")) []
    = (inl e, []) /\ forall m, e <> Error m.
Proof.
  split.
  - refine (proj1 (unknown_tool_is_refused "Beeboo_Knowledge_Search"
                     (VObj [("query", VStr "deploy")])
                     (mkEnv (Some "bb_sk_test") (fun _ => inl "unreachable")) [] _)
                  eq_refl).
    cbn [map fst registry In]. intuition discriminate.
  - refine (proj2 (unknown_tool_is_refused "constructor"
                     (VObj [("query", VStr "deploy")])
                     (mkEnv (Some "bb_sk_test") (fun _ => inl "unreachable")) [] _)
                  eq_refl).
    cbn [map fst registry In]. intuition discriminate.
Defined.
